(** * LegalEase automation backend: the session orchestrator

    A shallow embedding of [backend/api/v1/automation.py]: the keyword
    intent classifier, the extraction of the user's data and the task
    template, the chat-reply wrapper, session cleanup, the scoped error
    reporter, the screenshot stream, the WebSocket command loop and the
    health check, followed by the properties of the design document that
    the code settles and by further properties of the code.

    Conventions.
    - Python text is a [string] of ASCII characters: [lower], [upper] and
      the class of white space are what [str.lower], [str.upper] and [\s]
      are on ASCII text (every keyword and every pattern of the module is
      ASCII); what they do to other characters is not modelled.
    - Python floats are binary64 kernel floats.
    - Objects that are shared by reference (a session is reachable from the
      endpoint's local variable and from the registry) live in a store and
      are named by a location.
    - Coroutines are run to completion one after the other; what the
      outside world answers (the frames the client sends, what the agent and
      the reply service return) is an explicit input of each function.
    - Every call that leaves the process (a frame handed to the socket, a
      task cancelled, an agent closed) and every write of a session's
      status is an action; a computation returns the actions it performed,
      in program order, next to its result and the world it leaves. *)

From Stdlib Require Import String Ascii List ZArith Bool Floats DecimalString Lia.
From stdpp Require Import base option list strings gmap.
Import ListNotations.

Set Warnings "-inexact-float,-register-all".
Open Scope string_scope.

(** ** Text *)

Module Text.

(** One character of [str.lower()]. *)
Definition lower_char (c : ascii) : ascii :=
  let n := nat_of_ascii c in
  if (65 <=? n)%nat && (n <=? 90)%nat then ascii_of_nat (n + 32) else c.

(** [s.lower()] *)
Fixpoint lower (s : string) : string :=
  match s with
  | EmptyString => EmptyString
  | String c s' => String (lower_char c) (lower s')
  end.

(** [k in s] on two strings: [k] occurs in [s] as a contiguous run. *)
Fixpoint contains (k s : string) : bool :=
  String.prefix k s ||
  match s with
  | EmptyString => false
  | String _ s' => contains k s'
  end.

(** [any(k in s for k in keywords)] *)
Definition any_in (keywords : list string) (s : string) : bool :=
  existsb (fun k => contains k s) keywords.

(** [str(n)] for a non-negative integer. *)
Definition str_of_nat (n : nat) : string :=
  NilZero.string_of_uint (Nat.to_uint n).

(** [format(x, ".0f")]: the nearest integer, ties to even, of a float. *)
Definition round_half_even (m : positive) (e : Z) : Z :=
  if (0 <=? e)%Z then (Zpos m * 2 ^ e)%Z
  else
    let d := (2 ^ (- e))%Z in
    let q := (Zpos m / d)%Z in
    let r := (Zpos m mod d)%Z in
    match (2 * r ?= d)%Z with
    | Lt => q
    | Gt => (q + 1)%Z
    | Eq => if Z.even q then q else (q + 1)%Z
    end.

Definition format_0f (x : float) : string :=
  match Prim2SF x with
  | S754_zero false => "0"
  | S754_zero true => "-0"
  | S754_infinity false => "inf"
  | S754_infinity true => "-inf"
  | S754_nan => "nan"
  | S754_finite s m e =>
      (if s then "-" else "") ++
      NilZero.string_of_uint (N.to_uint (Z.to_N (round_half_even m e)))
  end.

End Text.
Import Text.

(** One character of [str.upper()], and [s.upper()]. *)
Definition upper_char (c : ascii) : ascii :=
  let n := nat_of_ascii c in
  if (97 <=? n)%nat && (n <=? 122)%nat then ascii_of_nat (n - 32) else c.

Fixpoint upper (s : string) : string :=
  match s with
  | EmptyString => EmptyString
  | String c s' => String (upper_char c) (upper s')
  end.

(** [str(n)] for a non-negative integer given in binary. *)
Definition str_of_N (n : N) : string := NilZero.string_of_uint (N.to_uint n).

(** The double quote. *)
Definition dq : string := String (ascii_of_nat 34) "".

(** ** Regular expressions

    The fragment of Python's [re] that the module uses: literals, character
    classes, a class under a greedy star or repeated a fixed number of
    times, alternation, concatenation and capturing groups. Matching
    backtracks as [re] does: a star gives back one character at a time, an
    alternation tries its branches from left to right, and [search] takes
    the leftmost position at which the pattern matches. *)
Module Re.

Definition char_class := ascii -> bool.

Definition in_range (lo hi : nat) : char_class :=
  fun c => let n := nat_of_ascii c in (lo <=? n)%nat && (n <=? hi)%nat.

(** [\s] on ASCII text: tab to carriage return, the four separators 28 to
    31, and the space. *)
Definition space : char_class :=
  fun c => in_range 9 13 c || in_range 28 32 c.

Inductive regex :=
| Lit (s : string)
| Class (p : char_class)
| Star (p : char_class)
| Rep (n : nat) (p : char_class)
| Alt (r1 r2 : regex)
| Cat (r1 r2 : regex)
| Group (r : regex).

(** [s] without the prefix [l], if it has it. *)
Fixpoint strip (l s : string) : option string :=
  match l, s with
  | EmptyString, _ => Some s
  | String a l', String b s' => if Ascii.eqb a b then strip l' s' else None
  | String _ _, EmptyString => None
  end.

(** The longest run first, then one character less at a time. *)
Fixpoint star {A} (p : char_class) (s : string) (k : string -> option A) : option A :=
  match s with
  | String c s' =>
      if p c then
        match star p s' k with
        | Some x => Some x
        | None => k s
        end
      else k s
  | EmptyString => k s
  end.

Fixpoint rep (n : nat) (p : char_class) (s : string) : option string :=
  match n with
  | O => Some s
  | S n' =>
      match s with
      | String c s' => if p c then rep n' p s' else None
      | EmptyString => None
      end
  end.

(** What was consumed of [s] when [rest] is left. *)
Definition taken (s rest : string) : string :=
  substring 0 (String.length s - String.length rest) s.

(** [rmatch r s groups k]: match [r] at the start of [s], then go on with
    [k] on what is left and the groups captured so far. *)
Fixpoint rmatch (r : regex) (s : string) (groups : list string)
    (k : string -> list string -> option (list string)) : option (list string) :=
  match r with
  | Lit l =>
      match strip l s with
      | Some rest => k rest groups
      | None => None
      end
  | Class p =>
      match s with
      | String c rest => if p c then k rest groups else None
      | EmptyString => None
      end
  | Star p => star p s (fun rest => k rest groups)
  | Rep n p =>
      match rep n p s with
      | Some rest => k rest groups
      | None => None
      end
  | Alt r1 r2 =>
      match rmatch r1 s groups k with
      | Some m => Some m
      | None => rmatch r2 s groups k
      end
  | Cat r1 r2 => rmatch r1 s groups (fun rest groups' => rmatch r2 rest groups' k)
  | Group r0 =>
      rmatch r0 s groups (fun rest groups' => k rest (groups' ++ [taken s rest])%list)
  end.

(** [re.search(r, s)]: the groups of the leftmost match, if any. *)
Fixpoint search (r : regex) (s : string) : option (list string) :=
  match rmatch r s [] (fun _ groups => Some groups) with
  | Some m => Some m
  | None =>
      match s with
      | String _ s' => search r s'
      | EmptyString => None
      end
  end.

(** [m.group(n)] for a group that took part in the match. *)
Definition group (n : nat) (m : list string) : string := nth (n - 1) m "".

End Re.

(** ** Intent classification *)

(** The dictionary [analyze_user_intent] returns; the key ["action"] is
    present only on some paths. *)
Record Intent := mkIntent {
  intent : string;
  requires_automation : bool;
  task_type : string;
  confidence : float;
  action : option string
}.

Definition tax_keywords : list string :=
  ["tax"; "itr"; "income tax"; "filing"; "return"; "assessment";
   "tax return"; "file itr"].

Definition form_keywords : list string :=
  ["form"; "application"; "government"; "fill"; "submit"; "portal";
   "government portal"].

Definition help_keywords : list string :=
  ["help"; "guide"; "how"; "what"; "explain"; "understand"; "learn"].

Definition start_actions : list string := ["start"; "begin"; "file"; "submit"].
Definition check_actions : list string := ["check"; "status"; "verify"; "review"].
Definition help_actions : list string := ["help"; "guide"; "how"; "explain"].

(** [intent_data["action"] = a; intent_data["confidence"] = c] *)
Definition set_action (a : string) (c : float) (d : Intent) : Intent :=
  mkIntent (intent d) (requires_automation d) (task_type d) c (Some a).

Definition analyze_user_intent (user_message : string) : Intent :=
  let user_message_lower := lower user_message in
  if any_in tax_keywords user_message_lower then
    let intent_data := mkIntent "tax_filing" true "tax_filing" 0.9 None in
    if any_in start_actions user_message_lower then
      set_action "start_filing" 0.95 intent_data
    else if any_in check_actions user_message_lower then
      set_action "check_status" 0.8 intent_data
    else if any_in help_actions user_message_lower then
      set_action "help_guide" 0.7 intent_data
    else intent_data
  else if any_in form_keywords user_message_lower then
    mkIntent "form_filling" true "form_filling" 0.8 None
  else if any_in help_keywords user_message_lower then
    mkIntent "help" false "chat" 0.6 None
  else
    mkIntent "chat" false "chat" 0.5 None.

(** ** [extract_user_data] *)

(** The dictionary [user_data] and the entries of its two lists; the
    amounts are Python integers. *)
Record Income := mkIncome { income_type : string; income_amount : N }.

Record Deduction := mkDeduction {
  deduction_type : string;
  deduction_description : string;
  deduction_amount : N
}.

Record UserData := mkUserData {
  pan_number : string;
  mobile_number : string;
  assessment_year : string;
  itr_type : string;
  filing_mode : string;
  additional_incomes : list Income;
  deductions : list Deduction
}.

(** The test data the function starts from. *)
Definition default_user_data : UserData :=
  mkUserData "ABCDE1234F" "9876543210" "2023-24" "ITR-2" "Online Filing"
    [mkIncome "Rental Income" 25235; mkIncome "Interest Income" 3252530]%N
    [mkDeduction "80D - Health Insurance Premium" "Health Insurance Premium" 25000%N;
     mkDeduction "80C - Tax Saving Investment" "Investment" 150000%N].

(** [user_data[key] = v] *)
Definition set_pan_number (v : string) (d : UserData) : UserData :=
  mkUserData v (mobile_number d) (assessment_year d) (itr_type d) (filing_mode d)
    (additional_incomes d) (deductions d).
Definition set_mobile_number (v : string) (d : UserData) : UserData :=
  mkUserData (pan_number d) v (assessment_year d) (itr_type d) (filing_mode d)
    (additional_incomes d) (deductions d).
Definition set_assessment_year (v : string) (d : UserData) : UserData :=
  mkUserData (pan_number d) (mobile_number d) v (itr_type d) (filing_mode d)
    (additional_incomes d) (deductions d).
Definition set_itr_type (v : string) (d : UserData) : UserData :=
  mkUserData (pan_number d) (mobile_number d) (assessment_year d) v (filing_mode d)
    (additional_incomes d) (deductions d).

(** [A-Z], [0-9], [1-4] and [:\s] *)
Definition capital : Re.char_class := Re.in_range 65 90.
Definition digit : Re.char_class := Re.in_range 48 57.
Definition one_to_four : Re.char_class := Re.in_range 49 52.
Definition separator : Re.char_class := fun c => Ascii.eqb c ":" || Re.space c.

(** [PAN[:\s]*([A-Z]{5}[0-9]{4}[A-Z])] *)
Definition pan_pattern : Re.regex :=
  Re.Cat (Re.Lit "PAN")
    (Re.Cat (Re.Star separator)
       (Re.Group (Re.Cat (Re.Rep 5 capital) (Re.Cat (Re.Rep 4 digit) (Re.Class capital))))).

(** [(?:mobile|phone|number)[:\s]*([0-9]{10})] *)
Definition mobile_pattern : Re.regex :=
  Re.Cat (Re.Alt (Re.Lit "mobile") (Re.Alt (Re.Lit "phone") (Re.Lit "number")))
    (Re.Cat (Re.Star separator) (Re.Group (Re.Rep 10 digit))).

(** [(?:assessment year|AY|year)[:\s]*([0-9]{4}-[0-9]{2})] *)
Definition year_pattern : Re.regex :=
  Re.Cat (Re.Alt (Re.Lit "assessment year") (Re.Alt (Re.Lit "AY") (Re.Lit "year")))
    (Re.Cat (Re.Star separator)
       (Re.Group (Re.Cat (Re.Rep 4 digit) (Re.Cat (Re.Lit "-") (Re.Rep 2 digit))))).

(** [ITR[:\s]*([1-4])] *)
Definition itr_pattern : Re.regex :=
  Re.Cat (Re.Lit "ITR") (Re.Cat (Re.Star separator) (Re.Group (Re.Class one_to_four))).

Definition extract_user_data (user_message : string) : UserData :=
  let user_data := default_user_data in
  let user_data :=
    match Re.search pan_pattern (upper user_message) with
    | Some pan_match => set_pan_number (Re.group 1 pan_match) user_data
    | None => user_data
    end in
  let user_data :=
    match Re.search mobile_pattern user_message with
    | Some mobile_match => set_mobile_number (Re.group 1 mobile_match) user_data
    | None => user_data
    end in
  let user_data :=
    match Re.search year_pattern user_message with
    | Some year_match => set_assessment_year (Re.group 1 year_match) user_data
    | None => user_data
    end in
  let user_data :=
    match Re.search itr_pattern user_message with
    | Some itr_match => set_itr_type ("ITR-" ++ Re.group 1 itr_match) user_data
    | None => user_data
    end in
  user_data.

(** ** [get_tax_filing_task] *)

(** One pass of the loop over [user_data["additional_incomes"]]. *)
Definition income_entry (income : Income) : string :=
  "
         * Click " ++ dq ++ "Add Income" ++ dq ++ " button
         * Select " ++ dq ++ income_type income ++ dq ++ " from dropdown
         * Enter amount: " ++ str_of_N (income_amount income).

(** One pass of the loop over [user_data["deductions"]]. *)
Definition deduction_entry (deduction : Deduction) : string :=
  "
         * Click " ++ dq ++ "Add Deduction" ++ dq ++ " button
         * Select " ++ dq ++ deduction_type deduction ++ dq ++ "
         * Enter description: " ++ dq ++ deduction_description deduction ++ dq ++ "
         * Enter amount: " ++ str_of_N (deduction_amount deduction).

Definition get_tax_filing_task (user_prompt : string) : string :=
  let user_data := extract_user_data user_prompt in
  let income_entries :=
    fold_left (fun entries income => entries ++ income_entry income)
      (additional_incomes user_data) "" in
  let deduction_entries :=
    fold_left (fun entries deduction => entries ++ deduction_entry deduction)
      (deductions user_data) "" in
  "
    User request: '" ++ user_prompt ++ "'
    
    Based on the user request, perform tax filing automation with the following details:
    - PAN Number: " ++ pan_number user_data ++ "
    - Mobile: " ++ mobile_number user_data ++ "
    - Assessment Year: " ++ assessment_year user_data ++ "
    - ITR Type: " ++ itr_type user_data ++ "
    
    Follow these steps precisely to complete the tax filing process:

    1. LOGIN PHASE:
       - Navigate to: 
       - Verify login form elements are present:
         * PAN Number field
         * Captcha field
         * " ++ dq ++ "Get OTP" ++ dq ++ " button
       - Enter PAN: " ++ pan_number user_data ++ "
       - Read and enter the captcha shown on screen (look carefully at the image)
       - Click " ++ dq ++ "Get OTP" ++ dq ++ " button
       - When OTP field appears, enter: 123456
       - Click final login button
       - Verify successful login by checking for dashboard elements

    2. START FILING PHASE:
       - On dashboard, locate " ++ dq ++ "File ITR" ++ dq ++ " section
       - Click " ++ dq ++ "Start Filing" ++ dq ++ " button
       - In the filing form:
         * Click Assessment Year dropdown
         * Select " ++ dq ++ assessment_year user_data ++ dq ++ "
         * Select ITR Type: " ++ dq ++ itr_type user_data ++ dq ++ "
         * Choose Filing Mode: " ++ dq ++ filing_mode user_data ++ dq ++ "
       - Click " ++ dq ++ "Continue" ++ dq ++ " button

    3. PRE-FILLED INFO PHASE:
       - Review pre-filled information
       - Verify personal details are correct
       - Click " ++ dq ++ "Continue to Income & Deductions" ++ dq ++ "

    4. INCOME & DEDUCTIONS PHASE:
       - Under " ++ dq ++ "Other Income" ++ dq ++ " section:" ++ income_entries ++ "

       - Under " ++ dq ++ "Deductions" ++ dq ++ " section:" ++ deduction_entries ++ "

       - If any entry needs deletion, use the red delete button
       - Click " ++ dq ++ "Continue to Tax Summary" ++ dq ++ "

    5. TAX SUMMARY & PAYMENT PHASE:
       - Review tax calculation summary
       - Verify calculated tax amounts
       - Click " ++ dq ++ "Continue to Payment" ++ dq ++ "
       - Select any available payment method (UPI/Net Banking/Card)
       - Click " ++ dq ++ "Make Payment" ++ dq ++ "

    6. FINAL SUBMISSION:
       - Review all information in submission page
       - Verify all details are correct
       - Check " ++ dq ++ "I accept the above declaration" ++ dq ++ " checkbox
       - Click " ++ dq ++ "Submit Return" ++ dq ++ "
       - Verify successful submission message
       - Note down acknowledgment number if provided

    Important Instructions:
    - Take your time with each step and wait for page loads
    - If any element is not found, wait a moment and try again
    - Document each successful action with clear descriptions
    - If any step fails, provide detailed error information
    - Ensure each page loads completely before proceeding
    - If captcha is unclear, describe what you see and try your best guess
    - Take screenshots of any errors or important screens
    ".

(** ** Values exchanged with the client *)

(** What [json.loads] returns. A dictionary is listed by its items (its
    keys are distinct); numbers keep their literal. *)
Inductive json :=
| JNull
| JBool (b : bool)
| JNum (literal : string)
| JStr (s : string)
| JArr (items : list json)
| JObj (items : list (string * json)).

(** The lifecycle status, one constructor per string the code assigns to
    [session.status]. *)
Inductive Status := Connected | Running | Completed | Stopped | Error.

Definition status_str (s : Status) : string :=
  match s with
  | Connected => "connected"
  | Running => "running"
  | Completed => "completed"
  | Stopped => "stopped"
  | Error => "error"
  end.

#[global] Instance Status_eq_dec : EqDecision Status.
Proof. solve_decision. Defined.

(** Python exceptions: the class and [str(e)]. *)
Inductive exn_class :=
| WebSocketDisconnect | JSONDecodeError | KeyError | TypeError
| AttributeError | AgentError | SessionError | CancelledError | RuntimeError
| ValueError | RecursionError.

Record exn := Exn { exn_cls : exn_class; exn_msg : string }.

#[global] Instance exn_class_eq_dec : EqDecision exn_class.
Proof. solve_decision. Defined.

(** [isinstance(e, Exception)]: a cancellation is a [BaseException] only. *)
Definition is_Exception (e : exn) : bool :=
  match exn_cls e with CancelledError => false | _ => true end.

(** Values of the keyword arguments of [send_status]. [KDetails] is the
    [error_details] dictionary of [error_handler]: the error type, the
    traceback of the exception in flight and the session identifier. *)
Inductive kwarg :=
| KNone
| KBool (b : bool)
| KStr (s : string)
| KList (l : list string)
| KDict (d : list (string * string))
| KDetails (error_type : string) (e : exn) (session_id : string).

Definition kopt (o : option string) : kwarg :=
  match o with Some s => KStr s | None => KNone end.

(** The record [send_status] serializes (the wall-clock timestamp is left
    out). *)
Record Event := mkEvent {
  ev_type : string;
  ev_message : string;
  ev_session_id : string;
  ev_status : Status;
  ev_current_task : option string;
  ev_step_count : nat;
  ev_current_step : option string;
  ev_error : option string;
  ev_kwargs : list (string * kwarg)
}.

(** ** Sessions, the store and the process-wide tables *)

Definition loc := positive.

Inductive WebSocketState := CONNECTING | CONNECTED | DISCONNECTED.

#[global] Instance WebSocketState_eq_dec : EqDecision WebSocketState.
Proof. solve_decision. Defined.

Record WebSocket := mkWebSocket { client_state : WebSocketState }.

(** [ws.client_state == WebSocketState.CONNECTED] *)
Definition is_connected (ws : WebSocket) : bool :=
  match client_state ws with CONNECTED => true | _ => false end.

(** The text handed to the agent. [TaxFilingTask p] stands for the template
    [get_tax_filing_task(p)] expanded on the prompt [p]. *)
Inductive TaskText :=
| InitTask
| PlainTask (user_message : string)
| TaxFilingTask (user_prompt : string).

Record Agent := mkAgent { task : TaskText }.

(** An [asyncio.Task]: still scheduled, or finished in one of three ways. *)
Inductive TaskResult := TCancelled | TReturned | TRaised (e : exn).
Inductive Task := Pending | Done (r : TaskResult).

(** The fields of [AutomationSession]; [websocket] is the connection the
    session was opened on. [last_activity], a wall-clock time that nothing
    reads, is left out. *)
Record AutomationSession := mkSession {
  session_id : string;
  websocket : WebSocket;
  agent : option Agent;
  screenshot_task : option Task;
  status : Status;
  current_task : option string;
  step_count : nat;
  current_step : option string;
  error : option string
}.

(** [AutomationSession(session_id, websocket)] *)
Definition new_session (session_id : string) (ws : WebSocket) : AutomationSession :=
  mkSession session_id ws None None Connected None 0 None None.

#[global] Instance AutomationSession_inhabited : Inhabited AutomationSession :=
  populate (new_session "" (mkWebSocket CONNECTING)).

Record ChatMessage := mkChat { role : string; content : string }.

(** What the command loop does that can be seen from outside the session
    object, in program order. *)
Inductive Action :=
| Send (e : Event)                    (* websocket.send_text(json.dumps(e)) *)
| SetStatus (l : loc) (s : Status)    (* session.status = s *)
| TaskCreate (l : loc)                (* asyncio.create_task(start_screenshot_stream(session)) *)
| TaskCancel (l : loc)                (* session.screenshot_task.cancel() *)
| TaskAwait (l : loc)                 (* await session.screenshot_task *)
| AgentRun (l : loc) (t : TaskText)   (* agent.run(...) *)
| AgentStop (l : loc)                 (* session.agent.stop() *)
| AgentClose (l : loc).               (* session.agent.close() *)

(** The store of session objects and the two module-level tables. *)
Record World := mkWorld {
  heap : gmap loc AutomationSession;
  active_sessions : gmap string loc;
  chat_sessions : gmap string (list ChatMessage)
}.

Definition set_heap (h : gmap loc AutomationSession) (w : World) : World :=
  mkWorld h (active_sessions w) (chat_sessions w).
Definition set_active_sessions (a : gmap string loc) (w : World) : World :=
  mkWorld (heap w) a (chat_sessions w).
Definition set_chat_sessions (c : gmap string (list ChatMessage)) (w : World) : World :=
  mkWorld (heap w) (active_sessions w) c.

Definition empty_world : World := mkWorld ∅ ∅ ∅.

(** ** Computations that may raise *)

Inductive outcome (A : Type) := Ret (a : A) | Raise (e : exn).
Arguments Ret {A} a.
Arguments Raise {A} e.

(** What running a computation gives: how it ended, the world it leaves
    and the actions it performed. *)
Record Result (A : Type) := mkResult {
  out : outcome A;
  world : World;
  trace : list Action
}.
Arguments mkResult {A} out world trace.
Arguments out {A} r.
Arguments world {A} r.
Arguments trace {A} r.

Definition M (A : Type) : Type := World -> Result A.

(** [r] with the actions [tr] performed before it. *)
Definition after {A} (tr : list Action) (r : Result A) : Result A :=
  match r with
  | mkResult o w tr' => mkResult o w (tr ++ tr')
  end.

#[global] Instance M_ret : MRet M := fun A a w => mkResult (Ret a) w [].
#[global] Instance M_bind : MBind M := fun A B f m w =>
  match m w with
  | mkResult (Ret a) w' tr => after tr (f a w')
  | mkResult (Raise e) w' tr => mkResult (Raise e) w' tr
  end.

Definition raise {A} (e : exn) : M A := fun w => mkResult (Raise e) w [].

(** [try: body except ...: handler]; [handler e = None] when no clause
    matches [e]. *)
Definition try_except {A} (body : M A) (handler : exn -> option (M A)) : M A :=
  fun w =>
    match body w with
    | mkResult (Ret a) w' tr => mkResult (Ret a) w' tr
    | mkResult (Raise e) w' tr =>
        match handler e with
        | Some h => after tr (h w')
        | None => mkResult (Raise e) w' tr
        end
    end.

(** [except Exception as e: handler e] *)
Definition except_Exception {A} (handler : exn -> M A) (e : exn) : option (M A) :=
  if is_Exception e then Some (handler e) else None.

Definition emit (a : Action) : M unit := fun w => mkResult (Ret tt) w [a].

(** Reading and updating the object a location names. Every location the
    endpoint holds names an object; on a location that names none, reading
    gives the default object and updating stores the updated default. *)
Definition deref (l : loc) : M AutomationSession :=
  fun w => mkResult (Ret (heap w !!! l)) w [].
Definition update (l : loc) (f : AutomationSession -> AutomationSession) : M unit :=
  fun w => mkResult (Ret tt) (set_heap (<[l := f (heap w !!! l)]> (heap w)) w) [].
Definition gets {A} (f : World -> A) : M A := fun w => mkResult (Ret (f w)) w [].
Definition modify (f : World -> World) : M unit := fun w => mkResult (Ret tt) (f w) [].

Definition set_agent (a : option Agent) (s : AutomationSession) : AutomationSession :=
  mkSession (session_id s) (websocket s) a (screenshot_task s) (status s)
    (current_task s) (step_count s) (current_step s) (error s).
Definition set_screenshot_task (t : option Task) (s : AutomationSession) : AutomationSession :=
  mkSession (session_id s) (websocket s) (agent s) t (status s)
    (current_task s) (step_count s) (current_step s) (error s).
Definition set_websocket (ws : WebSocket) (s : AutomationSession) : AutomationSession :=
  mkSession (session_id s) ws (agent s) (screenshot_task s) (status s)
    (current_task s) (step_count s) (current_step s) (error s).
Definition set_status_field (st : Status) (s : AutomationSession) : AutomationSession :=
  mkSession (session_id s) (websocket s) (agent s) (screenshot_task s) st
    (current_task s) (step_count s) (current_step s) (error s).
Definition set_current_task (t : option string) (s : AutomationSession) : AutomationSession :=
  mkSession (session_id s) (websocket s) (agent s) (screenshot_task s) (status s)
    t (step_count s) (current_step s) (error s).
Definition set_step_count (n : nat) (s : AutomationSession) : AutomationSession :=
  mkSession (session_id s) (websocket s) (agent s) (screenshot_task s) (status s)
    (current_task s) n (current_step s) (error s).
Definition set_current_step (c : option string) (s : AutomationSession) : AutomationSession :=
  mkSession (session_id s) (websocket s) (agent s) (screenshot_task s) (status s)
    (current_task s) (step_count s) c (error s).
Definition set_error (e : option string) (s : AutomationSession) : AutomationSession :=
  mkSession (session_id s) (websocket s) (agent s) (screenshot_task s) (status s)
    (current_task s) (step_count s) (current_step s) e.

(** [session.status = st] *)
Definition set_status (l : loc) (st : Status) : M unit :=
  update l (set_status_field st);; emit (SetStatus l st).

(** ** [AutomationSession.send_status]

    The event is built from the session's fields as they are at the call
    and handed to the socket. A failure of the socket is caught and logged
    inside [send_status]: it never reaches the caller. *)
Definition session_event (session : AutomationSession) (status_type message : string)
    (kwargs : list (string * kwarg)) : Event :=
  mkEvent status_type message (session_id session) (status session)
    (current_task session) (step_count session) (current_step session)
    (error session) kwargs.

Definition send_status (l : loc) (status_type message : string)
    (kwargs : list (string * kwarg)) : M unit :=
  session ← deref l;
  emit (Send (session_event session status_type message kwargs)).

(** ** [get_chat_response] *)

(** What the reply service does on one call: the client cannot be built,
    the completion request fails, or a completion comes back. *)
Inductive Reply :=
| ClientFails (e : exn)
| CompletionFails (e : exn)
| Completion (text : string).

Definition system_prompt : ChatMessage :=
  mkChat "system"
    "You are a helpful AI assistant for LegalEase, specializing in legal automation, tax filing, and document processing. When users ask about tax filing or automation tasks, guide them appropriately. Be concise and helpful.".

Definition chat_fallback : string :=
  "I'm having trouble responding right now. Please try again.".

(** [chat_sessions[session_id].append(m)] *)
Definition chat_append (session_id : string) (m : ChatMessage) : M unit :=
  modify (fun w =>
    set_chat_sessions (alter (fun h => (h ++ [m])%list) session_id (chat_sessions w)) w).

Definition get_chat_response (user_message session_id : string) (r : Reply) : M string :=
  try_except
    (match r with ClientFails e => raise e | _ => mret tt end;;
     history ← gets chat_sessions;
     match history !! session_id with
     | None =>
         modify (fun w =>
           set_chat_sessions (<[session_id := [system_prompt]]> (chat_sessions w)) w)
     | Some _ => mret tt
     end;;
     chat_append session_id (mkChat "user" user_message);;
     ai_response ← match r with
                   | Completion text => mret text
                   | CompletionFails e | ClientFails e => raise e
                   end;
     chat_append session_id (mkChat "assistant" ai_response);;
     mret ai_response)
    (except_Exception (fun _ => mret chat_fallback)).

(** ** [cleanup_session] *)

(** [task.cancel()] followed to the task's end: a scheduled task ends
    cancelled, a finished one keeps its result. *)
Definition cancel (t : Task) : TaskResult :=
  match t with Pending => TCancelled | Done r => r end.

(** [await task] on a finished task. *)
Definition await_result (r : TaskResult) : M unit :=
  match r with
  | TCancelled => raise (Exn CancelledError "")
  | TReturned => mret tt
  | TRaised e => raise e
  end.

(** [del active_sessions[session_id]] *)
Definition del_active_session (session_id : string) : M unit :=
  registry ← gets active_sessions;
  match registry !! session_id with
  | Some _ => modify (set_active_sessions (delete session_id registry))
  | None => raise (Exn KeyError ("'" ++ session_id ++ "'"))
  end.

Definition cleanup_session (session_id : string) : M unit :=
  try_except
    (registry ← gets active_sessions;
     match registry !! session_id with
     | Some l =>
         session ← deref l;
         match screenshot_task session with
         | Some t =>
             emit (TaskCancel l);;
             update l (set_screenshot_task (Some (Done (cancel t))));;
             try_except
               (emit (TaskAwait l);; await_result (cancel t))
               (fun e => match exn_cls e with
                         | CancelledError => Some (mret tt)
                         | _ => None
                         end)
         | None => mret tt
         end;;
         match agent session with
         | Some _ => emit (AgentClose l)   (* a failure of close() is logged only *)
         | None => mret tt
         end;;
         del_active_session session_id
     | None => mret tt
     end)
    (except_Exception (fun e =>
       raise (Exn SessionError ("Failed to clean up session: " ++ exn_msg e)))).

(** ** [error_handler]

    The context manager, applied to the block it protects. The exception's
    own [details] are empty for every exception this module raises. *)
Definition error_handler {A} (l : loc) (error_type : string) (body : M A) : M A :=
  try_except body (except_Exception (fun e =>
    let error_message := exn_msg e in
    session ← deref l;
    let error_details := KDetails error_type e (session_id session) in
    (if is_connected (websocket session) then
       send_status l "error" error_message
         [("error_type", KStr error_type); ("details", error_details)]
     else mret tt);;
    set_status l Error;;
    update l (set_error (Some error_message));;
    (if existsb (String.eqb error_type) ["browser"; "agent"] then
       cleanup_session (session_id session)
     else mret tt);;
    raise e)).

(** ** [initialize_automation_agent]

    [init] is what the agent's constructor does: [None] when it returns,
    [Some e] when it raises [e]. *)
Definition initialize_automation_agent (session_id : string) (init : option exn) : M Agent :=
  match init with
  | None => mret (mkAgent InitTask)
  | Some e =>
      if is_Exception e then
        raise (Exn AgentError ("Failed to initialize automation agent: " ++ exn_msg e))
      else raise e
  end.

(** ** [handle_automation_step] and its step callbacks *)

(** What a guarded access to the agent's state finds: the attribute is not
    there ([hasattr] is false), reaching it raises, or it has a value. *)
Inductive Probe (A : Type) := Absent | Fails (e : exn) | Present (a : A).
Arguments Absent {A}.
Arguments Fails {A} e.
Arguments Present {A} a.

(** One callback the agent makes while it runs: [on_step_start] with the
    agent's current step and page (URL, title), or [on_step_end] with the
    last recorded action and the page. *)
Inductive StepCall :=
| StepStart (state_current_step : Probe string) (page : Probe (string * string))
| StepEnd (last_action : Probe (option string)) (page : Probe (string * string)).

Definition on_step_start (l : loc) (state_current_step : Probe string)
    (page : Probe (string * string)) : M unit :=
  try_except
    (update l (fun s => set_step_count (step_count s + 1) s);;
     match state_current_step with
     | Absent => mret tt
     | Fails e => raise e
     | Present c => update l (set_current_step (Some c))
     end;;
     match page with
     | Absent => mret tt
     | Fails e => raise e
     | Present (current_url, page_title) =>
         session ← deref l;
         send_status l "step_start"
           ("Starting step " ++ str_of_nat (step_count session))
           [("url", KStr current_url); ("title", KStr page_title);
            ("step", kopt (current_step session))]
     end)
    (except_Exception (fun _ => mret tt)).

Definition on_step_end (l : loc) (history : Probe (option string))
    (page : Probe (string * string)) : M unit :=
  try_except
    (match history with
     | Absent => mret tt
     | Fails e => raise e
     | Present last_action =>
         match page with
         | Absent => mret tt
         | Fails e => raise e
         | Present (current_url, page_title) =>
             session ← deref l;
             send_status l "step_complete"
               ("Completed step " ++ str_of_nat (step_count session))
               [("url", KStr current_url); ("title", KStr page_title);
                ("action", kopt last_action)]
         end
     end)
    (except_Exception (fun _ => mret tt)).

Definition step_callback (l : loc) (c : StepCall) : M unit :=
  match c with
  | StepStart cur page => on_step_start l cur page
  | StepEnd hist page => on_step_end l hist page
  end.

Fixpoint run_callbacks (l : loc) (calls : list StepCall) : M unit :=
  match calls with
  | [] => mret tt
  | c :: rest => step_callback l c;; run_callbacks l rest
  end.

(** One run of the agent: the callbacks it makes, then [str(result)] or the
    exception it raises. *)
Record Run := mkRun {
  calls : list StepCall;
  result : string + exn
}.

Definition handle_automation_step (l : loc) (a : Agent) (r : Run) : M string :=
  try_except
    (emit (AgentRun l (task a));;
     run_callbacks l (calls r);;
     match result r with
     | inl res => mret res
     | inr e => raise e
     end)
    (except_Exception (fun e =>
       update l (set_error (Some (exn_msg e)));;
       session ← deref l;
       send_status l "error" ("Automation step failed: " ++ exn_msg e)
         [("step", kopt (current_step session))];;
       raise e)).

(** ** [start_screenshot_stream] *)

(** What the [try] block of one pass does: the page is captured (the
    picture base64-encoded, the URL and the title read), or one of these
    steps raises. *)
Inductive Capture :=
| Captured (screenshot_base64 current_url page_title : string)
| CaptureFails (e : exn).

(** How the stream's loop is left: by [break], or not yet (the coroutine is
    suspended in [asyncio.sleep]). *)
Inductive StreamEnd := Finished | Sleeping.

(** One pass of [while True], lines 408-449; [tick] is what
    [hasattr(session.agent, 'browser_context')] finds and, with a browser
    context, what the capture does. The result tells whether the loop goes
    on. The [timestamp] keyword, a wall-clock time, is left out like the
    event's own. *)
Definition screenshot_pass (l : loc) (tick : Probe Capture) : M bool :=
  session ← deref l;
  registry ← gets active_sessions;
  match registry !! session_id session with
  | None => mret false
  | Some _ =>
      match agent session with
      | None => mret true
      | Some _ =>
          match tick with
          | Absent => mret true
          | Fails e => raise e
          | Present capture =>
              try_except
                (match capture with
                 | Captured screenshot_base64 current_url page_title =>
                     send_status l "screenshot" "Screenshot update"
                       [("screenshot", KStr screenshot_base64);
                        ("url", KStr current_url); ("title", KStr page_title)]
                 | CaptureFails e => raise e
                 end)
                (except_Exception (fun _ =>
                   s ← deref l;
                   if is_connected (websocket s) then
                     send_status l "error" "Failed to capture screenshot"
                       [("error_type", KStr "screenshot"); ("recoverable", KBool true)]
                   else mret tt));;
              mret true
          end
      end
  end.

Fixpoint screenshot_loop (l : loc) (ticks : list (Probe Capture)) : M StreamEnd :=
  match ticks with
  | [] => mret Sleeping
  | tick :: rest =>
      again ← screenshot_pass l tick;
      if again : bool then screenshot_loop l rest else mret Finished
  end.

Definition start_screenshot_stream (l : loc) (ticks : list (Probe Capture)) : M StreamEnd :=
  error_handler l "screenshot" (screenshot_loop l ticks).


(** ** The command loop of [websocket_endpoint] *)

(** What [websocket.receive_text()] followed by [json.loads] gives: the
    client is gone, or a text arrived and [json.loads] returned a value or
    raised. The decoder raises a [JSONDecodeError] on a text that is not
    JSON; it also raises a [RecursionError] on a text nested too deeply
    and a plain [ValueError] on an integer literal beyond the digit limit
    of the interpreter. *)
Inductive Received :=
| RecvDisconnect
| RecvText (decoded : json + exn).

(** One iteration's input: the frame, and what the outside world answers
    if the iteration asks (the reply service, the agent's run, the agent's
    [stop()]). *)
Record Turn := mkTurn {
  received : Received;
  reply : Reply;
  run : Run;
  stop : option exn
}.

Definition receive (l : loc) (r : Received) : M json :=
  match r with
  | RecvDisconnect =>
      update l (set_websocket (mkWebSocket DISCONNECTED));;
      raise (Exn WebSocketDisconnect "")
  | RecvText (inr e) => raise e
  | RecvText (inl data) => mret data
  end.

Fixpoint assoc (key : string) (items : list (string * json)) : option json :=
  match items with
  | [] => None
  | (k, v) :: rest => if String.eqb k key then Some v else assoc key rest
  end.

(** [type(v).__name__] of a decoded value. A number is a [float] when its
    literal has a fraction or an exponent or is one of the constants
    [NaN], [Infinity] and [-Infinity], and an [int] otherwise. *)
Definition float_literal (literal : string) : bool :=
  any_in ["."; "e"; "E"; "NaN"; "Infinity"] literal.

Definition type_name (v : json) : string :=
  match v with
  | JNull => "NoneType"
  | JBool _ => "bool"
  | JNum literal => if float_literal literal then "float" else "int"
  | JStr _ => "str"
  | JArr _ => "list"
  | JObj _ => "dict"
  end.

(** [data[key]] for a string [key] *)
Definition subscript (data : json) (key : string) : M json :=
  match data with
  | JObj items =>
      match assoc key items with
      | Some v => mret v
      | None => raise (Exn KeyError ("'" ++ key ++ "'"))
      end
  | JArr _ => raise (Exn TypeError "list indices must be integers or slices, not str")
  | JStr _ => raise (Exn TypeError "string indices must be integers, not 'str'")
  | _ => raise (Exn TypeError ("'" ++ type_name data ++ "' object is not subscriptable"))
  end.

(** [v == s] for a decoded value and a string literal. *)
Definition json_is_str (v : json) (s : string) : bool :=
  match v with JStr x => String.eqb x s | _ => false end.

(** The receiver of [user_message.lower()], the first thing
    [analyze_user_intent] evaluates. *)
Definition str_receiver (v : json) : M string :=
  match v with
  | JStr s => mret s
  | _ => raise (Exn AttributeError
                  ("'" ++ type_name v ++ "' object has no attribute 'lower'"))
  end.

Definition starting_message (intent_data : Intent) : string :=
  "Starting " ++ task_type intent_data ++ " automation... (Confidence: "
  ++ format_0f (confidence intent_data * 100) ++ "%)".

(** The automation branch, lines 595-627. *)
Definition run_automation (l : loc) (user_message : string) (intent_data : Intent)
    (r : Run) : M unit :=
  error_handler l "automation"
    (update l (set_step_count 0);;
     update l (set_current_step None);;
     update l (set_error None);;
     update l (set_current_task (Some user_message));;
     set_status l Running;;
     send_status l "status_update" (starting_message intent_data) [];;
     session ← deref l;
     a ← match agent session with
         | Some _ =>
             mret (mkAgent (if String.eqb (task_type intent_data) "tax_filing"
                            then TaxFilingTask user_message
                            else PlainTask user_message))
         | None => raise (Exn AttributeError "'NoneType' object has no attribute 'task'")
         end;
     update l (set_agent (Some a));;
     res ← handle_automation_step l a r;
     set_status l Completed;;
     send_status l "task_complete" "Task completed successfully" [("result", KStr res)]).

(** The chat branch, lines 629-649. *)
Definition run_chat (session_id : string) (l : loc) (user_message : string)
    (r : Reply) : M unit :=
  try_except
    (send_status l "typing" "Thinking..." [];;
     chat_response ← get_chat_response user_message session_id r;
     send_status l "chat_response" chat_response [])
    (except_Exception (fun _ =>
       send_status l "error" chat_fallback
         [("error_type", KStr "chat"); ("recoverable", KBool true)])).

(** The [stop_task] branch, lines 651-658. *)
Definition run_stop (l : loc) (stop_raises : option exn) : M unit :=
  session ← deref l;
  match agent session with
  | Some _ =>
      emit (AgentStop l);;
      match stop_raises with Some e => raise e | None => mret tt end
  | None => mret tt
  end;;
  set_status l Stopped;;
  send_status l "status_update" "Task stopped by user" [].

(** [except json.JSONDecodeError: ...; continue], lines 660-669. *)
Definition invalid_message_format (l : loc) (e : exn) : option (M unit) :=
  match exn_cls e with
  | JSONDecodeError =>
      Some (send_status l "error" "Invalid message format"
              [("error_type", KStr "message"); ("recoverable", KBool true)])
  | _ => None
  end.

(** One iteration of [while True], lines 579-669. [Ret tt] is the loop
    going on to its next iteration; [Raise e] is [e] leaving the loop. *)
Definition loop_body (session_id : string) (l : loc) (t : Turn) : M unit :=
  try_except
    (data ← receive l (received t);
     ty ← subscript data "type";
     if json_is_str ty "chat_message" then
       m ← subscript data "message";
       user_message ← str_receiver m;
       let intent_data := analyze_user_intent user_message in
       if requires_automation intent_data then
         run_automation l user_message intent_data (run t)
       else
         run_chat session_id l user_message (reply t)
     else if json_is_str ty "stop_task" then
       run_stop l (stop t)
     else mret tt)
    (invalid_message_format l).

Fixpoint message_loop (session_id : string) (l : loc) (script : list Turn) : M unit :=
  match script with
  | [] => mret tt
  | t :: rest => loop_body session_id l t;; message_loop session_id l rest
  end.

(** ** [websocket_endpoint] *)

(** Where the endpoint stands once the frames of the script are used up:
    suspended in [receive_text] on its session, or returned. *)
Inductive Phase := Waiting (l : loc) | Returned.

(** [finally: if session_id in active_sessions: await cleanup_session(session_id)] *)
Definition finally_cleanup (session_id : string) : M unit :=
  registry ← gets active_sessions;
  match registry !! session_id with
  | Some _ => cleanup_session session_id
  | None => mret tt
  end.

(** [try: body finally: fin] *)
Definition finally {A} (body : M A) (fin : M unit) : M A :=
  fun w =>
    match body w with
    | mkResult o w' tr =>
        match fin w' with
        | mkResult (Ret _) w'' tr' => mkResult o w'' (tr ++ tr')
        | mkResult (Raise e) w'' tr' => mkResult (Raise e) w'' (tr ++ tr')
        end
    end.

(** The [except] clauses of the endpoint, entered with the exception [e]
    and the local variable [session]. *)
Definition endpoint_except (session : option loc) (e : exn) : M unit :=
  match exn_cls e with
  | WebSocketDisconnect => mret tt
  | _ =>
      if is_Exception e then
        match session with
        | Some l =>
            s ← deref l;
            if is_connected (websocket s) then
              send_status l "error" "WebSocket connection error"
                [("error_type", KStr "connection");
                 ("details", KDict [("error", exn_msg e)])]
            else mret tt
        | None => mret tt
        end
      else raise e
  end.

(** How the endpoint is left when [e] escapes its [try] block. *)
Definition endpoint_exit (session_id : string) (session : option loc) (e : exn) : M Phase :=
  finally (endpoint_except session e;; mret Returned) (finally_cleanup session_id).

(** Lines 557-575 and the loop: the session is created and registered, the
    agent initialized, the connection confirmed, the screenshot task
    started, and the frames handled. *)
Definition serve (session_id : string) (l : loc) (init : option exn)
    (script : list Turn) : M unit :=
  error_handler l "agent"
    (a ← initialize_automation_agent session_id init;
     update l (set_agent (Some a)));;
  send_status l "connection" "Connected to automation service"
    [("capabilities", KList ["tax_filing"; "form_filling"; "document_processing"])];;
  emit (TaskCreate l);;
  update l (set_screenshot_task (Some Pending));;
  message_loop session_id l script.

(** [session = AutomationSession(session_id, websocket);
     active_sessions[session_id] = session] *)
Definition register_session (session_id : string) : M loc :=
  fun w =>
    let l := fresh (dom (heap w)) in
    mkResult (Ret l)
      (set_active_sessions (<[session_id := l]> (active_sessions w))
         (set_heap (<[l := new_session session_id (mkWebSocket CONNECTED)]> (heap w)) w))
      [].

(** The [try] statement of the endpoint from line 561 on: [serve] either
    uses up the script (the loop is then suspended in [receive_text]) or
    is left by an exception, which the [except] and [finally] clauses
    receive. *)
Definition guarded_serve (session_id : string) (l : loc) (init : option exn)
    (script : list Turn) : M Phase :=
  fun w =>
    match serve session_id l init script w with
    | mkResult (Ret _) w' tr => mkResult (Ret (Waiting l)) w' tr
    | mkResult (Raise e) w' tr => after tr (endpoint_exit session_id (Some l) e w')
    end.

(** The endpoint on a connection whose identifier is [session_id] (the
    fresh UUID), whose [accept()] raises [accept] if any, whose agent
    constructor raises [init] if any, and whose client sends [script]. *)
Definition websocket_endpoint (session_id : string) (accept init : option exn)
    (script : list Turn) : M Phase :=
  match accept with
  | Some e => endpoint_exit session_id None e
  | None =>
      l ← register_session session_id;
      guarded_serve session_id l init script
  end.

(** ** [health_check] *)

(** The dictionary [health_check] returns (its timestamp is left out). *)
Record Health := mkHealth {
  health_status : string;
  health_active_sessions : nat
}.

Definition health_check : M Health :=
  registry ← gets active_sessions;
  mret (mkHealth "healthy" (size registry)).

(** * The vocabulary of the properties *)

(** ** Reading a trace *)

(** The events handed to the socket, in order. *)
Definition events (tr : list Action) : list Event :=
  omap (fun a => match a with Send e => Some e | _ => None end) tr.

(** The values written to a session's status, in order. *)
Definition status_writes (tr : list Action) : list Status :=
  omap (fun a => match a with SetStatus _ s => Some s | _ => None end) tr.

(** The value of the keyword argument [key] of an event. *)
Fixpoint kwarg_of (key : string) (kw : list (string * kwarg)) : option kwarg :=
  match kw with
  | [] => None
  | (k, v) :: rest => if String.eqb k key then Some v else kwarg_of key rest
  end.

Definition is_error_event (e : Event) : bool := String.eqb (ev_type e) "error".

Definition error_events (tr : list Action) : list Event :=
  List.filter is_error_event (events tr).

(** A [step_start] or [step_complete] event. *)
Definition step_action (a : Action) : bool :=
  match a with
  | Send e => String.eqb (ev_type e) "step_start" || String.eqb (ev_type e) "step_complete"
  | _ => false
  end.

(** The events of the chat branch. *)
Definition chat_action (a : Action) : bool :=
  match a with
  | Send e => String.eqb (ev_type e) "typing" || String.eqb (ev_type e) "chat_response"
  | _ => false
  end.

Definition returned {A} (o : outcome A) : bool :=
  match o with Ret _ => true | Raise _ => false end.

(** ** The classification policy, as the design document words it *)

(** The keyword groups, in the order the policy scans them. *)
Inductive Group := FilingGroup | FormGroup | HelpGroup.

Definition priority_order : list Group := [FilingGroup; FormGroup; HelpGroup].

Definition group_keywords (g : Group) : list string :=
  match g with
  | FilingGroup => tax_keywords
  | FormGroup => form_keywords
  | HelpGroup => help_keywords
  end.

(** The lowered text of [m] has one of [keywords] somewhere in it. *)
Definition mentions (keywords : list string) (m : string) : Prop :=
  exists k pre post, In k keywords /\ lower m = pre ++ k ++ post.

(** [g] is the first group, in priority order, with a keyword in the
    lowered text of [m]. *)
Definition first_match (m : string) (g : Group) : Prop :=
  exists before after,
    priority_order = (before ++ g :: after)%list
    /\ (forall g', In g' before -> ~ mentions (group_keywords g') m)
    /\ mentions (group_keywords g) m.

(** The intent, the automation flag and the task type of a group. *)
Definition group_outcome (g : Group) : string * bool * string :=
  match g with
  | FilingGroup => ("tax_filing", true, "tax_filing")
  | FormGroup => ("form_filling", true, "form_filling")
  | HelpGroup => ("help", false, "chat")
  end.

(** The fall-through classification. *)
Definition default_chat : Intent := mkIntent "chat" false "chat" 0.5 None.

(** ** Session cleanup *)

(** The screenshot task of the session registered under [session_id], if
    any, has already ended with an exception. *)
Definition screenshot_task_failed (session_id : string) (w : World) : bool :=
  match active_sessions w !! session_id with
  | Some l =>
      match screenshot_task (heap w !!! l) with
      | Some (Done (TRaised e)) => is_Exception e
      | _ => false
      end
  | None => false
  end.

(** What one call of [cleanup_session] is expected to perform on the
    session registered under [session_id]. *)
Definition release_actions (session_id : string) (w : World) : list Action :=
  match active_sessions w !! session_id with
  | Some l =>
      match screenshot_task (heap w !!! l) with
      | Some _ => [TaskCancel l; TaskAwait l]
      | None => []
      end ++
      match agent (heap w !!! l) with
      | Some _ => [AgentClose l]
      | None => []
      end
  | None => []
  end.

(** ** Inbound frames *)

(** The kinds of inbound frame the design document distinguishes: text that
    is not JSON, which the decoder rejects with a [JSONDecodeError], *)
Definition undecodable (r : Received) : bool :=
  match r with
  | RecvText (inr e) => match exn_cls e with JSONDecodeError => true | _ => false end
  | _ => false
  end.

(** a decoded object whose ["type"] is neither of the two commands, *)
Definition unknown_type (r : Received) : bool :=
  match r with
  | RecvText (inl (JObj items)) =>
      match assoc "type" items with
      | Some ty => negb (json_is_str ty "chat_message") && negb (json_is_str ty "stop_task")
      | None => false
      end
  | _ => false
  end.

(** a decoded object without a ["type"]. *)
Definition missing_type (r : Received) : bool :=
  match r with
  | RecvText (inl (JObj items)) =>
      match assoc "type" items with Some _ => false | None => true end
  | _ => false
  end.

(** The text of a well-formed [chat_message] frame. *)
Definition chat_text (r : Received) : option string :=
  match r with
  | RecvText (inl (JObj items)) =>
      match assoc "type" items, assoc "message" items with
      | Some ty, Some (JStr m) =>
          if json_is_str ty "chat_message" then Some m else None
      | _, _ => None
      end
  | _ => None
  end.

(** What the design document promises for a malformed frame: the loop goes
    on, the status is what it was, one error event went out. *)
Definition recovered_with_one_error (l : loc) (w : World) (r : Result unit) : Prop :=
  out r = Ret tt
  /\ status (heap (world r) !!! l) = status (heap w !!! l)
  /\ length (error_events (trace r)) = 1%nat.

(** The reply service fails on this call: it raises an [Exception]. *)
Definition reply_fails (r : Reply) : bool :=
  match r with
  | ClientFails e | CompletionFails e => is_Exception e
  | Completion _ => false
  end.

(** The event the loop sends when it absorbs a [JSONDecodeError]. *)
Definition invalid_format_event (s : AutomationSession) : Event :=
  session_event s "error" "Invalid message format"
    [("error_type", KStr "message"); ("recoverable", KBool true)].

Definition is_decode_error (e : exn) : bool :=
  match exn_cls e with JSONDecodeError => true | _ => false end.

(** ** The lifecycle status *)

(** The status changes the code can make. Error is written whatever the
    status is. With [lenient] the changes out of Error are included: they
    occur only after an error that did not end the command loop, which is
    a run whose failure was a [JSONDecodeError] (the loop absorbs it) or a
    failure of the screenshot stream (its task is not the loop's). *)
Definition transition (lenient : bool) (a b : Status) : bool :=
  match a, b with
  | _, Error => true
  | (Connected | Completed | Stopped), Running => true
  | Running, Completed => true
  | (Connected | Completed | Stopped), Stopped => true
  | Error, (Running | Completed | Stopped) => lenient
  | _, _ => false
  end.

(** The writes [ws], made in this order on a session whose status is [s],
    are all changes of [transition]. *)
Fixpoint follows (lenient : bool) (s : Status) (ws : list Status) : bool :=
  match ws with
  | [] => true
  | x :: rest => transition lenient s x && follows lenient x rest
  end.

(** The command loop and the screenshot stream are two coroutines of one
    event loop: each runs until its next [await], so the writes the session
    sees are the writes of the one and of the other, each in its own order,
    shuffled together. *)
Inductive interleaving {A} : list A -> list A -> list A -> Prop :=
| interleaving_nil : interleaving [] [] []
| interleaving_left x a b c : interleaving a b c -> interleaving (x :: a) b (x :: c)
| interleaving_right x a b c : interleaving a b c -> interleaving a (x :: b) (x :: c).

Fixpoint last_status (s : Status) (ws : list Status) : Status :=
  match ws with
  | [] => s
  | x :: rest => last_status x rest
  end.

(** The changes the design document allows: connected to running, running
    to completed, stopped or error, error from any state, and running
    again from completed or stopped. *)
Definition documented_transition (a b : Status) : bool :=
  match a, b with
  | Connected, Running => true
  | Running, (Completed | Stopped) => true
  | _, Error => true
  | (Completed | Stopped), Running => true
  | _, _ => false
  end.

Fixpoint documented (s : Status) (ws : list Status) : bool :=
  match ws with
  | [] => true
  | x :: rest => documented_transition s x && documented x rest
  end.

(** The agent's run of this turn fails with a [JSONDecodeError]. *)
Definition run_decode_error (t : Turn) : bool :=
  match result (run t) with
  | inr e => is_decode_error e
  | inl _ => false
  end.

Definition decode_free (script : list Turn) : bool :=
  forallb (fun t => negb (run_decode_error t)) script.

(** The status writes of one iteration: none, Stopped, or Running followed
    by Completed or Error; an iteration that went through Error goes on to
    the next one only when [lenient]. *)
Definition loop_block (lenient returned : bool) (ws : list Status) : bool :=
  match ws with
  | [] => true
  | [Stopped] => returned
  | [Running; Completed] => returned
  | [Running] => negb returned
  | [Running; Error] => negb returned || lenient
  | _ => false
  end.

(** A status in which the loop waits for the next frame. *)
Definition idle (lenient : bool) (s : Status) : bool :=
  match s with
  | Running => false
  | Error => lenient
  | _ => true
  end.

(** A history of statuses with its consecutive repetitions removed. *)
Fixpoint compress (s : Status) (ws : list Status) : list Status :=
  match ws with
  | [] => [s]
  | x :: rest => if decide (s = x) then compress x rest else s :: compress x rest
  end.

Fixpoint has_dup (l : list Status) : bool :=
  match l with
  | [] => false
  | x :: rest => existsb (fun y => bool_decide (x = y)) rest || has_dup rest
  end.

(** Some status other than Running is entered again after it was left. *)
Definition reenters_other_than_running (s : Status) (ws : list Status) : bool :=
  has_dup (List.filter (fun x => negb (bool_decide (x = Running))) (compress s ws)).

(** ** The classifier's keywords *)

(** A text of ASCII characters only. On such a text [str.lower] and
    [str.upper] change the letters A-Z and a-z and nothing else. *)
Definition ascii_text (s : string) : bool :=
  forallb (fun c => (nat_of_ascii c <? 128)%nat) (list_ascii_of_string s).

(** The keywords that route a message to automation. *)
Definition automation_keywords : list string := (tax_keywords ++ form_keywords)%list.

(** The filing and form keywords without those that have another keyword
    inside them. *)
Definition core_tax_keywords : list string :=
  ["tax"; "itr"; "filing"; "return"; "assessment"].
Definition core_form_keywords : list string :=
  ["form"; "application"; "government"; "fill"; "submit"; "portal"].

(** ** Patterns and the texts they match *)

Module ReSpec.
Import Re.

(** Every character of [t] is in the class [p]. *)
Fixpoint all (p : char_class) (t : string) : bool :=
  match t with
  | EmptyString => true
  | String c t' => p c && all p t'
  end.

(** [t] is in the language of [r]. *)
Fixpoint matches (r : regex) (t : string) : Prop :=
  match r with
  | Lit l => t = l
  | Class p => exists c, t = String c "" /\ p c = true
  | Star p => all p t = true
  | Rep n p => String.length t = n /\ all p t = true
  | Alt r1 r2 => matches r1 t \/ matches r2 t
  | Cat r1 r2 => exists t1 t2, t = t1 ++ t2 /\ matches r1 t1 /\ matches r2 t2
  | Group r0 => matches r0 t
  end.

(** [r] has no capturing group. *)
Fixpoint groupless (r : regex) : bool :=
  match r with
  | Alt r1 r2 | Cat r1 r2 => groupless r1 && groupless r2
  | Group _ => false
  | _ => true
  end.

(** [t], character by character, is in the classes [cs]. *)
Fixpoint shaped (cs : list char_class) (t : string) : bool :=
  match cs, t with
  | [], EmptyString => true
  | p :: cs', String c t' => p c && shaped cs' t'
  | _, _ => false
  end.

End ReSpec.
Import ReSpec.

(** The shapes of a PAN, of a mobile number and of an assessment year. *)
Definition pan_shape : list Re.char_class :=
  (repeat capital 5 ++ repeat digit 4 ++ [capital])%list.
Definition mobile_shape : list Re.char_class := repeat digit 10.
Definition year_shape : list Re.char_class :=
  (repeat digit 4 ++ [fun c => Ascii.eqb c "-"] ++ repeat digit 2)%list.

(** The marker words of the mobile and the year pattern. *)
Definition mobile_markers : list string := ["mobile"; "phone"; "number"].
Definition year_markers : list string := ["assessment year"; "AY"; "year"].

(** ** The agent's task *)

(** The task text the automation branch hands to the agent. *)
Definition agent_task (intent_data : Intent) (user_message : string) : TaskText :=
  if String.eqb (task_type intent_data) "tax_filing"
  then TaxFilingTask user_message else PlainTask user_message.

(** The text of a task. *)
Definition task_text (t : TaskText) : string :=
  match t with
  | InitTask => "Initialize browser for automation"
  | PlainTask user_message => user_message
  | TaxFilingTask user_prompt => get_tax_filing_task user_prompt
  end.

(** ** Chat histories *)

(** The history [get_chat_response] appends to: the stored one, or a new one
    that holds the system prompt. *)
Definition opened_history (session_id : string) (w : World) : list ChatMessage :=
  default [system_prompt] (chat_sessions w !! session_id).

(** A message of the user or of the assistant. *)
Definition spoken (m : ChatMessage) : bool :=
  String.eqb (role m) "user" || String.eqb (role m) "assistant".

(** ** The error reporter *)

(** The error types on which [error_handler] cleans the session up. *)
Definition cleans_up (error_type : string) : bool :=
  existsb (String.eqb error_type) ["browser"; "agent"].

(** The event [error_handler] sends for [e], built on the session [s] as it
    is when the protected block is left. *)
Definition handler_event (s : AutomationSession) (error_type : string) (e : exn) : Event :=
  session_event s "error" (exn_msg e)
    [("error_type", KStr error_type);
     ("details", KDetails error_type e (session_id s))].

(** ** Frames the loop does not dispatch, and stop commands *)

(** A decoded frame the loop cannot dispatch, and the class of the
    exception the dispatch raises on it: the value is no object, it has no
    ["type"], or it is a chat message without a text. *)
Definition rejected_frame (r : Received) : option exn_class :=
  match r with
  | RecvText (inl (JObj items)) =>
      match assoc "type" items with
      | None => Some KeyError
      | Some ty =>
          if json_is_str ty "chat_message" then
            match assoc "message" items with
            | None => Some KeyError
            | Some (JStr _) => None
            | Some _ => Some AttributeError
            end
          else None
      end
  | RecvText (inl _) => Some TypeError
  | _ => None
  end.

(** A [stop_task] frame. *)
Definition stop_frame (r : Received) : bool :=
  match r with
  | RecvText (inl (JObj items)) =>
      match assoc "type" items with
      | Some ty => negb (json_is_str ty "chat_message") && json_is_str ty "stop_task"
      | None => false
      end
  | _ => false
  end.

(** The agent's [stop()] is called and raises an exception the loop does
    not absorb. *)
Definition stop_fails (s : AutomationSession) (t : Turn) : option exn :=
  match agent s, stop t with
  | Some _, Some e => if is_decode_error e then None else Some e
  | _, _ => None
  end.

(** The agent's [stop()] raises a [JSONDecodeError], which the loop
    absorbs. *)
Definition stop_absorbed (s : AutomationSession) (t : Turn) : bool :=
  match agent s, stop t with
  | Some _, Some e => is_decode_error e
  | _, _ => false
  end.

(** ** Steps of a run *)

(** The number of [on_step_start] callbacks among the calls of a run. *)
Definition count_starts (cs : list StepCall) : nat :=
  length (List.filter (fun c => match c with StepStart _ _ => true | _ => false end) cs).

(** A probe that is interrupted by a cancellation. *)
Definition probe_cancels {A} (p : Probe A) : bool :=
  match p with Fails e => negb (is_Exception e) | _ => false end.

(** A callback during which a cancellation arrives. *)
Definition call_cancels (c : StepCall) : bool :=
  match c with
  | StepStart cur page => probe_cancels cur || probe_cancels page
  | StepEnd hist page => probe_cancels hist || probe_cancels page
  end.

(** Two states of a session that differ in the step counter and the
    current step at most. *)
Definition same_but_steps (s s' : AutomationSession) : Prop :=
  session_id s' = session_id s /\ websocket s' = websocket s /\ agent s' = agent s
  /\ screenshot_task s' = screenshot_task s /\ status s' = status s
  /\ current_task s' = current_task s /\ error s' = error s.

(** ** What a computation may change *)

(** What one session's command loop may change: nothing of the registry,
    of another session's object or of another session's chat history; of
    its own object neither the identifier nor the screenshot task, and the
    agent stays once it is there. With [ws] the connection is kept too. *)
Definition Frame (ws : bool) (sid : string) (l : loc) (w w' : World) : Prop :=
  active_sessions w' = active_sessions w
  /\ (forall l', l' <> l -> heap w' !! l' = heap w !! l')
  /\ (forall sid', sid' <> sid -> chat_sessions w' !! sid' = chat_sessions w !! sid')
  /\ session_id (heap w' !!! l) = session_id (heap w !!! l)
  /\ screenshot_task (heap w' !!! l) = screenshot_task (heap w !!! l)
  /\ (is_Some (agent (heap w !!! l)) -> is_Some (agent (heap w' !!! l)))
  /\ (ws = true -> websocket (heap w' !!! l) = websocket (heap w !!! l)).

(** The actions of the command loop: events, status writes, and the calls
    that run and stop the agent. *)
Definition loop_action (a : Action) : bool :=
  match a with
  | Send _ | SetStatus _ _ | AgentRun _ _ | AgentStop _ => true
  | _ => false
  end.

(** An update of a session's fields that the loop may make. *)
Definition keeps_fields (ws : bool) (f : AutomationSession -> AutomationSession) : Prop :=
  forall s, session_id (f s) = session_id s
            /\ screenshot_task (f s) = screenshot_task s
            /\ (is_Some (agent s) -> is_Some (agent (f s)))
            /\ (ws = true -> websocket (f s) = websocket s).

(** [m] changes the world within [R] and performs actions of [P] only,
    however it ends. *)
Definition within (R : World -> World -> Prop) (P : Action -> bool) {A} (m : M A) : Prop :=
  forall w, R w (world (m w)) /\ forallb P (trace (m w)) = true.

(** [m] stays within the frame of the session at [l] and performs actions
    of the loop only. *)
Definition framed (ws : bool) (sid : string) (l : loc) {A} (m : M A) : Prop :=
  within (Frame ws sid l) loop_action m.

(** ** Opening and closing a session *)

(** The world once the session object is created and registered. *)
Definition registered (sid : string) (l : loc) (w : World) : World :=
  set_active_sessions (<[sid := l]> (active_sessions w))
    (set_heap (<[l := new_session sid (mkWebSocket CONNECTED)]> (heap w)) w).

(** The session object once the agent is there and the screenshot task is
    started, and the world that holds it. *)
Definition with_agent (sid : string) : AutomationSession :=
  set_agent (Some (mkAgent InitTask)) (new_session sid (mkWebSocket CONNECTED)).

Definition opened (sid : string) (l : loc) (w : World) : World :=
  set_heap (<[l := set_screenshot_task (Some Pending) (with_agent sid)]>
              (<[l := with_agent sid]> (heap (registered sid l w))))
    (registered sid l w).

(** The event that confirms the connection. *)
Definition connection_event (sid : string) : Event :=
  session_event (with_agent sid) "connection" "Connected to automation service"
    [("capabilities", KList ["tax_filing"; "form_filling"; "document_processing"])].

(** The report of the endpoint's [except] clauses. *)
Definition connection_error (session : option loc) (e : exn) (w : World) : list Action :=
  match exn_cls e, session with
  | WebSocketDisconnect, _ => []
  | _, Some l =>
      if is_Exception e && is_connected (websocket (heap w !!! l)) then
        [Send (session_event (heap w !!! l) "error" "WebSocket connection error"
                 [("error_type", KStr "connection");
                  ("details", KDict [("error", exn_msg e)])])]
      else []
  | _, None => []
  end.

(** The release of an opened session: its screenshot task is cancelled and
    awaited, its agent closed. *)
Definition teardown (l : loc) : list Action := [TaskCancel l; TaskAwait l; AgentClose l].

(** The endpoint is suspended in its loop, waiting for the next frame. *)
Definition is_waiting (o : outcome Phase) : bool :=
  match o with Ret (Waiting _) => true | _ => false end.

(** ** The screenshot stream *)

(** The events of the stream: a screenshot, or a recoverable error of type
    "screenshot". *)
Definition stream_action (a : Action) : bool :=
  match a with
  | Send e =>
      String.eqb (ev_type e) "screenshot"
      || (String.eqb (ev_type e) "error"
          && match kwarg_of "error_type" (ev_kwargs e), kwarg_of "recoverable" (ev_kwargs e) with
             | Some (KStr ty), Some (KBool true) => String.eqb ty "screenshot"
             | _, _ => false
             end)
  | _ => false
  end.

(** The probe of the agent's browser context raises an [Exception]. *)
Definition probe_raises {A} (p : Probe A) : bool :=
  match p with Fails e => is_Exception e | _ => false end.

(** The event a pass sends when the capture failed. *)
Definition capture_error (s : AutomationSession) : Event :=
  session_event s "error" "Failed to capture screenshot"
    [("error_type", KStr "screenshot"); ("recoverable", KBool true)].

(** ** Sample inputs *)

(** A world with one session, connected and idle, registered as "s1". *)
Definition connected_world : World :=
  world (websocket_endpoint "s1" None None [] empty_world).

Definition chat_frame (m : string) : Received :=
  RecvText (inl (JObj [("type", JStr "chat_message"); ("message", JStr m)])).

(** A turn whose agent run makes no callback and returns "done", whose
    reply service answers "hi", and whose [stop()] returns. *)
Definition quiet_turn (r : Received) : Turn :=
  mkTurn r (Completion "hi") (mkRun [] (inl "done")) None.

(** A text that is not JSON. *)
Definition not_json_turn : Turn :=
  quiet_turn (RecvText (inr (Exn JSONDecodeError
                               "Expecting value: line 1 column 1 (char 0)"))).

(** A text of a thousand opening brackets, on which the decoder runs out
    of stack. *)
Definition nested_turn : Turn :=
  quiet_turn (RecvText (inr (Exn RecursionError
    "maximum recursion depth exceeded while decoding a JSON array from a unicode string"))).

Definition ping_turn : Turn :=
  quiet_turn (RecvText (inl (JObj [("type", JStr "ping")]))).

Definition stop_turn : Turn :=
  quiet_turn (RecvText (inl (JObj [("type", JStr "stop_task")]))).

Definition filing_turn : Turn := quiet_turn (chat_frame "file my tax return").

Definition help_filing_turn : Turn := quiet_turn (chat_frame "Help me understand filing").

Definition help_turn : Turn := quiet_turn (chat_frame "Help me understand").

Definition failing_reply_turn : Turn :=
  mkTurn (chat_frame "Hello there") (CompletionFails (Exn RuntimeError "timeout"))
    (mkRun [] (inl "done")) None.

(** The client goes away. *)
Definition disconnect_turn : Turn := quiet_turn RecvDisconnect.

(** A filing command whose run makes one step and then fails. *)
Definition failing_run_turn : Turn :=
  mkTurn (chat_frame "file my tax return") (Completion "hi")
    (mkRun [StepStart (Present "login") (Present ("https://portal", "Login"))]
       (inr (Exn RuntimeError "browser closed")))
    None.

(** A form command whose run starts three steps, two of them without a
    page or a state to report. *)
Definition three_step_turn : Turn :=
  mkTurn (chat_frame "fill the application form") (Completion "hi")
    (mkRun [StepStart (Present "open") (Present ("https://portal", "Home"));
            StepEnd (Present (Some "clicked")) (Fails (Exn RuntimeError "page gone"));
            StepStart Absent Absent;
            StepStart (Fails (Exn RuntimeError "no state")) Absent]
       (inl "done"))
    None.

(** Three passes of the stream: no browser context yet, a capture, a
    failed capture. *)
Definition sample_ticks : list (Probe Capture) :=
  [Absent; Present (Captured "/9j/4AAQ" "https://portal" "Login");
   Present (CaptureFails (Exn RuntimeError "page crashed"))].

(** [connected_world] after the screenshot task of "s1" ended with an
    exception. *)
Definition failed_world : World :=
  set_heap
    (<[1%positive :=
         set_screenshot_task (Some (Done (TRaised (Exn RuntimeError "probe failed"))))
           (heap connected_world !!! 1%positive)]> (heap connected_world))
    connected_world.


(** * Properties *)

(** ** The classifier *)

Example intent_start_itr :
  analyze_user_intent "Start ITR filing for AY 2023-24"
  = mkIntent "tax_filing" true "tax_filing" 0.95 (Some "start_filing").
Proof. vm_compute. reflexivity. Qed.

Example intent_hello :
  analyze_user_intent "Hello, how are you?" = mkIntent "help" false "chat" 0.6 None.
Proof. vm_compute. reflexivity. Qed.

Example intent_plain :
  analyze_user_intent "Good morning" = default_chat.
Proof. vm_compute. reflexivity. Qed.

Example format_percent :
  map (fun c => format_0f (c * 100)) [0.9; 0.95; 0.8; 0.7]%float
  = ["90"; "95"; "80"; "70"].
Proof. vm_compute. reflexivity. Qed.

Lemma prefix_lower (k s : string) :
  String.prefix k s = true -> String.prefix (lower k) (lower s) = true.
Proof.
  revert s. induction k as [|a k IH]; intros s H; [destruct s; reflexivity|].
  destruct s as [|b s]; simpl in H; [discriminate|].
  simpl. destruct (Ascii.ascii_dec a b) as [->|]; [|discriminate].
  destruct (Ascii.ascii_dec (lower_char b) (lower_char b)); [|congruence].
  apply IH, H.
Qed.

(** A keyword written in lower case that occurs in a message occurs in the
    lowered message: the scan is case-insensitive. *)
Lemma contains_lower (k s : string) :
  contains k s = true -> contains (lower k) (lower s) = true.
Proof.
  induction s as [|b s IH]; cbn [contains lower]; intros H;
    apply orb_true_iff in H as [H|H]; try discriminate.
  - apply prefix_lower in H. cbn [lower] in H. rewrite H. reflexivity.
  - apply prefix_lower in H. cbn [lower] in H. rewrite H. reflexivity.
  - rewrite (IH H). apply orb_true_r.
Qed.

Lemma prefix_app (k s : string) :
  String.prefix k s = true <-> exists post, s = k ++ post.
Proof.
  revert s. induction k as [|a k IH]; intros s.
  - split; [intros _; exists s; reflexivity|intros _; destruct s; reflexivity].
  - destruct s as [|b s]; cbn.
    + split; [discriminate|intros [post H]; discriminate].
    + destruct (Ascii.ascii_dec a b) as [->|Hne].
      * rewrite IH. split; intros [post H]; exists post; [rewrite H; reflexivity|].
        injection H as H. exact H.
      * split; [discriminate|intros [post H]]. injection H as H1 H2. congruence.
Qed.

(** [k in s] holds exactly when [s] is some text, [k], some text. *)
Lemma contains_app (k s : string) :
  contains k s = true <-> exists pre post, s = pre ++ k ++ post.
Proof.
  induction s as [|b s IH]; cbn [contains].
  - rewrite orb_false_r, prefix_app. split.
    + intros [post H]. exists "", post. exact H.
    + intros (pre & post & H). destruct pre; [exists post; exact H|discriminate].
  - rewrite orb_true_iff, prefix_app, IH. split.
    + intros [[post H]|(pre & post & H)].
      * exists "", post. exact H.
      * exists (String b pre), post. cbn. rewrite H. reflexivity.
    + intros (pre & post & H). destruct pre as [|c pre].
      * left. exists post. exact H.
      * right. injection H as H1 H2. exists pre, post. exact H2.
Qed.

Lemma any_in_In (ks : list string) (s : string) :
  any_in ks s = true <-> exists k pre post, In k ks /\ s = pre ++ k ++ post.
Proof.
  unfold any_in. rewrite existsb_exists. split.
  - intros (k & Hin & H). apply contains_app in H as (pre & post & H). eauto 6.
  - intros (k & pre & post & Hin & H). exists k. split; [exact Hin|].
    apply contains_app. eauto.
Qed.

Lemma mentions_any_in (keywords : list string) (m : string) :
  mentions keywords m <-> any_in keywords (lower m) = true.
Proof. symmetry. apply any_in_In. Qed.

Lemma not_mentions_any_in (keywords : list string) (m : string) :
  ~ mentions keywords m <-> any_in keywords (lower m) = false.
Proof. rewrite mentions_any_in. apply not_true_iff_false. Qed.

(** What the scan has found when [g] is the first group that matches. *)
Lemma first_match_scan (m : string) (g : Group) :
  first_match m g ->
  match g with
  | FilingGroup => any_in tax_keywords (lower m) = true
  | FormGroup =>
      any_in tax_keywords (lower m) = false /\ any_in form_keywords (lower m) = true
  | HelpGroup =>
      any_in tax_keywords (lower m) = false /\ any_in form_keywords (lower m) = false
      /\ any_in help_keywords (lower m) = true
  end.
Proof.
  intros (before & after & Hord & Hnone & Hg). unfold priority_order in Hord.
  apply mentions_any_in in Hg.
  assert (Hno : forall g', In g' before -> any_in (group_keywords g') (lower m) = false)
    by (intros g' Hin; apply not_mentions_any_in, Hnone, Hin).
  destruct before as [|b1 [|b2 [|b3 before]]]; cbn in Hord.
  - injection Hord as <- _. exact Hg.
  - injection Hord as <- <- _. split; [apply (Hno FilingGroup); cbn; auto|exact Hg].
  - injection Hord as <- <- <- _.
    split; [apply (Hno FilingGroup); cbn; auto|].
    split; [apply (Hno FormGroup); cbn; auto|exact Hg].
  - injection Hord as _ _ _ Hord. destruct before; discriminate.
Qed.

(** C6, as the design document states it, fails: the first matching group
    does not determine the confidence. Two messages whose first matching
    group is the filing group are classified with confidence 0.9 and
    0.7. *)
Lemma filing_group_confidence_varies :
  first_match "my tax" FilingGroup
  /\ first_match "tax help" FilingGroup
  /\ confidence (analyze_user_intent "my tax") = 0.9%float
  /\ confidence (analyze_user_intent "tax help") = 0.7%float
  /\ (confidence (analyze_user_intent "tax help")
      <? confidence (analyze_user_intent "my tax"))%float = true.
Proof.
  assert (H : forall m, any_in tax_keywords (lower m) = true -> first_match m FilingGroup).
  { intros m Hm. exists [], [FormGroup; HelpGroup]. split; [reflexivity|].
    split; [intros g' []|apply mentions_any_in, Hm]. }
  split; [apply H; reflexivity|]. split; [apply H; reflexivity|].
  vm_compute. repeat split; reflexivity.
Qed.

(** C6 (amended). The classifier scans the groups in the order filing, form,
    help, and the first group with a keyword in the lowered text fixes the
    intent, the automation flag and the task type; it fixes the confidence
    too for the form group (0.8) and the help group (0.6), which set no
    action. In the filing group a second scan sets the action and the
    confidence: start_filing and 0.95 with a start keyword, else
    check_status and 0.8 with a check keyword, else help_guide and 0.7 with
    a help keyword, else no action and 0.9. A text with no keyword of any
    group gets the default chat classification: no automation, confidence
    0.5. *)
Theorem analyze_user_intent_first_match (m : string) :
  let r := analyze_user_intent m in
  (forall g, first_match m g ->
     (intent r, requires_automation r, task_type r) = group_outcome g
     /\ match g with
        | FilingGroup =>
            (mentions start_actions m ->
               action r = Some "start_filing" /\ confidence r = 0.95%float)
            /\ (~ mentions start_actions m -> mentions check_actions m ->
                  action r = Some "check_status" /\ confidence r = 0.8%float)
            /\ (~ mentions start_actions m -> ~ mentions check_actions m ->
                mentions help_actions m ->
                  action r = Some "help_guide" /\ confidence r = 0.7%float)
            /\ (~ mentions start_actions m -> ~ mentions check_actions m ->
                ~ mentions help_actions m ->
                  action r = None /\ confidence r = 0.9%float)
        | FormGroup => action r = None /\ confidence r = 0.8%float
        | HelpGroup => action r = None /\ confidence r = 0.6%float
        end)
  /\ ((forall g, ~ mentions (group_keywords g) m) -> r = default_chat)
  /\ requires_automation default_chat = false
  /\ confidence default_chat = 0.5%float.
Proof.
  cbv zeta. split; [|split; [|split; reflexivity]].
  - intros g Hg. apply first_match_scan in Hg. unfold analyze_user_intent.
    destruct g.
    + rewrite Hg. rewrite !not_mentions_any_in, !mentions_any_in.
      destruct (any_in start_actions (lower m));
        [|destruct (any_in check_actions (lower m));
          [|destruct (any_in help_actions (lower m))]];
        cbn [set_action intent requires_automation task_type action confidence group_outcome];
        (split; [reflexivity|]);
        repeat split; intros; try discriminate; reflexivity.
    + destruct Hg as [-> ->]. split; [reflexivity|]. split; reflexivity.
    + destruct Hg as (-> & -> & ->). split; [reflexivity|]. split; reflexivity.
  - intros Hnone. unfold analyze_user_intent, default_chat.
    pose proof (proj1 (not_mentions_any_in _ _) (Hnone FilingGroup)) as H1.
    pose proof (proj1 (not_mentions_any_in _ _) (Hnone FormGroup)) as H2.
    pose proof (proj1 (not_mentions_any_in _ _) (Hnone HelpGroup)) as H3.
    cbn [group_keywords] in H1, H2, H3. rewrite H1, H2, H3. reflexivity.
Qed.

Lemma analyze_user_intent_first_match_witness :
  let r := analyze_user_intent "tax help" in
  first_match "tax help" FilingGroup
  /\ (intent r, requires_automation r, task_type r) = ("tax_filing", true, "tax_filing")
  /\ action r = Some "help_guide"
  /\ confidence r = 0.7%float.
Proof.
  assert (Hg : first_match "tax help" FilingGroup).
  { exists [], [FormGroup; HelpGroup]. split; [reflexivity|].
    split; [intros g' []|apply mentions_any_in; reflexivity]. }
  destruct (proj1 (analyze_user_intent_first_match "tax help") FilingGroup Hg)
    as (Hout & _ & _ & Hhelp & _).
  split; [exact Hg|]. split; [exact Hout|].
  apply Hhelp.
  - apply not_mentions_any_in. reflexivity.
  - apply not_mentions_any_in. reflexivity.
  - apply mentions_any_in. reflexivity.
Defined.

(** C7. A message whose lowered text has a filing keyword and one of the
    start-action keywords ("start", "begin", "file", "submit") is classified
    as automation of task type tax_filing with action start_filing and
    confidence 0.95, which is above 0.9, the confidence of any message of
    the filing group that has no action keyword. *)
Theorem filing_with_start_action (m m' : string)
    (Hfiling : any_in tax_keywords (lower m) = true)
    (Hstart : any_in start_actions (lower m) = true)
    (Hfiling' : any_in tax_keywords (lower m') = true)
    (Hplain' : any_in (start_actions ++ check_actions ++ help_actions) (lower m') = false) :
  let r := analyze_user_intent m in
  requires_automation r = true
  /\ task_type r = "tax_filing"
  /\ action r = Some "start_filing"
  /\ confidence r = 0.95%float
  /\ confidence (analyze_user_intent m') = 0.9%float
  /\ (confidence (analyze_user_intent m') <? confidence r)%float = true.
Proof.
  unfold any_in in Hplain'. rewrite !existsb_app in Hplain'.
  apply orb_false_iff in Hplain' as [H1 H2].
  apply orb_false_iff in H2 as [H2 H3].
  unfold analyze_user_intent. rewrite Hfiling, Hstart, Hfiling'.
  unfold any_in. rewrite H1, H2, H3.
  repeat split; reflexivity.
Qed.

Lemma filing_with_start_action_witness :
  let m := "Start ITR filing for AY 2023-24" in
  let r := analyze_user_intent m in
  requires_automation r = true
  /\ task_type r = "tax_filing"
  /\ action r = Some "start_filing"
  /\ confidence r = 0.95%float
  /\ confidence (analyze_user_intent "my tax") = 0.9%float
  /\ (confidence (analyze_user_intent "my tax") <? confidence r)%float = true.
Proof.
  apply (filing_with_start_action "Start ITR filing for AY 2023-24" "my tax");
    vm_compute; reflexivity.
Defined.

(** ** Symbolic execution of the model *)

(** Unfold the monad and the model's functions, leaving the finite maps, the
    classifier and the text functions folded. *)
Ltac run_once :=
  cbv beta iota zeta delta
    [mbind M_bind mret M_ret raise try_except except_Exception emit deref update
     gets modify after finally
     set_heap set_active_sessions set_chat_sessions
     set_status send_status cleanup_session del_active_session await_result cancel
     finally_cleanup endpoint_except endpoint_exit error_handler
     initialize_automation_agent get_chat_response chat_append
     run_chat run_stop run_automation handle_automation_step loop_body
     receive subscript str_receiver invalid_message_format
     guarded_serve serve register_session websocket_endpoint new_session
     is_connected];
  cbn [out world trace heap active_sessions chat_sessions exn_cls exn_msg is_Exception
       session_id websocket agent screenshot_task status current_task step_count
       current_step error client_state received reply run stop calls result task
       set_agent set_screenshot_task set_websocket set_status_field set_current_task
       set_step_count set_current_step set_error
       app existsb String.eqb Ascii.eqb Bool.eqb orb].

Ltac run := repeat progress run_once.

Ltac map_simpl :=
  repeat first
    [ rewrite lookup_total_insert_eq | rewrite lookup_insert_eq
    | rewrite lookup_delete_eq ].

(** Case analysis on what the execution is stuck on. *)
Ltac split_stuck :=
  match goal with
  | |- context [match ?m !! ?k with _ => _ end] => destruct (m !! k) eqn:?
  | |- context [match screenshot_task ?s with _ => _ end] =>
      destruct (screenshot_task s) as [[|[| |[[] ?]]]|] eqn:?
  | |- context [match agent ?s with _ => _ end] => destruct (agent s) eqn:?
  | |- context [match client_state ?x with _ => _ end] => destruct (client_state x) eqn:?
  end.

Ltac go := repeat (progress (run_once; map_simpl)).

Ltac exec := go; repeat (split_stuck; go).

(** ** Session cleanup *)

Example connected_world_phase :
  out (websocket_endpoint "s1" None None [] empty_world) = Ret (Waiting 1%positive)
  /\ active_sessions connected_world !! "s1" = Some 1%positive
  /\ status (heap connected_world !!! 1%positive) = Connected
  /\ screenshot_task (heap connected_world !!! 1%positive) = Some Pending.
Proof. vm_compute. repeat split; reflexivity. Qed.

(** A failed screenshot task makes cleanup raise and leaves the session
    registered. *)
Lemma cleanup_session_failed_task (session_id : string) (w : World) :
  screenshot_task_failed session_id w = true ->
  exists e, out (cleanup_session session_id w) = Raise e
            /\ exn_cls e = SessionError
            /\ active_sessions (world (cleanup_session session_id w)) = active_sessions w.
Proof.
  destruct w as [h a c]. unfold screenshot_task_failed. exec; intros H;
    try discriminate; eexists; repeat split; reflexivity.
Qed.





Example cleanup_releases_once :
  trace (cleanup_session "s1" connected_world)
  = [TaskCancel 1%positive; TaskAwait 1%positive; AgentClose 1%positive]
  /\ trace (cleanup_session "s1" (world (cleanup_session "s1" connected_world))) = [].
Proof. vm_compute. split; reflexivity. Qed.

(** C10. [cleanup_session] leaves the table [chat_sessions] as it is; in
    particular the history that [get_chat_response] created or extended
    for the session is still there after the session was cleaned up. *)
Theorem cleanup_session_keeps_chat_history
    (session_id user_message text : string) (w : World) :
  let w1 := world (get_chat_response user_message session_id (Completion text) w) in
  let w2 := world (cleanup_session session_id w1) in
  chat_sessions w2 = chat_sessions w1
  /\ chat_sessions w2 !! session_id
     = Some (default [system_prompt] (chat_sessions w !! session_id)
             ++ [mkChat "user" user_message; mkChat "assistant" text])%list
  /\ (forall sid' w', chat_sessions (world (cleanup_session sid' w')) = chat_sessions w').
Proof.
  assert (Hframe : forall sid' w',
             chat_sessions (world (cleanup_session sid' w')) = chat_sessions w').
  { intros sid' [h a c]. exec; reflexivity. }
  cbv zeta. split; [apply Hframe|]. split; [|apply Hframe].
  rewrite Hframe. destruct w as [h a c]. run.
  destruct (c !! session_id) as [hist|] eqn:Hc; run.
  - rewrite !lookup_alter_eq, Hc. cbn. rewrite <- app_assoc. reflexivity.
  - rewrite !lookup_alter_eq, lookup_insert_eq. reflexivity.
Qed.

(** ** Inbound frames *)

(** C1, as the design document states it, fails on a frame of unknown type:
    the frame is dropped without any event. *)
Lemma unknown_type_emits_no_error :
  unknown_type (received ping_turn) = true
  /\ out (loop_body "s1" 1%positive ping_turn connected_world) = Ret tt
  /\ length (error_events (trace (loop_body "s1" 1%positive ping_turn connected_world)))
     = 0%nat.
Proof. vm_compute. repeat split; reflexivity. Qed.

(** A frame without a ["type"] is not handled inside the loop: the
    [KeyError] leaves it, the endpoint reports a connection error and
    cleans the session up. *)
Example missing_type_ends_session :
  let t := quiet_turn (RecvText (inl (JObj [("message", JStr "hi")]))) in
  let r := websocket_endpoint "s1" None None [t] empty_world in
  missing_type (received t) = true
  /\ out r = Ret Returned
  /\ active_sessions (world r) !! "s1" = None
  /\ map (fun e => kwarg_of "error_type" (ev_kwargs e)) (error_events (trace r))
     = [Some (KStr "connection")].
Proof. vm_compute. repeat split; reflexivity. Qed.

(** A text on which the decoder raises something else than a
    [JSONDecodeError] is not handled inside the loop either. *)
Example nested_text_ends_session :
  let r := websocket_endpoint "s1" None None [nested_turn] empty_world in
  undecodable (received nested_turn) = false
  /\ out r = Ret Returned
  /\ active_sessions (world r) !! "s1" = None
  /\ map (fun e => kwarg_of "error_type" (ev_kwargs e)) (error_events (trace r))
     = [Some (KStr "connection")].
Proof. vm_compute. repeat split; reflexivity. Qed.

(** C1 (amended). A text that the decoder rejects with a [JSONDecodeError]
    leaves the session (its status with it), the registry and the chat
    histories as they are, sends exactly one event, an error event flagged
    recoverable with error type "message", and the loop goes on; a decoded
    object whose type is neither chat_message nor stop_task leaves them as
    they are too, sends nothing, and the loop goes on. *)
Theorem malformed_frame_keeps_session (session_id : string) (l : loc) (t : Turn)
    (w : World) :
  (undecodable (received t) = true ->
     loop_body session_id l t w
     = mkResult (Ret tt) w
         [Send (session_event (heap w !!! l) "error" "Invalid message format"
                  [("error_type", KStr "message"); ("recoverable", KBool true)])]
     /\ recovered_with_one_error l w (loop_body session_id l t w))
  /\ (unknown_type (received t) = true ->
        loop_body session_id l t w = mkResult (Ret tt) w []).
Proof.
  destruct t as [[|[data|e]] rp rn st]; cbn [received undecodable unknown_type];
    split; intros H; try discriminate.
  - destruct data as [| | | | |items]; try discriminate.
    destruct (assoc "type" items) as [ty|] eqn:Hty; [|discriminate].
    apply andb_true_iff in H as [H1 H2].
    apply negb_true_iff in H1. apply negb_true_iff in H2.
    run. rewrite Hty. run. rewrite H1, H2. reflexivity.
  - destruct e as [[] msg]; try discriminate.
    split; [reflexivity|]. repeat split; reflexivity.
Qed.

Lemma malformed_frame_keeps_session_witness :
  recovered_with_one_error 1%positive connected_world
    (loop_body "s1" 1%positive not_json_turn connected_world)
  /\ loop_body "s1" 1%positive ping_turn connected_world
     = mkResult (Ret tt) connected_world [].
Proof.
  split.
  - apply (proj1 (malformed_frame_keeps_session "s1" 1%positive not_json_turn
                    connected_world)).
    reflexivity.
  - apply (proj2 (malformed_frame_keeps_session "s1" 1%positive ping_turn
                    connected_world)).
    vm_compute. reflexivity.
Defined.

(** ** The chat branch *)

Lemma chat_text_inv (r : Received) (m : string) :
  chat_text r = Some m ->
  exists items ty, r = RecvText (inl (JObj items))
                   /\ assoc "type" items = Some ty
                   /\ json_is_str ty "chat_message" = true
                   /\ assoc "message" items = Some (JStr m).
Proof.
  destruct r as [|[[| | | | |items]|]]; try discriminate. cbn [chat_text].
  destruct (assoc "type" items) as [ty|] eqn:Ht; [|discriminate].
  destruct (assoc "message" items) as [[| | |s| |]|] eqn:Hm; try discriminate.
  destruct (json_is_str ty "chat_message") eqn:Hty; [|discriminate].
  intros [= ->]. exists items, ty. repeat split; assumption.
Qed.

(** One iteration on a well-formed chat frame is the branch the classifier
    selects, under the loop's [JSONDecodeError] clause. *)
Lemma loop_body_chat (session_id : string) (l : loc) (t : Turn) (m : string) (w : World) :
  chat_text (received t) = Some m ->
  loop_body session_id l t w
  = try_except
      (if requires_automation (analyze_user_intent m)
       then run_automation l m (analyze_user_intent m) (run t)
       else run_chat session_id l m (reply t))
      (invalid_message_format l) w.
Proof.
  intros H. apply chat_text_inv in H as (items & ty & Hr & Hty & Hchat & Hm).
  destruct t as [r rp rn st]. cbn [received] in Hr. subst r.
  match goal with |- _ = ?R => set (rhs := R) end.
  cbv beta iota zeta delta
    [loop_body try_except mbind M_bind mret M_ret after receive subscript str_receiver
     raise received reply run].
  rewrite Hty. cbv beta iota. rewrite Hchat, Hm. cbv beta iota.
  subst rhs. unfold try_except. cbn [run reply].
  destruct (requires_automation (analyze_user_intent m)).
  - destruct (run_automation l m (analyze_user_intent m) rn w) as [[[]|e] w' tr];
      cbn [app]; reflexivity.
  - destruct (run_chat session_id l m rp w) as [[[]|e] w' tr]; cbn [app]; reflexivity.
Qed.

(** What the chat branch does when the reply service fails:
    [get_chat_response] absorbs the failure and returns the apology text,
    which goes out as a chat_response after the typing indicator; the
    handler of lines 642-649 is not reached. The session's fields and the
    registry are what they were, and the loop goes on. *)
Lemma reply_failure_answered_with_fallback (session_id : string) (l : loc)
    (t : Turn) (m : string) (w : World)
    (Hchat : chat_text (received t) = Some m)
    (Hroute : requires_automation (analyze_user_intent m) = false)
    (Hfail : reply_fails (reply t) = true) :
  let r := loop_body session_id l t w in
  out r = Ret tt
  /\ trace r = [Send (session_event (heap w !!! l) "typing" "Thinking..." []);
                Send (session_event (heap w !!! l) "chat_response" chat_fallback [])]
  /\ error_events (trace r) = []
  /\ heap (world r) = heap w
  /\ active_sessions (world r) = active_sessions w.
Proof.
  cbv zeta. rewrite (loop_body_chat _ _ _ _ _ Hchat), Hroute.
  destruct w as [h a c].
  destruct (reply t) as [e|e|text]; cbn [reply_fails] in Hfail; try discriminate.
  - destruct e as [[] msg]; try discriminate; run; repeat split; reflexivity.
  - destruct e as [[] msg]; try discriminate; run;
      destruct (c !! session_id); run; repeat split; reflexivity.
Qed.

Lemma reply_failure_answered_with_fallback_witness :
  let r := loop_body "s1" 1%positive failing_reply_turn connected_world in
  out r = Ret tt
  /\ trace r
     = [Send (session_event (heap connected_world !!! 1%positive) "typing" "Thinking..." []);
        Send (session_event (heap connected_world !!! 1%positive) "chat_response"
                chat_fallback [])]
  /\ error_events (trace r) = []
  /\ heap (world r) = heap connected_world
  /\ active_sessions (world r) = active_sessions connected_world.
Proof.
  apply (reply_failure_answered_with_fallback "s1" 1%positive failing_reply_turn
           "Hello there" connected_world); vm_compute; reflexivity.
Defined.

(** C4. The code does not do what the claim says and what its own handler
    of lines 642-649 attempts: on the chat message "Hello there", with a
    completion request that times out, no error event is sent. The apology
    goes out as a chat_response and the loop goes on. *)
Theorem reply_failure_sends_no_error_event :
  chat_text (received failing_reply_turn) = Some "Hello there"
  /\ requires_automation (analyze_user_intent "Hello there") = false
  /\ reply_fails (reply failing_reply_turn) = true
  /\ out (loop_body "s1" 1%positive failing_reply_turn connected_world) = Ret tt
  /\ map ev_type (events (trace (loop_body "s1" 1%positive failing_reply_turn
                                   connected_world)))
     = ["typing"; "chat_response"]
  /\ length (error_events (trace (loop_body "s1" 1%positive failing_reply_turn
                                    connected_world))) = 0%nat.
Proof. vm_compute. repeat split; reflexivity. Qed.

(** ** The automation branch *)

Lemma step_callback_trace (l : loc) (c : StepCall) (w : World) :
  forallb step_action (trace (step_callback l c w)) = true.
Proof.
  destruct w as [h a cs].
  destruct c as [[|[[] ?]|cur] [|[[] ?]|[url title]]|[|[[] ?]|la] [|[[] ?]|[url title]]];
    unfold step_callback, on_step_start, on_step_end; run; reflexivity.
Qed.

(** The callbacks of a run send step events and nothing else; in particular
    they write no status. *)
Lemma run_callbacks_trace (l : loc) (cs : list StepCall) (w : World) :
  forallb step_action (trace (run_callbacks l cs w)) = true.
Proof.
  revert w. induction cs as [|c cs IH]; intros w; [reflexivity|].
  cbn [run_callbacks]. unfold mbind, M_bind.
  pose proof (step_callback_trace l c w) as Hc.
  destruct (step_callback l c w) as [[[]|e] w1 tr1]; cbn [trace] in Hc |- *;
    [|exact Hc].
  specialize (IH w1). destruct (run_callbacks l cs w1) as [o w2 tr2].
  cbn [after trace] in IH |- *. rewrite forallb_app, Hc, IH. reflexivity.
Qed.

(** A callback swallows every [Exception]: only a cancellation leaves it. *)
Lemma step_callback_raise (l : loc) (c : StepCall) (w : World) (e : exn) :
  out (step_callback l c w) = Raise e -> is_Exception e = false.
Proof.
  destruct w as [h a cs].
  destruct c as [[|[[] ?]|cur] [|[[] ?]|[url title]]|[|[[] ?]|la] [|[[] ?]|[url title]]];
    unfold step_callback, on_step_start, on_step_end; run; intros [= <-];
    reflexivity.
Qed.

Lemma run_callbacks_raise (l : loc) (cs : list StepCall) (w : World) (e : exn) :
  out (run_callbacks l cs w) = Raise e -> is_Exception e = false.
Proof.
  revert w. induction cs as [|c cs IH]; intros w; [discriminate|].
  cbn [run_callbacks]. unfold mbind, M_bind.
  pose proof (step_callback_raise l c w) as Hc.
  destruct (step_callback l c w) as [[[]|e'] w1 tr1]; cbn [out] in Hc |- *.
  - specialize (IH w1). destruct (run_callbacks l cs w1) as [o w2 tr2].
    cbn [after out] in IH |- *. exact IH.
  - intros [= <-]. apply Hc. reflexivity.
Qed.

Lemma step_actions_write_no_status (tr : list Action) :
  forallb step_action tr = true -> status_writes tr = [].
Proof.
  induction tr as [|[] tr IH]; cbn; intros H; try discriminate; [reflexivity|].
  apply andb_true_iff in H as [_ H]. exact (IH H).
Qed.

Lemma step_actions_not_chat (tr : list Action) :
  forallb step_action tr = true -> existsb chat_action tr = false.
Proof.
  induction tr as [|[] tr IH]; cbn; intros H; try discriminate; [reflexivity|].
  apply andb_true_iff in H as [He H]. rewrite (IH H), orb_false_r.
  apply orb_true_iff in He as [He|He]; apply String.eqb_eq in He; rewrite He; reflexivity.
Qed.

Lemma status_writes_app (tr1 tr2 : list Action) :
  status_writes (tr1 ++ tr2) = (status_writes tr1 ++ status_writes tr2)%list.
Proof. apply omap_app. Qed.

Lemma events_app (tr1 tr2 : list Action) :
  events (tr1 ++ tr2) = (events tr1 ++ events tr2)%list.
Proof. apply omap_app. Qed.

Lemma status_writes_cons (a : Action) (tr : list Action) :
  status_writes (a :: tr)
  = match a with
    | SetStatus _ s => s :: status_writes tr
    | _ => status_writes tr
    end.
Proof. destruct a; reflexivity. Qed.

Lemma events_cons (a : Action) (tr : list Action) :
  events (a :: tr)
  = match a with
    | Send e => e :: events tr
    | _ => events tr
    end.
Proof. destruct a; reflexivity. Qed.

(** Close a goal about a trace that is explicit up to the callbacks' part. *)
Ltac trace_facts Hcb :=
  rewrite <- ?app_assoc, ?app_nil_r;
  repeat first
    [ rewrite status_writes_cons | rewrite status_writes_app
    | rewrite existsb_app
    | rewrite (step_actions_not_chat _ Hcb)
    | rewrite (step_actions_write_no_status _ Hcb)
    | progress cbn [existsb chat_action orb app String.eqb Ascii.eqb Bool.eqb ev_type
                    session_event] ];
  reflexivity.

(** The automation branch writes the status Running first and reports it in
    a status_update event; what follows has no event of the chat branch and
    writes Completed when the branch returns, Error when it is left by an
    [Exception], nothing when it is left by a cancellation; a
    [JSONDecodeError] that leaves the branch is the one the agent's run
    raised. *)
Lemma run_automation_shape (l : loc) (m : string) (i : Intent) (r : Run) (w : World) :
  let res := run_automation l m i r w in
  exists e rest,
    trace res = SetStatus l Running :: Send e :: rest
    /\ ev_type e = "status_update"
    /\ ev_status e = Running
    /\ ev_message e = starting_message i
    /\ existsb chat_action rest = false
    /\ match out res with
       | Ret _ => status_writes rest = [Completed]
       | Raise x =>
           (if is_Exception x then status_writes rest = [Error]
            else status_writes rest = [])
           /\ (is_decode_error x = true -> result r = inr x)
       end.
Proof.
  destruct w as [h a c]. destruct r as [cs res]. cbv zeta.
  run. map_simpl. run.
  destruct (agent (h !!! l)) as [ag|]; run; map_simpl; run.
  - match goal with |- context [run_callbacks ?l1 ?cs1 ?w1] =>
      pose proof (run_callbacks_trace l1 cs1 w1) as Hcb;
      pose proof (run_callbacks_raise l1 cs1 w1) as Hraise;
      destruct (run_callbacks l1 cs1 w1) as [[[]|[[] msg]] w2 tr1] end.
    all: cbn [trace out] in Hcb, Hraise;
      try (specialize (Hraise _ eq_refl); discriminate Hraise); clear Hraise; run.
    all: try (destruct res as [s|[[] msg']]; run; map_simpl; run).
    all: repeat (split_stuck; run; map_simpl; run).
    all: do 2 eexists; (split; [reflexivity|]); repeat split;
      first [trace_facts Hcb | intros Hx; first [discriminate Hx | reflexivity]].
  - repeat (split_stuck; run; map_simpl; run).
    all: do 2 eexists; (split; [reflexivity|]); repeat split;
      first [reflexivity | intros Hx; discriminate Hx].
Qed.

(** The loop's [JSONDecodeError] clause around a block: the block's result
    as it is, unless the block was left by a [JSONDecodeError], which is
    reported and absorbed. *)
Lemma decode_guard (body : M unit) (l : loc) (w : World) :
  try_except body (invalid_message_format l) w
  = match out (body w) with
    | Raise e =>
        if is_decode_error e then
          mkResult (Ret tt) (world (body w))
            (trace (body w) ++ [Send (invalid_format_event (heap (world (body w)) !!! l))])
        else body w
    | Ret _ => body w
    end.
Proof.
  unfold try_except, invalid_message_format, is_decode_error.
  destruct (body w) as [[[]|[[] msg]] w' tr]; reflexivity.
Qed.

(** C2 (amended). "Help me understand filing" has the filing keyword
    "filing": it is classified as tax_filing automation with action
    help_guide and confidence 0.7, and the command writes the status
    Running, sends a status_update event first and sends no typing or
    chat_response event. The same request without a filing word, "Help me
    understand", is classified by the help group as needing no automation,
    and the command sends a typing event followed by the chat_response
    event with the reply and leaves the session's fields, its status with
    them, as they were. *)
Theorem help_with_filing_is_automated :
  analyze_user_intent "Help me understand filing"
  = mkIntent "tax_filing" true "tax_filing" 0.7 (Some "help_guide")
  /\ (forall session_id l t w,
        chat_text (received t) = Some "Help me understand filing" ->
        exists e rest,
          trace (loop_body session_id l t w) = SetStatus l Running :: Send e :: rest
          /\ ev_type e = "status_update"
          /\ ev_status e = Running
          /\ ev_message e = "Starting tax_filing automation... (Confidence: 70%)"
          /\ existsb chat_action (trace (loop_body session_id l t w)) = false)
  /\ analyze_user_intent "Help me understand" = mkIntent "help" false "chat" 0.6 None
  /\ (forall session_id l t w text,
        chat_text (received t) = Some "Help me understand" ->
        reply t = Completion text ->
        let r := loop_body session_id l t w in
        out r = Ret tt
        /\ trace r = [Send (session_event (heap w !!! l) "typing" "Thinking..." []);
                      Send (session_event (heap w !!! l) "chat_response" text [])]
        /\ heap (world r) = heap w).
Proof.
  assert (Hfiling : analyze_user_intent "Help me understand filing"
                    = mkIntent "tax_filing" true "tax_filing" 0.7 (Some "help_guide"))
    by (vm_compute; reflexivity).
  assert (Hhelp : analyze_user_intent "Help me understand"
                  = mkIntent "help" false "chat" 0.6 None)
    by (vm_compute; reflexivity).
  split; [exact Hfiling|]. split; [|split; [exact Hhelp|]].
  - intros sid l t w Hchat.
    rewrite (loop_body_chat _ _ _ _ _ Hchat), Hfiling. cbn [requires_automation].
    rewrite decode_guard.
    destruct (run_automation_shape l "Help me understand filing"
                (mkIntent "tax_filing" true "tax_filing" 0.7 (Some "help_guide"))
                (run t) w) as (e & rest & Htr & Hty & Hst & Hmsg & Hchatfree & _).
    cbv zeta in Htr.
    destruct (out (run_automation l _ _ (run t) w)) as [[]|x];
      [|destruct (is_decode_error x)]; cbn [trace]; rewrite Htr.
    1, 3: exists e, rest; repeat split; try assumption;
          cbn [existsb chat_action]; rewrite Hty; exact Hchatfree.
    exists e, (rest ++ [Send (invalid_format_event
                                 (heap (world (run_automation l
                                    "Help me understand filing"
                                    (mkIntent "tax_filing" true "tax_filing" 0.7
                                       (Some "help_guide")) (run t) w)) !!! l))])%list.
    repeat split; try assumption.
    cbn [app existsb chat_action]. rewrite Hty, existsb_app, Hchatfree. reflexivity.
  - intros sid l t w text Hchat Hreply. cbv zeta.
    rewrite (loop_body_chat _ _ _ _ _ Hchat), Hhelp, Hreply. cbn [requires_automation].
    destruct w as [h a c]. run.
    destruct (c !! sid); run; repeat split; reflexivity.
Qed.

Lemma help_with_filing_is_automated_witness :
  existsb chat_action (trace (loop_body "s1" 1%positive help_filing_turn connected_world))
  = false
  /\ map ev_type (events (trace (loop_body "s1" 1%positive help_turn connected_world)))
     = ["typing"; "chat_response"].
Proof.
  destruct help_with_filing_is_automated as (_ & Hfiling & _ & Hhelp). split.
  - destruct (Hfiling "s1" 1%positive help_filing_turn connected_world)
      as (e & rest & _ & _ & _ & _ & H); [reflexivity|exact H].
  - destruct (Hhelp "s1" 1%positive help_turn connected_world "hi")
      as (_ & H & _); [reflexivity|reflexivity|].
    rewrite H. reflexivity.
Defined.

(** C2, as the design document states it, fails: the text is routed to
    automation, the status becomes running and then completed, and neither
    a typing nor a chat_response event is sent. *)
Lemma help_me_understand_filing_requires_automation :
  let r := loop_body "s1" 1%positive help_filing_turn connected_world in
  requires_automation (analyze_user_intent "Help me understand filing") = true
  /\ map ev_type (events (trace r)) = ["status_update"; "task_complete"]
  /\ status_writes (trace r) = [Running; Completed]
  /\ status (heap (world r) !!! 1%positive) = Completed.
Proof. vm_compute. repeat split; reflexivity. Qed.

(** ** Opening a session *)

(** C5. When the agent's constructor raises while the session is opened,
    the endpoint sends an error event with error_type "agent"; when the
    scoped error reporter has done so and is left, the session identifier
    is no longer in the registry; the endpoint then reports a connection
    error and returns, the identifier still absent. *)
Theorem agent_init_failure_closes_session (session_id : string) (e : exn)
    (script : list Turn) (w : World)
    (Hfail : is_Exception e = true) :
  let l := fresh (dom (heap w)) in
  let opened := serve session_id l (Some e) script (world (register_session session_id w)) in
  let r := websocket_endpoint session_id None (Some e) script w in
  exists ev1 ev2,
    trace opened = [Send ev1; SetStatus l Error]
    /\ ev_type ev1 = "error"
    /\ kwarg_of "error_type" (ev_kwargs ev1) = Some (KStr "agent")
    /\ active_sessions (world opened) !! session_id = None
    /\ out r = Ret Returned
    /\ trace r = [Send ev1; SetStatus l Error; Send ev2]
    /\ ev_type ev2 = "error"
    /\ active_sessions (world r) !! session_id = None.
Proof.
  destruct w as [h a c]. cbv zeta. go. rewrite Hfail. go.
  do 2 eexists. repeat split; reflexivity.
Qed.

Lemma agent_init_failure_closes_session_witness :
  let e := Exn RuntimeError "no browser" in
  let r := websocket_endpoint "s1" None (Some e) [] empty_world in
  exists ev1 ev2,
    trace (serve "s1" (fresh (dom (heap empty_world))) (Some e) []
             (world (register_session "s1" empty_world)))
    = [Send ev1; SetStatus (fresh (dom (heap empty_world))) Error]
    /\ ev_type ev1 = "error"
    /\ kwarg_of "error_type" (ev_kwargs ev1) = Some (KStr "agent")
    /\ active_sessions
         (world (serve "s1" (fresh (dom (heap empty_world))) (Some e) []
                   (world (register_session "s1" empty_world)))) !! "s1" = None
    /\ out r = Ret Returned
    /\ trace r = [Send ev1; SetStatus (fresh (dom (heap empty_world))) Error; Send ev2]
    /\ ev_type ev2 = "error"
    /\ active_sessions (world r) !! "s1" = None.
Proof.
  apply (agent_init_failure_closes_session "s1" (Exn RuntimeError "no browser") []
           empty_world).
  reflexivity.
Defined.

(** ** The lifecycle status *)

Lemma follows_app (b : bool) (s : Status) (ws1 ws2 : list Status) :
  follows b s (ws1 ++ ws2) = follows b s ws1 && follows b (last_status s ws1) ws2.
Proof.
  revert s. induction ws1 as [|x ws1 IH]; intros s; cbn; [reflexivity|].
  rewrite IH, andb_assoc. reflexivity.
Qed.

Lemma run_chat_writes (session_id : string) (l : loc) (m : string) (rp : Reply) (w : World) :
  status_writes (trace (run_chat session_id l m rp w)) = [].
Proof.
  destruct w as [h a c]. destruct rp as [[[] ?]|[[] ?]|text]; run;
    destruct (c !! session_id); run; reflexivity.
Qed.

Lemma run_stop_writes (l : loc) (st : option exn) (w : World) :
  status_writes (trace (run_stop l st w))
  = if returned (out (run_stop l st w)) then [Stopped] else [].
Proof.
  destruct w as [h a c]. destruct st as [[[] ?]|]; run;
    destruct (agent (h !!! l)); run; reflexivity.
Qed.

Lemma run_automation_writes (l : loc) (m : string) (i : Intent) (r : Run) (w : World) :
  let res := run_automation l m i r w in
  match out res with
  | Ret _ => status_writes (trace res) = [Running; Completed]
  | Raise x =>
      (if is_Exception x then status_writes (trace res) = [Running; Error]
       else status_writes (trace res) = [Running])
      /\ (is_decode_error x = true -> result r = inr x)
  end.
Proof.
  destruct (run_automation_shape l m i r w) as (e & rest & Htr & _ & _ & _ & _ & H).
  cbv zeta in *. rewrite Htr. rewrite !status_writes_cons.
  destruct (out (run_automation l m i r w)) as [[]|x].
  - rewrite H. reflexivity.
  - destruct H as [H Hd]. split; [|exact Hd].
    destruct (is_Exception x); rewrite H; reflexivity.
Qed.

(** Unfold the loop's dispatch, keeping its three branches folded. *)
Ltac dispatch :=
  cbv beta iota zeta delta
    [loop_body receive subscript str_receiver mbind M_bind mret M_ret raise after
     try_except invalid_message_format update set_heap send_status deref emit];
  cbn [received reply run stop out world trace exn_cls exn_msg app].

Lemma loop_body_writes (session_id : string) (l : loc) (t : Turn) (w : World) :
  loop_block (run_decode_error t)
    (returned (out (loop_body session_id l t w)))
    (status_writes (trace (loop_body session_id l t w))) = true.
Proof.
  destruct t as [[|[[| | | | |items]|[[] msg]]] rp rn st]; try (go; reflexivity).
  dispatch.
  destruct (assoc "type" items) as [ty|]; dispatch; [|reflexivity].
  destruct (json_is_str ty "chat_message"); dispatch.
  - destruct (assoc "message" items) as [[| | |m| |]|]; dispatch; try reflexivity.
    destruct (requires_automation (analyze_user_intent m)).
    + pose proof (run_automation_writes l m (analyze_user_intent m) rn w) as H.
      cbv zeta in H. unfold run_decode_error. cbn [run].
      destruct (run_automation l m (analyze_user_intent m) rn w) as [[[]|[[] msg]] w' tr];
        cbn [out trace] in H; dispatch;
        try (lazymatch type of H with _ /\ _ => destruct H as [H Hd] end);
        cbn [is_Exception exn_cls] in H; cbn [returned].
      all: try (rewrite ?status_writes_app, H; reflexivity).
      rewrite (Hd eq_refl), status_writes_app, H. reflexivity.
    + pose proof (run_chat_writes session_id l m rp w) as H.
      destruct (run_chat session_id l m rp w) as [[[]|[[] msg]] w' tr];
        cbn [trace] in H; dispatch; cbn [returned];
        rewrite ?status_writes_app, H; reflexivity.
  - destruct (json_is_str ty "stop_task"); dispatch; [|reflexivity].
    pose proof (run_stop_writes l st w) as H.
    destruct (run_stop l st w) as [[[]|[[] msg]] w' tr]; cbn [out trace returned] in H;
      dispatch; cbn [returned]; rewrite ?status_writes_app, H; reflexivity.
Qed.

Lemma block_step (b lenient ret : bool) (ws : list Status) (s : Status) :
  loop_block b ret ws = true ->
  implb b lenient = true ->
  idle lenient s = true ->
  follows lenient s ws = true
  /\ (ret = true -> idle lenient (last_status s ws) = true).
Proof.
  destruct ws as [|[] [|[] [|]]]; destruct s, ret, b, lenient;
    try discriminate; intros _ _ _; split; try reflexivity; intros; discriminate.
Qed.

Lemma message_loop_follows (lenient : bool) (session_id : string) (l : loc)
    (script : list Turn) :
  lenient = true \/ decode_free script = true ->
  forall w s,
    idle lenient s = true ->
    follows lenient s (status_writes (trace (message_loop session_id l script w))) = true.
Proof.
  induction script as [|t script IH]; intros Hmode w s Hs; [reflexivity|].
  assert (Ht : implb (run_decode_error t) lenient = true).
  { destruct Hmode as [->|Hfree]; [apply implb_true_r|].
    cbn [decode_free forallb] in Hfree. apply andb_true_iff in Hfree as [Hfree _].
    apply negb_true_iff in Hfree. rewrite Hfree. reflexivity. }
  assert (Hrest : lenient = true \/ decode_free script = true).
  { destruct Hmode as [->|Hfree]; [left; reflexivity|right].
    cbn [decode_free forallb] in Hfree. apply andb_true_iff in Hfree as [_ Hfree].
    exact Hfree. }
  cbn [message_loop]. unfold mbind, M_bind.
  pose proof (loop_body_writes session_id l t w) as Hblock.
  destruct (loop_body session_id l t w) as [[[]|e] w1 tr1]; cbn [out trace returned] in Hblock.
  - destruct (block_step _ _ _ _ s Hblock Ht Hs) as [Hf Hidle].
    specialize (IH Hrest w1 _ (Hidle eq_refl)).
    destruct (message_loop session_id l script w1) as [o w2 tr2].
    cbn [after trace] in IH |- *.
    rewrite status_writes_app, follows_app, Hf, IH. reflexivity.
  - cbn [trace]. apply (block_step _ _ _ _ s Hblock Ht Hs).
Qed.

Lemma cleanup_session_writes (session_id : string) (w : World) :
  status_writes (trace (cleanup_session session_id w)) = [].
Proof. destruct w as [h a c]. exec; reflexivity. Qed.

Lemma endpoint_exit_writes (session_id : string) (session : option loc) (e : exn)
    (w : World) :
  status_writes (trace (endpoint_exit session_id session e w)) = [].
Proof.
  unfold endpoint_exit, finally, finally_cleanup.
  assert (H1 : status_writes (trace ((endpoint_except session e;; mret Returned) w)) = []).
  { destruct w as [h a c]. destruct e as [[] msg]; destruct session as [l|]; go;
      try reflexivity; destruct (client_state (websocket (h !!! l))); reflexivity. }
  destruct ((endpoint_except session e;; mret Returned) w) as [o w1 tr1].
  cbn [trace] in H1. unfold mbind, M_bind, gets. cbv beta iota.
  destruct (active_sessions w1 !! session_id); unfold after.
  - pose proof (cleanup_session_writes session_id w1) as H2.
    destruct (cleanup_session session_id w1) as [[[]|e2] w2 tr2]; cbn [trace app] in H2 |- *;
      rewrite status_writes_app, H1, H2; reflexivity.
  - cbn [mret M_ret trace app]. rewrite app_nil_r. exact H1.
Qed.

(** Unfold the monad and its primitives only. *)
Ltac mcore :=
  repeat progress
    (cbv beta iota zeta delta
       [mbind M_bind mret M_ret raise try_except except_Exception emit deref update
        gets modify after finally set_heap set_active_sessions set_chat_sessions
        set_status send_status is_connected];
     cbn [out world trace heap active_sessions chat_sessions exn_cls exn_msg is_Exception
          session_id websocket agent screenshot_task status current_task step_count
          current_step error client_state
          set_agent set_screenshot_task set_websocket set_status_field set_current_task
          set_step_count set_current_step set_error
          app existsb String.eqb Ascii.eqb Bool.eqb orb];
     map_simpl).

Lemma serve_follows (lenient : bool) (session_id : string) (l : loc) (init : option exn)
    (script : list Turn) (w : World) :
  lenient = true \/ decode_free script = true ->
  follows lenient Connected (status_writes (trace (serve session_id l init script w))) = true.
Proof.
  intros Hmode. destruct w as [h a c].
  unfold serve, error_handler, initialize_automation_agent.
  destruct init as [[[] msg]|]; mcore.
  12: { match goal with |- context [message_loop ?s ?l1 ?sc ?w1] =>
          pose proof (message_loop_follows lenient s l1 sc Hmode w1 Connected eq_refl) as H;
          destruct (message_loop s l1 sc w1) as [o w2 tr2] end.
        cbn [trace] in H |- *. rewrite !status_writes_cons. exact H. }
  all: try (destruct lenient; reflexivity).
  all: destruct (client_state (websocket (h !!! l))); mcore.
  all: match goal with |- context [cleanup_session ?s ?w1] =>
         pose proof (cleanup_session_writes s w1) as Hc;
         destruct (cleanup_session s w1) as [[[]|e2] w2 tr2] end;
       cbn [trace] in Hc; mcore;
       rewrite ?status_writes_cons, ?status_writes_app, Hc;
       destruct lenient; reflexivity.
Qed.

Lemma websocket_endpoint_follows (lenient : bool) (session_id : string)
    (accept init : option exn) (script : list Turn) (w : World) :
  lenient = true \/ decode_free script = true ->
  follows lenient Connected
    (status_writes (trace (websocket_endpoint session_id accept init script w))) = true.
Proof.
  intros Hmode. unfold websocket_endpoint. destruct accept as [e|].
  - rewrite endpoint_exit_writes. reflexivity.
  - unfold mbind, M_bind, register_session, guarded_serve. cbv beta iota zeta.
    match goal with |- context [serve ?s ?l1 ?i ?sc ?w1] =>
      pose proof (serve_follows lenient s l1 i sc w1 Hmode) as H;
      destruct (serve s l1 i sc w1) as [[[]|e] w2 tr2] end;
      cbn [trace after app] in H |- *; [exact H|].
    match goal with |- context [endpoint_exit ?s ?o ?e1 ?w1] =>
      pose proof (endpoint_exit_writes s o e1 w1) as H2;
      destruct (endpoint_exit s o e1 w1) as [o3 w3 tr3] end.
    cbn [after trace app] in H2 |- *. rewrite status_writes_app, H2, app_nil_r. exact H.
Qed.

Ltac run_stream :=
  repeat progress
    (cbv beta iota zeta delta [screenshot_pass start_screenshot_stream]; run_once; map_simpl).

Lemma screenshot_pass_unregistered (l : loc) (tick : Probe Capture) (w : World) :
  active_sessions w !! session_id (heap w !!! l) = None ->
  screenshot_pass l tick w = mkResult (Ret false) w [].
Proof.
  destruct w as [h a c]. cbn [heap active_sessions]. intros H. run_stream. rewrite H.
  reflexivity.
Qed.

Lemma screenshot_pass_quiet (l : loc) (tick : Probe Capture) (w : World) :
  probe_raises tick = false ->
  let r := screenshot_pass l tick w in
  world r = w /\ forallb stream_action (trace r) = true
  /\ (forall e, out r = Raise e -> is_Exception e = false).
Proof.
  destruct w as [h a c]. cbn [heap active_sessions]. intros Hq. cbv zeta. run_stream.
  destruct (a !! session_id (h !!! l)) as [l'|]; run_stream;
    [|repeat split; try reflexivity; discriminate].
  destruct (agent (h !!! l)) as [ag|]; run_stream;
    [|repeat split; try reflexivity; discriminate].
  destruct tick as [|e|[b u t|e]]; cbn [probe_raises] in Hq; run_stream.
  - repeat split; try reflexivity; discriminate.
  - repeat split; try reflexivity; try discriminate. intros e0 [= <-]. exact Hq.
  - repeat split; try reflexivity; discriminate.
  - destruct (is_Exception e) eqn:He; run_stream.
    + destruct (client_state (websocket (h !!! l))); run_stream;
        repeat split; try reflexivity; discriminate.
    + repeat split; try reflexivity; try discriminate. intros e0 [= <-]. exact He.
Qed.

Lemma screenshot_loop_quiet (l : loc) (ticks : list (Probe Capture)) (w : World) :
  existsb probe_raises ticks = false ->
  let r := screenshot_loop l ticks w in
  world r = w /\ forallb stream_action (trace r) = true
  /\ (forall e, out r = Raise e -> is_Exception e = false).
Proof.
  cbv zeta. induction ticks as [|tick ticks IH]; intros Hq.
  - repeat split; try reflexivity. discriminate.
  - cbn [existsb] in Hq. apply orb_false_iff in Hq as [Hq1 Hq2].
    cbn [screenshot_loop]. unfold mbind, M_bind.
    destruct (screenshot_pass_quiet l tick w Hq1) as (H1 & H2 & H3). cbv zeta in *.
    destruct (screenshot_pass l tick w) as [[again|e] w1 tr1]; cbn [out world trace] in *;
      subst w1;
      [|split; [reflexivity|split; [exact H2|intros e0 [= <-]; exact (H3 e eq_refl)]]].
    destruct again.
    + destruct (IH Hq2) as (G1 & G2 & G3).
      destruct (screenshot_loop l ticks w) as [o w2 tr2]. cbn [after out world trace] in *.
      subst w2. rewrite forallb_app, H2, G2. split; [reflexivity|split; [reflexivity|exact G3]].
    + cbn [after mret M_ret out world trace]. rewrite app_nil_r.
      repeat split; try assumption. discriminate.
Qed.

Lemma stream_actions_write_no_status (tr : list Action) :
  forallb stream_action tr = true -> status_writes tr = [].
Proof.
  induction tr as [|[] tr IH]; cbn; intros H; try discriminate; [reflexivity|].
  apply andb_true_iff in H as [_ H]. exact (IH H).
Qed.

(** A pass of the stream changes nothing and writes no status, whatever
    its probe and its capture do. *)
Lemma screenshot_pass_actions (l : loc) (tick : Probe Capture) (w : World) :
  let r := screenshot_pass l tick w in
  world r = w /\ forallb stream_action (trace r) = true.
Proof.
  destruct w as [h a c]. cbv zeta. run_stream.
  destruct (a !! session_id (h !!! l)) as [l'|]; run_stream; [|split; reflexivity].
  destruct (agent (h !!! l)) as [ag|]; run_stream; [|split; reflexivity].
  destruct tick as [|e|[b u t|e]]; run_stream; try (split; reflexivity).
  destruct (is_Exception e); run_stream; [|split; reflexivity].
  destruct (client_state (websocket (h !!! l))); run_stream; split; reflexivity.
Qed.

Lemma screenshot_loop_actions (l : loc) (ticks : list (Probe Capture)) (w : World) :
  let r := screenshot_loop l ticks w in
  world r = w /\ forallb stream_action (trace r) = true.
Proof.
  cbv zeta. induction ticks as [|tick ticks IH]; [split; reflexivity|].
  cbn [screenshot_loop]. unfold mbind, M_bind.
  destruct (screenshot_pass_actions l tick w) as [H1 H2]. cbv zeta in *.
  destruct (screenshot_pass l tick w) as [[again|e] w1 tr1]; cbn [world trace] in *;
    subst w1; [|split; [reflexivity|exact H2]].
  destruct again.
  - destruct IH as [G1 G2]. destruct (screenshot_loop l ticks w) as [o w2 tr2].
    cbn [after world trace] in *. subst w2. rewrite forallb_app, H2, G2. split; reflexivity.
  - cbn [after mret M_ret world trace]. rewrite app_nil_r. split; [reflexivity|exact H2].
Qed.

(** The stream writes the status at most once, when its error reporter
    fires, and what it writes is Error. *)
Lemma stream_status_writes (l : loc) (ticks : list (Probe Capture)) (w : World) :
  let r := start_screenshot_stream l ticks w in
  match out (screenshot_loop l ticks w) with
  | Raise e =>
      if is_Exception e
      then status_writes (trace r) = [Error] /\ status (heap (world r) !!! l) = Error
           /\ out r = Raise e
      else status_writes (trace r) = []
  | Ret _ => status_writes (trace r) = []
  end.
Proof.
  cbv zeta. destruct (screenshot_loop_actions l ticks w) as [H1 H2]. cbv zeta in *.
  apply stream_actions_write_no_status in H2.
  unfold start_screenshot_stream, error_handler, try_except, except_Exception.
  destruct (screenshot_loop l ticks w) as [[p|e] w1 tr1]; cbn [out world trace] in *;
    [exact H2|]. subst w1.
  destruct (is_Exception e); [|exact H2].
  destruct w as [h a c]. mcore.
  destruct (client_state (websocket (h !!! l))); mcore;
    rewrite ?status_writes_app, H2; repeat split; reflexivity.
Qed.

(** A probe that raises ends the loop of the stream. *)
Lemma screenshot_loop_probe_raises (l : loc) (e : exn) (ticks : list (Probe Capture))
    (w : World) :
  is_Some (active_sessions w !! session_id (heap w !!! l)) ->
  is_Some (agent (heap w !!! l)) ->
  out (screenshot_loop l (Fails e :: ticks) w) = Raise e.
Proof.
  destruct w as [h a c]. cbn [heap active_sessions]. intros [l' Hreg] [ag Hagent].
  cbn [screenshot_loop]. unfold mbind, M_bind. run_stream. rewrite Hreg, Hagent.
  reflexivity.
Qed.

Lemma stream_writes_errors (l : loc) (ticks : list (Probe Capture)) (w : World) :
  forallb (fun s => bool_decide (s = Error))
    (status_writes (trace (start_screenshot_stream l ticks w))) = true.
Proof.
  pose proof (stream_status_writes l ticks w) as H. cbv zeta in H.
  destruct (out (screenshot_loop l ticks w)) as [p|e]; [rewrite H; reflexivity|].
  destruct (is_Exception e); [destruct H as [-> _]|rewrite H]; reflexivity.
Qed.

Lemma stream_writes_quiet (l : loc) (ticks : list (Probe Capture)) (w : World) :
  existsb probe_raises ticks = false ->
  status_writes (trace (start_screenshot_stream l ticks w)) = [].
Proof.
  intros Hq. pose proof (stream_status_writes l ticks w) as H. cbv zeta in H.
  destruct (screenshot_loop_quiet l ticks w Hq) as (_ & _ & H3). cbv zeta in H3.
  destruct (out (screenshot_loop l ticks w)) as [p|e]; [exact H|].
  rewrite (H3 e eq_refl) in H. exact H.
Qed.

Lemma follows_after_error (s : Status) (ws : list Status) :
  follows true s ws = true -> follows true Error ws = true.
Proof.
  destruct ws as [|x ws]; [reflexivity|]. cbn [follows]. intros H.
  apply andb_true_iff in H as [H1 H2]. rewrite H2.
  destruct s, x; try discriminate; reflexivity.
Qed.

(** Error may be written between any two writes of a history. *)
Lemma follows_interleaving (a b c : list Status) :
  interleaving a b c ->
  forallb (fun s => bool_decide (s = Error)) b = true ->
  forall s, follows true s a = true -> follows true s c = true.
Proof.
  induction 1 as [|x a b c _ IH|x a b c _ IH]; intros Hb s Ha.
  - reflexivity.
  - cbn [follows] in Ha |- *. apply andb_true_iff in Ha as [H1 H2].
    rewrite H1. exact (IH Hb x H2).
  - cbn [forallb] in Hb. apply andb_true_iff in Hb as [Hx Hb].
    apply bool_decide_eq_true in Hx. subst x. cbn [follows].
    replace (transition true s Error) with true by (destruct s; reflexivity).
    apply (IH Hb). exact (follows_after_error s a Ha).
Qed.

Lemma interleaving_alone {A} (a c : list A) : interleaving a [] c -> c = a.
Proof.
  intros H. remember [] as b eqn:Hb. induction H as [|x a b c _ IH|x a b c _ IH].
  - reflexivity.
  - rewrite (IH Hb). reflexivity.
  - discriminate.
Qed.

(** C3, as the design document states it, fails. A stop_task on a connected
    session takes the status from connected to stopped, a change that is
    not on connected, running, then completed, stopped or error; and two
    tasks in a row enter completed a second time after leaving it. *)
Lemma lifecycle_leaves_documented_path :
  status_writes (trace (websocket_endpoint "s1" None None [stop_turn] empty_world))
  = [Stopped]
  /\ documented Connected [Stopped] = false
  /\ status_writes
       (trace (websocket_endpoint "s1" None None [filing_turn; filing_turn] empty_world))
     = [Running; Completed; Running; Completed]
  /\ reenters_other_than_running Connected [Running; Completed; Running; Completed] = true.
Proof. vm_compute. repeat split; reflexivity. Qed.

(** C3 (amended). A session starts connected and connected is never written
    again. Error is written from any status: the error reporter sets it
    whatever the status is, in the command loop and in the screenshot
    stream, which writes nothing else. The history of a session's status
    is an interleaving of the writes of its command loop and of its stream,
    and every step of it is one of: error from any status; running from
    connected, completed or stopped; completed from running; stopped from
    connected, completed or stopped (a stop_task is read only between
    tasks, never while one runs); and running, completed or stopped from
    error. The changes out of error occur only after an error that did not
    end the loop: in a run where no agent run fails with a
    [JSONDecodeError] and the probe of the stream never raises, the history
    is the loop's own and has none of them. Running is left only for
    completed or error. *)
Theorem status_lifecycle (sid : string) (accept init : option exn) (script : list Turn)
    (w : World) (l : loc) (ticks : list (Probe Capture)) (w' : World)
    (history : list Status) :
  let loop_writes := status_writes (trace (websocket_endpoint sid accept init script w)) in
  let stream_writes := status_writes (trace (start_screenshot_stream l ticks w')) in
  status (new_session sid (mkWebSocket CONNECTED)) = Connected
  /\ (interleaving loop_writes stream_writes history ->
        follows true Connected history = true)
  /\ (decode_free script = true -> existsb probe_raises ticks = false ->
      interleaving loop_writes stream_writes history ->
        history = loop_writes /\ follows false Connected history = true)
  /\ (forall e, is_Exception e = true ->
        is_Some (active_sessions w' !! session_id (heap w' !!! l)) ->
        is_Some (agent (heap w' !!! l)) ->
        let r := start_screenshot_stream l (Fails e :: ticks) w' in
        status_writes (trace r) = [Error] /\ status (heap (world r) !!! l) = Error)
  /\ (forall b s, transition b s Error = true)
  /\ (forall b s, transition b s Connected = false)
  /\ (forall s, transition false s Running = true ->
                s = Connected \/ s = Completed \/ s = Stopped)
  /\ (forall s, transition false s Completed = true -> s = Running)
  /\ (forall s, transition false s Stopped = true ->
                s = Connected \/ s = Completed \/ s = Stopped)
  /\ (forall b s, transition b Running s = true -> s = Completed \/ s = Error).
Proof.
  cbv zeta. split; [reflexivity|].
  split; [|split; [|split; [|split; [|split; [|split; [|split; [|split]]]]]]].
  - intros Hi. apply (follows_interleaving _ _ _ Hi); [apply stream_writes_errors|].
    apply websocket_endpoint_follows. left. reflexivity.
  - intros Hfree Hq Hi. rewrite (stream_writes_quiet l ticks w' Hq) in Hi.
    apply interleaving_alone in Hi. subst history. split; [reflexivity|].
    apply websocket_endpoint_follows. right. exact Hfree.
  - intros e He Hreg Hagent.
    pose proof (stream_status_writes l (Fails e :: ticks) w') as H. cbv zeta in H.
    rewrite (screenshot_loop_probe_raises l e ticks w' Hreg Hagent), He in H.
    destruct H as (H1 & H2 & _). split; assumption.
  - intros b []; destruct b; reflexivity.
  - intros b []; destruct b; reflexivity.
  - intros []; cbn; intros H; try discriminate; auto.
  - intros []; cbn; intros H; try discriminate; auto.
  - intros []; cbn; intros H; try discriminate; auto.
  - intros b []; cbn; intros H; try discriminate; auto.
Qed.

Lemma status_lifecycle_witness :
  follows true Connected [Running; Error; Completed; Stopped; Running; Completed] = true
  /\ follows false Connected [Running; Completed; Stopped; Running; Completed] = true.
Proof.
  split.
  - apply (proj1 (proj2 (status_lifecycle "s1" None None
                           [filing_turn; stop_turn; filing_turn] empty_world
                           1%positive [Fails (Exn RuntimeError "probe failed")]
                           connected_world
                           [Running; Error; Completed; Stopped; Running; Completed]))).
    vm_compute.
    apply interleaving_left, interleaving_right, interleaving_left, interleaving_left,
      interleaving_left, interleaving_left, interleaving_nil.
  - apply (proj1 (proj2 (proj2 (status_lifecycle "s1" None None
                           [filing_turn; stop_turn; filing_turn] empty_world
                           1%positive sample_ticks connected_world
                           [Running; Completed; Stopped; Running; Completed])))
             eq_refl eq_refl).
    vm_compute.
    apply interleaving_left, interleaving_left, interleaving_left, interleaving_left,
      interleaving_left, interleaving_nil.
Defined.

Example lifecycle_three_commands :
  status_writes
    (trace (websocket_endpoint "s1" None None [filing_turn; stop_turn; filing_turn]
              empty_world))
  = [Running; Completed; Stopped; Running; Completed].
Proof. vm_compute. reflexivity. Qed.

(** * Further properties of the module *)

(** ** The classifier *)

Lemma lower_char_upper_char (c : ascii) : lower_char (upper_char c) = lower_char c.
Proof. destruct c as [[] [] [] [] [] [] [] []]; reflexivity. Qed.

Lemma lower_char_lower_char (c : ascii) : lower_char (lower_char c) = lower_char c.
Proof. destruct c as [[] [] [] [] [] [] [] []]; reflexivity. Qed.

Lemma lower_upper (s : string) : lower (upper s) = lower s.
Proof. induction s as [|c s IH]; cbn; [reflexivity|]. rewrite lower_char_upper_char, IH. reflexivity. Qed.

Lemma lower_lower (s : string) : lower (lower s) = lower s.
Proof. induction s as [|c s IH]; cbn; [reflexivity|]. rewrite lower_char_lower_char, IH. reflexivity. Qed.

Lemma lower_app (s t : string) : lower (s ++ t) = lower s ++ lower t.
Proof.
  induction s as [|c s IH]; [reflexivity|].
  change (String c s ++ t) with (String c (s ++ t)). cbn [lower].
  rewrite IH. reflexivity.
Qed.

(** X1. On a message of ASCII characters the classification does not
    depend on the case of the letters: the message, the message in capitals
    and the message in small letters are classified alike. *)
Theorem analyze_user_intent_ignores_case (m : string) (Hascii : ascii_text m = true) :
  analyze_user_intent (upper m) = analyze_user_intent m
  /\ analyze_user_intent (lower m) = analyze_user_intent m.
Proof.
  unfold analyze_user_intent. rewrite lower_upper, lower_lower. split; reflexivity.
Qed.

Lemma analyze_user_intent_ignores_case_witness :
  analyze_user_intent (upper "File my ITR") = analyze_user_intent "File my ITR"
  /\ analyze_user_intent (lower "File my ITR") = analyze_user_intent "File my ITR".
Proof. apply (analyze_user_intent_ignores_case "File my ITR"). reflexivity. Defined.

Lemma any_in_app_list (ks ks' : list string) (s : string) :
  any_in (ks ++ ks') s = any_in ks s || any_in ks' s.
Proof. unfold any_in. apply existsb_app. Qed.

(** X2. A message is routed to automation exactly when its
    lowered text has one of the filing or form keywords somewhere in it,
    inside a longer word included; so a message that has such a keyword
    between any two texts is routed to automation. *)
Theorem automation_iff_keyword (m : string) :
  (requires_automation (analyze_user_intent m) = true
   <-> exists k pre post, In k automation_keywords /\ lower m = pre ++ k ++ post)
  /\ (forall k pre post, In k automation_keywords ->
        requires_automation (analyze_user_intent (pre ++ k ++ post)) = true).
Proof.
  assert (H : forall m, requires_automation (analyze_user_intent m)
                        = any_in automation_keywords (lower m)).
  { intros m0. unfold automation_keywords. rewrite any_in_app_list.
    unfold analyze_user_intent.
    destruct (any_in tax_keywords (lower m0)).
    - destruct (any_in start_actions (lower m0)); [reflexivity|].
      destruct (any_in check_actions (lower m0)); [reflexivity|].
      destruct (any_in help_actions (lower m0)); reflexivity.
    - destruct (any_in form_keywords (lower m0)); [reflexivity|].
      destruct (any_in help_keywords (lower m0)); reflexivity. }
  split.
  - rewrite H. apply any_in_In.
  - intros k pre post Hin. rewrite H. apply any_in_In.
    exists k, (lower pre), (lower post). split; [exact Hin|].
    rewrite !lower_app. f_equal. f_equal.
    unfold automation_keywords in Hin. cbn in Hin.
    repeat (destruct Hin as [<-|Hin]; [reflexivity|]). destruct Hin.
Qed.

Lemma append_assoc' (a b c : string) : (a ++ b) ++ c = a ++ b ++ c.
Proof.
  induction a as [|x a IH]; [reflexivity|].
  change (String x a ++ b) with (String x (a ++ b)).
  change (String x (a ++ b) ++ c) with (String x ((a ++ b) ++ c)).
  rewrite IH. reflexivity.
Qed.

(** A keyword that has another one inside it never decides: where it
    occurs, the shorter one occurs too. *)
Lemma contains_trans (k k' s : string) :
  contains k k' = true -> contains k' s = true -> contains k s = true.
Proof.
  intros H1 H2. apply contains_app in H1 as (p1 & q1 & ->).
  apply contains_app in H2 as (p2 & q2 & ->). apply contains_app.
  exists (p2 ++ p1), (q1 ++ q2). rewrite !append_assoc'. reflexivity.
Qed.

Lemma contains_sub (k k' s : string) :
  contains k k' = true -> contains k s = false -> contains k' s = false.
Proof.
  intros H1 H2. destruct (contains k' s) eqn:H; [|reflexivity].
  rewrite (contains_trans _ _ _ H1 H) in H2. discriminate.
Qed.

(** X3. Four keywords never decide: "income tax" and "tax return"
    are found only where "tax" is, "file itr" only where "itr" is, and
    "government portal" only where "government" is, so the scans of the
    filing and the form keywords give the same answer without them. *)
Theorem subsumed_keywords (s : string) :
  any_in tax_keywords s = any_in core_tax_keywords s
  /\ any_in form_keywords s = any_in core_form_keywords s.
Proof.
  unfold any_in, tax_keywords, form_keywords, core_tax_keywords, core_form_keywords.
  cbn [existsb]. split.
  - destruct (contains "tax" s) eqn:Htax; [reflexivity|].
    rewrite (contains_sub "tax" "income tax" s eq_refl Htax).
    rewrite (contains_sub "tax" "tax return" s eq_refl Htax).
    destruct (contains "itr" s) eqn:Hitr; [reflexivity|].
    rewrite (contains_sub "itr" "file itr" s eq_refl Hitr).
    rewrite !orb_false_r. reflexivity.
  - destruct (contains "form" s); [reflexivity|].
    destruct (contains "application" s); [reflexivity|].
    destruct (contains "government" s) eqn:Hgov; [reflexivity|].
    rewrite (contains_sub "government" "government portal" s eq_refl Hgov).
    rewrite !orb_false_r. reflexivity.
Qed.

(** X4. The classifier has four outcomes (tax_filing, form_filling,
    help, chat); the task type is "chat" exactly for the two that need no
    automation; the confidence is one of six values and is above 0.6 exactly
    when automation is required; an action comes with the tax_filing intent
    only and is start_filing, check_status or help_guide. *)
Theorem analyze_user_intent_range (m : string) :
  let r := analyze_user_intent m in
  In (intent r, task_type r, requires_automation r)
     [("tax_filing", "tax_filing", true); ("form_filling", "form_filling", true);
      ("help", "chat", false); ("chat", "chat", false)]
  /\ In (confidence r) [0.5; 0.6; 0.7; 0.8; 0.9; 0.95]%float
  /\ requires_automation r = (0.6 <? confidence r)%float
  /\ (forall a, action r = Some a ->
        intent r = "tax_filing" /\ In a ["start_filing"; "check_status"; "help_guide"]).
Proof.
  cbv zeta. unfold analyze_user_intent.
  destruct (any_in tax_keywords (lower m));
    [destruct (any_in start_actions (lower m));
      [|destruct (any_in check_actions (lower m));
        [|destruct (any_in help_actions (lower m))]]
    |destruct (any_in form_keywords (lower m));
      [|destruct (any_in help_keywords (lower m))]].
  all: cbn [set_action intent task_type requires_automation confidence action].
  all: split; [cbn; tauto|split; [cbn; tauto|split; [vm_compute; reflexivity|]]].
  all: intros a [= <-]; cbn; tauto.
Qed.

(** ** Regular expressions *)

Lemma append_cons (c : ascii) (s t : string) : String c s ++ t = String c (s ++ t).
Proof. reflexivity. Qed.

Lemma append_nil_l (t : string) : "" ++ t = t.
Proof. reflexivity. Qed.

Lemma append_nil_r (t : string) : t ++ "" = t.
Proof. induction t as [|c t IH]; [reflexivity|]. rewrite append_cons, IH. reflexivity. Qed.

Lemma length_append (s t : string) :
  String.length (s ++ t) = (String.length s + String.length t)%nat.
Proof.
  induction s as [|c s IH]; [reflexivity|]. rewrite append_cons. cbn [String.length].
  rewrite IH. reflexivity.
Qed.

Lemma strip_app (l s rest : string) : Re.strip l s = Some rest <-> s = l ++ rest.
Proof.
  revert s. induction l as [|a l IH]; intros s.
  - cbn. rewrite append_nil_l. split; [intros [= ->]; reflexivity|intros ->; reflexivity].
  - destruct s as [|b s]; cbn [Re.strip]; rewrite append_cons.
    + split; discriminate.
    + destruct (Ascii.eqb_spec a b) as [->|Hne].
      * rewrite IH. split; [intros ->; reflexivity|intros [= ->]; reflexivity].
      * split; [discriminate|intros [= H _]; congruence].
Qed.

Lemma taken_app (t rest : string) : Re.taken (t ++ rest) rest = t.
Proof.
  unfold Re.taken. rewrite length_append.
  replace (String.length t + String.length rest - String.length rest)%nat
    with (String.length t) by lia.
  induction t as [|c t IH]; [destruct rest; reflexivity|].
  rewrite append_cons. cbn [String.length substring]. rewrite IH. reflexivity.
Qed.

Lemma star_sound {A} (p : Re.char_class) (s : string) (k : string -> option A) (x : A) :
  Re.star p s k = Some x ->
  exists t rest, s = t ++ rest /\ all p t = true /\ k rest = Some x.
Proof.
  induction s as [|c s IH]; cbn [Re.star]; intros H.
  - exists "", "". auto.
  - destruct (p c) eqn:Hc; [|exists "", (String c s); auto].
    destruct (Re.star p s k) as [y|] eqn:Hs.
    + injection H as ->. destruct (IH eq_refl) as (t & rest & -> & Ht & Hk).
      exists (String c t), rest. cbn [all]. rewrite Hc, Ht. auto.
    + exists "", (String c s). auto.
Qed.

Lemma rep_sound (n : nat) (p : Re.char_class) (s rest : string) :
  Re.rep n p s = Some rest ->
  exists t, s = t ++ rest /\ String.length t = n /\ all p t = true.
Proof.
  revert s. induction n as [|n IH]; intros s; cbn [Re.rep].
  - intros [= ->]. exists "". auto.
  - destruct s as [|c s]; [discriminate|]. destruct (p c) eqn:Hc; [|discriminate].
    intros H. destruct (IH s H) as (t & -> & Hl & Ht).
    exists (String c t). cbn [String.length all]. rewrite Hc, Ht, Hl. auto.
Qed.

(** The matcher finds only matches: what it consumes is in the language
    of the pattern, and a group without groups inside records exactly what
    it consumed. *)
Lemma rmatch_sound (r : Re.regex) :
  forall s groups k m,
    Re.rmatch r s groups k = Some m ->
    exists t rest groups',
      s = t ++ rest /\ matches r t /\ k rest groups' = Some m
      /\ (groupless r = true -> groups' = groups)
      /\ (forall r0, r = Re.Group r0 -> groupless r0 = true ->
                     groups' = (groups ++ [t])%list).
Proof.
  induction r as [l|p|p|n p|r1 IH1 r2 IH2|r1 IH1 r2 IH2|r0 IH]; intros s groups k m;
    cbn [Re.rmatch].
  - destruct (Re.strip l s) as [rest|] eqn:Hs; [|discriminate]. intros H.
    apply strip_app in Hs. exists l, rest, groups.
    split; [exact Hs|split; [reflexivity|split; [exact H|split; [reflexivity|discriminate]]]].
  - destruct s as [|c rest]; [discriminate|]. destruct (p c) eqn:Hc; [|discriminate].
    intros H. exists (String c ""), rest, groups.
    split; [reflexivity|split; [exists c; auto|split; [exact H|split;
      [reflexivity|discriminate]]]].
  - intros H. apply star_sound in H as (t & rest & -> & Ht & Hk).
    exists t, rest, groups.
    split; [reflexivity|split; [exact Ht|split; [exact Hk|split; [reflexivity|discriminate]]]].
  - destruct (Re.rep n p s) as [rest|] eqn:Hs; [|discriminate]. intros H.
    apply rep_sound in Hs as (t & -> & Hl & Ht).
    exists t, rest, groups.
    split; [reflexivity|split; [split; assumption|split; [exact H|split;
      [reflexivity|discriminate]]]].
  - destruct (Re.rmatch r1 s groups k) as [m1|] eqn:H1.
    + intros [= ->]. destruct (IH1 _ _ _ _ H1) as (t & rest & g & -> & Ht & Hk & Hg & _).
      exists t, rest, g.
      split; [reflexivity|split; [left; exact Ht|split; [exact Hk|split; [|discriminate]]]].
      cbn [groupless]. intros Hgl. apply andb_true_iff in Hgl as [Hgl _]. auto.
    + intros H2. destruct (IH2 _ _ _ _ H2) as (t & rest & g & -> & Ht & Hk & Hg & _).
      exists t, rest, g.
      split; [reflexivity|split; [right; exact Ht|split; [exact Hk|split; [|discriminate]]]].
      cbn [groupless]. intros Hgl. apply andb_true_iff in Hgl as [_ Hgl]. auto.
  - intros H. destruct (IH1 _ _ _ _ H) as (t1 & rest1 & g1 & -> & Ht1 & Hk1 & Hg1 & _).
    destruct (IH2 _ _ _ _ Hk1) as (t2 & rest & g2 & -> & Ht2 & Hk2 & Hg2 & _).
    exists (t1 ++ t2), rest, g2. rewrite append_assoc'.
    split; [reflexivity|split; [exists t1, t2; auto|split; [exact Hk2|split;
      [|discriminate]]]].
    cbn [groupless]. intros Hgl. apply andb_true_iff in Hgl as [Ha Hb].
    rewrite (Hg2 Hb). auto.
  - intros H. destruct (IH _ _ _ _ H) as (t & rest & g & -> & Ht & Hk & Hg & _).
    rewrite taken_app in Hk. exists t, rest, (g ++ [t])%list.
    split; [reflexivity|split; [exact Ht|split; [exact Hk|split; [discriminate|]]]].
    intros r1 [= <-] Hgl. rewrite (Hg Hgl). reflexivity.
Qed.

(** A match found by [search] starts at some position of the text. *)
Lemma search_sound (r : Re.regex) (s : string) (m : list string) :
  Re.search r s = Some m ->
  exists pre s', s = pre ++ s' /\ Re.rmatch r s' [] (fun _ groups => Some groups) = Some m.
Proof.
  induction s as [|c s IH]; cbn [Re.search].
  - destruct (Re.rmatch r "" [] _) as [m'|] eqn:H; [|discriminate].
    intros [= ->]. exists "", "". auto.
  - destruct (Re.rmatch r (String c s) [] _) as [m'|] eqn:H.
    + intros [= ->]. exists "", (String c s). auto.
    + intros Hs. destruct (IH Hs) as (pre & s' & -> & Hm).
      exists (String c pre), s'. auto.
Qed.

(** The patterns of [extract_user_data] have the form marker, separators,
    one group. *)
Lemma marker_group_sound (marker body : Re.regex) (s : string) (m : list string) :
  groupless marker = true -> groupless body = true ->
  Re.search (Re.Cat marker (Re.Cat (Re.Star separator) (Re.Group body))) s = Some m ->
  exists pre mk seps g post,
    s = pre ++ mk ++ seps ++ g ++ post
    /\ matches marker mk /\ all separator seps = true /\ matches body g /\ m = [g].
Proof.
  intros Hmk Hbody H. apply search_sound in H as (pre & s' & -> & H).
  cbn [Re.rmatch] in H.
  apply rmatch_sound in H as (mk & rest1 & g1 & -> & Hm1 & H & Hg1 & _).
  rewrite (Hg1 Hmk) in H.
  apply star_sound in H as (seps & rest2 & -> & Hseps & H).
  apply rmatch_sound in H as (g & post & g2 & -> & Hg & H & Hg2 & _).
  rewrite (Hg2 Hbody), taken_app in H. injection H as <-.
  exists pre, mk, seps, g, post. auto.
Qed.

Lemma shaped_all_length (p : Re.char_class) (n : nat) (t : string) :
  String.length t = n -> all p t = true -> shaped (repeat p n) t = true.
Proof.
  revert n. induction t as [|c t IH]; intros [|n]; cbn; try discriminate; [reflexivity|].
  intros [= Hl] H. apply andb_true_iff in H as [-> H]. exact (IH n Hl H).
Qed.

Lemma shaped_app (cs1 cs2 : list Re.char_class) (t1 t2 : string) :
  shaped cs1 t1 = true -> shaped cs2 t2 = true -> shaped (cs1 ++ cs2) (t1 ++ t2) = true.
Proof.
  revert t1. induction cs1 as [|p cs1 IH]; intros [|c t1]; cbn [shaped app];
    try discriminate.
  - intros _ H. exact H.
  - intros H1 H2. rewrite append_cons. cbn [shaped].
    apply andb_true_iff in H1 as [-> H1]. exact (IH t1 H1 H2).
Qed.

(** ** [extract_user_data] *)

Example extract_sample :
  extract_user_data "File ITR 3 for AY 2024-25, pan: pqrst6789u, mobile 9123456780"
  = mkUserData "PQRST6789U" "9123456780" "2024-25" "ITR-3" "Online Filing"
      (additional_incomes default_user_data) (deductions default_user_data).
Proof. vm_compute. reflexivity. Qed.

(** "PAN number: ..." is not read as a PAN: after "PAN" and the space the
    pattern wants the ten characters, and finds "NUMBER". *)
Example extract_pan_number_phrase :
  pan_number (extract_user_data "My PAN number: PQRST6789U") = "ABCDE1234F".
Proof. vm_compute. reflexivity. Qed.

Lemma pan_body_shaped (g : string) :
  matches (Re.Cat (Re.Rep 5 capital) (Re.Cat (Re.Rep 4 digit) (Re.Class capital))) g ->
  shaped pan_shape g = true.
Proof.
  intros (t1 & t2 & -> & [L1 A1] & t3 & t4 & -> & [L3 A3] & c & -> & Hc).
  unfold pan_shape. apply shaped_app; [apply shaped_all_length; assumption|].
  apply shaped_app; [apply shaped_all_length; assumption|].
  cbn. rewrite Hc. reflexivity.
Qed.

Lemma year_body_shaped (g : string) :
  matches (Re.Cat (Re.Rep 4 digit) (Re.Cat (Re.Lit "-") (Re.Rep 2 digit))) g ->
  shaped year_shape g = true.
Proof.
  intros (t1 & t2 & -> & [L1 A1] & t3 & t4 & -> & -> & [L4 A4]).
  unfold year_shape. apply shaped_app; [apply shaped_all_length; assumption|].
  apply (shaped_app [_] _ "-"); [reflexivity|apply shaped_all_length; assumption].
Qed.

Lemma itr_body_range (g : string) :
  matches (Re.Class one_to_four) g -> In ("ITR-" ++ g) ["ITR-1"; "ITR-2"; "ITR-3"; "ITR-4"].
Proof.
  intros (c & -> & Hc). revert Hc.
  destruct c as [[] [] [] [] [] [] [] []]; try discriminate; intros _; cbn; tauto.
Qed.

(** X5. Whatever the message, the data extracted from it are
    well formed: the PAN is five capitals, four digits and a capital, the
    mobile number ten digits, the assessment year four digits, a dash and
    two digits, the ITR type one of ITR-1 to ITR-4; the filing mode, the
    incomes and the deductions are the fixed ones. *)
Theorem extract_user_data_well_formed (user_message : string) :
  let d := extract_user_data user_message in
  shaped pan_shape (pan_number d) = true
  /\ shaped mobile_shape (mobile_number d) = true
  /\ shaped year_shape (assessment_year d) = true
  /\ In (itr_type d) ["ITR-1"; "ITR-2"; "ITR-3"; "ITR-4"]
  /\ filing_mode d = "Online Filing"
  /\ additional_incomes d = additional_incomes default_user_data
  /\ deductions d = deductions default_user_data.
Proof.
  cbv zeta. unfold extract_user_data.
  destruct (Re.search pan_pattern (upper user_message)) as [m1|] eqn:H1;
    [apply marker_group_sound in H1 as (? & ? & ? & g1 & ? & _ & _ & _ & G1 & ->);
     [apply pan_body_shaped in G1|reflexivity|reflexivity]|].
  all: destruct (Re.search mobile_pattern user_message) as [m2|] eqn:H2;
    [apply marker_group_sound in H2 as (? & ? & ? & g2 & ? & _ & _ & _ & [L2 A2] & ->);
     [pose proof (shaped_all_length digit 10 g2 L2 A2) as G2|reflexivity|reflexivity]|].
  all: destruct (Re.search year_pattern user_message) as [m3|] eqn:H3;
    [apply marker_group_sound in H3 as (? & ? & ? & g3 & ? & _ & _ & _ & G3 & ->);
     [apply year_body_shaped in G3|reflexivity|reflexivity]|].
  all: destruct (Re.search itr_pattern user_message) as [m4|] eqn:H4;
    [apply marker_group_sound in H4 as (? & ? & ? & g4 & ? & _ & _ & _ & G4 & ->);
     [apply itr_body_range in G4|reflexivity|reflexivity]|].
  all: cbn [pan_number mobile_number assessment_year itr_type filing_mode
            additional_incomes deductions set_pan_number set_mobile_number
            set_assessment_year set_itr_type default_user_data Re.group nth Nat.sub].
  all: split; [first [assumption|reflexivity]|].
  all: split; [first [assumption|reflexivity]|].
  all: split; [first [assumption|reflexivity]|].
  all: split; [first [assumption|cbn; tauto]|].
  all: split; [reflexivity|split; reflexivity].
Qed.

(** A pattern whose marker is absent from the text finds nothing. *)
Lemma search_needs_marker (marker body : Re.regex) (ks : list string) (s : string) :
  groupless marker = true -> groupless body = true ->
  (forall mk, matches marker mk -> In mk ks) ->
  any_in ks s = false ->
  Re.search (Re.Cat marker (Re.Cat (Re.Star separator) (Re.Group body))) s = None.
Proof.
  intros Hm Hb Hks Habsent.
  destruct (Re.search _ s) as [m|] eqn:H; [|reflexivity].
  apply marker_group_sound in H as (pre & mk & seps & g & post & -> & Hmk & _); try assumption.
  assert (Hin : any_in ks (pre ++ mk ++ seps ++ g ++ post) = true).
  { apply any_in_In. exists mk, pre, (seps ++ g ++ post). split; [auto|reflexivity]. }
  congruence.
Qed.

(** X6. A field keeps its default when its marker is not in the
    message: the PAN without "PAN" in the message put in capitals, the mobile
    number without "mobile", "phone" or "number", the assessment year without
    "assessment year", "AY" or "year", the ITR type without "ITR" (these three
    as written, case included); with no marker at all the result is the
    default data. *)
Theorem extract_user_data_defaults (user_message : string) :
  let d := extract_user_data user_message in
  (contains "PAN" (upper user_message) = false -> pan_number d = "ABCDE1234F")
  /\ (any_in mobile_markers user_message = false -> mobile_number d = "9876543210")
  /\ (any_in year_markers user_message = false -> assessment_year d = "2023-24")
  /\ (contains "ITR" user_message = false -> itr_type d = "ITR-2")
  /\ (contains "PAN" (upper user_message) = false ->
      any_in (mobile_markers ++ year_markers ++ ["ITR"]) user_message = false ->
      d = default_user_data).
Proof.
  cbv zeta.
  assert (Hpan : contains "PAN" (upper user_message) = false ->
                 Re.search pan_pattern (upper user_message) = None).
  { intros H. apply (search_needs_marker _ _ ["PAN"]); try reflexivity.
    - intros mk ->. left. reflexivity.
    - cbn. rewrite H. reflexivity. }
  assert (Hmob : any_in mobile_markers user_message = false ->
                 Re.search mobile_pattern user_message = None).
  { intros H. apply (search_needs_marker _ _ mobile_markers); try reflexivity; [|exact H].
    intros mk [->|[->| ->]]; cbn; tauto. }
  assert (Hyear : any_in year_markers user_message = false ->
                  Re.search year_pattern user_message = None).
  { intros H. apply (search_needs_marker _ _ year_markers); try reflexivity; [|exact H].
    intros mk [->|[->| ->]]; cbn; tauto. }
  assert (Hitr : contains "ITR" user_message = false ->
                 Re.search itr_pattern user_message = None).
  { intros H. apply (search_needs_marker _ _ ["ITR"]); try reflexivity.
    - intros mk ->. left. reflexivity.
    - cbn. rewrite H. reflexivity. }
  unfold extract_user_data.
  split; [|split; [|split; [|split]]].
  - intros H. rewrite (Hpan H).
    destruct (Re.search mobile_pattern _), (Re.search year_pattern _),
      (Re.search itr_pattern _); reflexivity.
  - intros H. rewrite (Hmob H).
    destruct (Re.search pan_pattern _), (Re.search year_pattern _),
      (Re.search itr_pattern _); reflexivity.
  - intros H. rewrite (Hyear H).
    destruct (Re.search pan_pattern _), (Re.search mobile_pattern _),
      (Re.search itr_pattern _); reflexivity.
  - intros H. rewrite (Hitr H).
    destruct (Re.search pan_pattern _), (Re.search mobile_pattern _),
      (Re.search year_pattern _); reflexivity.
  - intros H1 H2. rewrite !any_in_app_list in H2.
    apply orb_false_iff in H2 as [H2 H3]. apply orb_false_iff in H3 as [H3 H4].
    cbn in H4. rewrite orb_false_r in H4.
    rewrite (Hpan H1), (Hmob H2), (Hyear H3), (Hitr H4). reflexivity.
Qed.

Lemma extract_user_data_defaults_witness :
  extract_user_data "please file my income tax return" = default_user_data.
Proof.
  apply (extract_user_data_defaults "please file my income tax return");
    vm_compute; reflexivity.
Defined.

(** A star on separators stops in front of a character that is none. *)
Lemma star_stops {A} (p : Re.char_class) (seps rest : string) (k : string -> option A)
    (x : A) :
  all p seps = true -> k rest = Some x ->
  match rest with String c _ => p c = false | EmptyString => True end ->
  Re.star p (seps ++ rest) k = Some x.
Proof.
  intros Hs Hk Hrest. induction seps as [|c seps IH].
  - rewrite append_nil_l. destruct rest as [|c rest]; [exact Hk|].
    cbn [Re.star]. rewrite Hrest. exact Hk.
  - cbn [all] in Hs. apply andb_true_iff in Hs as [Hc Hs].
    rewrite append_cons. cbn [Re.star]. rewrite Hc, (IH Hs). reflexivity.
Qed.

Lemma group_exact (body : Re.regex) (t rest : string) (groups : list string)
    (k : string -> list string -> option (list string)) :
  (forall g k', Re.rmatch body (t ++ rest) g k' = k' rest g) ->
  Re.rmatch (Re.Group body) (t ++ rest) groups k = k rest (groups ++ [t])%list.
Proof. intros H. cbn [Re.rmatch]. rewrite H, taken_app. reflexivity. Qed.

Lemma pan_body_exact (pan rest : string) (g : list string)
    (k : string -> list string -> option (list string)) :
  shaped pan_shape pan = true ->
  Re.rmatch (Re.Cat (Re.Rep 5 capital) (Re.Cat (Re.Rep 4 digit) (Re.Class capital)))
    (pan ++ rest) g k = k rest g.
Proof.
  unfold pan_shape. cbn [repeat app].
  destruct pan as [|c1 [|c2 [|c3 [|c4 [|c5 [|c6 [|c7 [|c8 [|c9 [|c10 [|]]]]]]]]]]];
    cbn [shaped]; try discriminate; try (rewrite ?andb_false_r; discriminate).
  intros H. repeat (apply andb_true_iff in H as [? H]).
  rewrite !append_cons, append_nil_l. cbn [Re.rmatch Re.rep].
  repeat match goal with Hc : _ _ = true |- _ => rewrite Hc; clear Hc end.
  reflexivity.
Qed.

Lemma shaped_pan_starts_capital (pan post : string) :
  shaped pan_shape pan = true ->
  match pan ++ post with String c _ => separator c = false | EmptyString => True end.
Proof.
  destruct pan as [|c pan]; [discriminate|]. unfold pan_shape. cbn [repeat app shaped].
  intros H. apply andb_true_iff in H as [H _]. rewrite append_cons. revert H.
  destruct c as [[] [] [] [] [] [] [] []]; try discriminate; reflexivity.
Qed.

Lemma strip_marker_early (pre tail : string) :
  contains "PAN" pre = false -> pre <> "" ->
  Re.strip "PAN" (pre ++ "PAN" ++ tail) = None.
Proof.
  intros Hc Hne. destruct (Re.strip "PAN" (pre ++ "PAN" ++ tail)) as [rest|] eqn:H;
    [|reflexivity].
  exfalso. apply strip_app in H.
  destruct pre as [|c1 [|c2 [|c3 pre]]]; [congruence| | |].
  - rewrite !append_cons, append_nil_l in H. change ("PAN" ++ tail) with
      (String "P" (String "A" (String "N" tail))) in H. discriminate.
  - rewrite !append_cons, append_nil_l in H. change ("PAN" ++ tail) with
      (String "P" (String "A" (String "N" tail))) in H. discriminate.
  - rewrite !append_cons in H. change ("PAN" ++ rest) with
      (String "P" (String "A" (String "N" rest))) in H. injection H as -> -> -> _.
    cbn [contains] in Hc. apply orb_false_iff in Hc as [Hc _].
    change (String "P" (String "A" (String "N" pre))) with ("PAN" ++ pre) in Hc.
    rewrite (proj2 (prefix_app "PAN" _) (ex_intro _ pre eq_refl)) in Hc. discriminate.
Qed.

Lemma search_skips (r : Re.regex) (pre tail : string) :
  contains "PAN" pre = false ->
  Re.search (Re.Cat (Re.Lit "PAN") r) (pre ++ "PAN" ++ tail)
  = Re.search (Re.Cat (Re.Lit "PAN") r) ("PAN" ++ tail).
Proof.
  induction pre as [|c pre IH]; intros Hc; [reflexivity|].
  pose proof (strip_marker_early (String c pre) tail Hc ltac:(discriminate)) as Hs.
  rewrite append_cons in *. cbn [Re.search Re.rmatch]. rewrite Hs. apply IH.
  cbn [contains] in Hc. apply orb_false_iff in Hc as [_ Hc]. exact Hc.
Qed.

Lemma marker_exact (l : string) (p : Re.char_class) (body : Re.regex) (s : string)
    (g : list string) (k : string -> list string -> option (list string)) :
  Re.rmatch (Re.Cat (Re.Lit l) (Re.Cat (Re.Star p) (Re.Group body))) (l ++ s) g k
  = Re.star p s (fun rest => Re.rmatch (Re.Group body) rest g k).
Proof.
  cbn [Re.rmatch]. rewrite (proj2 (strip_app l (l ++ s) s) eq_refl). reflexivity.
Qed.

(** X7. A well-formed PAN written after the first "PAN" of the
    message, in any letter case and after any run of colons and white space,
    is the PAN extracted, in capitals. *)
Theorem pan_is_extracted (user_message pre seps pan post : string)
    (Hmsg : upper user_message = pre ++ "PAN" ++ seps ++ pan ++ post)
    (Hfirst : contains "PAN" pre = false)
    (Hseps : all separator seps = true)
    (Hpan : shaped pan_shape pan = true) :
  pan_number (extract_user_data user_message) = pan.
Proof.
  assert (Hsearch : Re.search pan_pattern (upper user_message) = Some [pan]).
  { rewrite Hmsg. unfold pan_pattern. rewrite (search_skips _ _ _ Hfirst).
    assert (Hm : Re.rmatch
                   (Re.Cat (Re.Lit "PAN")
                      (Re.Cat (Re.Star separator)
                         (Re.Group (Re.Cat (Re.Rep 5 capital)
                                      (Re.Cat (Re.Rep 4 digit) (Re.Class capital))))))
                   ("PAN" ++ seps ++ pan ++ post) []
                   (fun _ groups => Some groups) = Some [pan]).
    { rewrite marker_exact.
      apply star_stops; [exact Hseps| |apply shaped_pan_starts_capital, Hpan].
      rewrite group_exact; [reflexivity|]. intros g k'. apply pan_body_exact, Hpan. }
    change ("PAN" ++ seps ++ pan ++ post)
      with (String "P" ("AN" ++ seps ++ pan ++ post)) in *.
    cbn [Re.search]. rewrite Hm. reflexivity. }
  unfold extract_user_data. rewrite Hsearch.
  destruct (Re.search mobile_pattern _), (Re.search year_pattern _),
    (Re.search itr_pattern _); reflexivity.
Qed.

Lemma pan_is_extracted_witness :
  pan_number (extract_user_data "my pan: pqrst6789u, thanks") = "PQRST6789U".
Proof.
  apply (pan_is_extracted "my pan: pqrst6789u, thanks" "MY " ": " "PQRST6789U" ", THANKS");
    vm_compute; reflexivity.
Defined.

(** ** [get_tax_filing_task] *)

Lemma contains_peel (k : string) (c : ascii) (s : string) :
  contains k s = true -> contains k (String c s) = true.
Proof. intros H. cbn [contains]. rewrite H. apply orb_true_r. Qed.

Lemma contains_app_r (k a b : string) : contains k b = true -> contains k (a ++ b) = true.
Proof.
  intros H. induction a as [|c a IH]; [exact H|]. rewrite append_cons.
  apply contains_peel, IH.
Qed.

(** A text that has [k1] at the end of a literal part and [k2] right after
    it has [k1 ++ k2] in it. *)
Lemma contains_at (pre k1 k2 lit tail rest : string) :
  lit = pre ++ k1 -> tail = k2 ++ rest -> contains (k1 ++ k2) (lit ++ tail) = true.
Proof.
  intros -> ->. apply contains_app. exists pre, rest. rewrite !append_assoc'. reflexivity.
Qed.

(** Look for [k1 ++ _] along the segments of a text. *)
Ltac at_segment k1 :=
  lazymatch goal with
  | |- contains _ (String ?c ?s ++ _) = true =>
      let lit := constr:(String c s) in
      let n := eval vm_compute in (String.length lit - String.length k1)%nat in
      let pre := eval vm_compute in (substring 0 n lit) in
      eapply (contains_at pre k1);
      [vm_compute; reflexivity | rewrite ?append_assoc'; reflexivity]
  end.

Ltac find_segment k1 :=
  repeat first [solve [at_segment k1] | apply contains_app_r].

(** X8. The task text built for a filing request quotes the request
    verbatim between single quotes and carries the data extracted from it:
    the PAN in the details and in the login step, the mobile number, the
    assessment year and the ITR type; and the text the automation branch
    hands to the agent, the request itself or this template, always has the
    user's message in it. *)
Theorem task_carries_request (user_prompt : string) :
  let d := extract_user_data user_prompt in
  let t := get_tax_filing_task user_prompt in
  contains ("User request: '" ++ user_prompt ++ "'") t = true
  /\ contains ("- PAN Number: " ++ pan_number d) t = true
  /\ contains ("- Enter PAN: " ++ pan_number d) t = true
  /\ contains ("- Mobile: " ++ mobile_number d) t = true
  /\ contains ("* Select " ++ dq ++ assessment_year d ++ dq) t = true
  /\ contains ("* Select ITR Type: " ++ dq ++ itr_type d ++ dq) t = true
  /\ (forall i, contains user_prompt (task_text (agent_task i user_prompt)) = true).
Proof.
  cbv zeta.
  assert (Hquote : contains ("User request: '" ++ user_prompt ++ "'")
                     (get_tax_filing_task user_prompt) = true).
  { unfold get_tax_filing_task. generalize (extract_user_data user_prompt). intros d.
    find_segment "User request: '". }
  split; [exact Hquote|].
  unfold get_tax_filing_task at 1 2 3 4 5. generalize (extract_user_data user_prompt).
  intros d.
  split; [find_segment "- PAN Number: "|].
  split; [find_segment "- Enter PAN: "|].
  split; [find_segment "- Mobile: "|].
  split; [find_segment "* Select "|].
  split; [find_segment "* Select ITR Type: "|].
  intros i. unfold agent_task. destruct (String.eqb (task_type i) "tax_filing"); cbn [task_text].
  - apply (contains_trans _ ("User request: '" ++ user_prompt ++ "'")); [|exact Hquote].
    apply contains_app. exists "User request: '", "'". reflexivity.
  - apply contains_app. exists "", "". rewrite append_nil_r. reflexivity.
Qed.

(** ** Chat histories *)

(** X9. When the reply service fails with an [Exception],
    [get_chat_response] returns the fixed apology, sends nothing and leaves
    the sessions alone; if the failure was in building the client the chat
    histories are untouched, and if it was in the completion request the
    history of the session, opened with the system prompt if it was new, has
    the user's message appended and no answer to it. *)
Theorem get_chat_response_failure (user_message session_id : string) (r : Reply)
    (w : World) (Hfail : reply_fails r = true) :
  let res := get_chat_response user_message session_id r w in
  out res = Ret chat_fallback
  /\ trace res = []
  /\ heap (world res) = heap w
  /\ active_sessions (world res) = active_sessions w
  /\ chat_sessions (world res)
     = match r with
       | ClientFails _ => chat_sessions w
       | _ => <[session_id := (opened_history session_id w
                               ++ [mkChat "user" user_message])%list]> (chat_sessions w)
       end.
Proof.
  destruct w as [h a c]. unfold opened_history.
  destruct r as [e|e|text]; cbn [reply_fails] in Hfail; try discriminate.
  - destruct e as [[] msg]; try discriminate; run; repeat split; reflexivity.
  - destruct e as [[] msg]; try discriminate; run;
      destruct (c !! session_id) as [hist|] eqn:Hc; run; repeat split; try reflexivity.
    all: apply map_eq; intros k; destruct (decide (k = session_id)) as [->|Hk].
    all: rewrite ?lookup_alter_eq, ?lookup_insert_eq, ?Hc; try reflexivity.
    all: rewrite ?lookup_alter_ne, ?lookup_insert_ne by congruence; try reflexivity.
Qed.

Lemma get_chat_response_failure_witness :
  let res := get_chat_response "hello" "s1" (CompletionFails (Exn RuntimeError "timeout"))
               connected_world in
  out res = Ret chat_fallback
  /\ chat_sessions (world res) !! "s1" = Some [system_prompt; mkChat "user" "hello"].
Proof.
  destruct (get_chat_response_failure "hello" "s1"
              (CompletionFails (Exn RuntimeError "timeout")) connected_world eq_refl)
    as (H1 & _ & _ & _ & H5).
  cbv zeta. split; [exact H1|]. rewrite H5. apply lookup_insert_eq.
Defined.

(** X10. However a call of [get_chat_response] ends, it sends nothing
    and changes neither a session nor the registry nor the history of another
    identifier; the history of its own identifier is either untouched or the
    one it had, opened with the system prompt if there was none, followed by
    new messages of the user and the assistant only; and no [Exception]
    leaves the call. *)
Theorem get_chat_response_history (user_message session_id : string) (r : Reply)
    (w : World) :
  let res := get_chat_response user_message session_id r w in
  trace res = []
  /\ heap (world res) = heap w
  /\ active_sessions (world res) = active_sessions w
  /\ (forall sid', sid' <> session_id ->
        chat_sessions (world res) !! sid' = chat_sessions w !! sid')
  /\ (chat_sessions (world res) = chat_sessions w
      \/ exists added,
           chat_sessions (world res) !! session_id
           = Some (opened_history session_id w ++ added)%list
           /\ forallb spoken added = true)
  /\ (forall e, out res = Raise e -> is_Exception e = false).
Proof.
  destruct w as [h a c]. unfold opened_history. cbv zeta.
  destruct r as [[[] msg]|[[] msg]|text]; run;
    destruct (c !! session_id) as [hist|] eqn:Hc; run.
  all: split; [reflexivity|split; [reflexivity|split; [reflexivity|]]].
  all: split; [intros sid' Hs; rewrite ?lookup_alter_ne, ?lookup_insert_ne by congruence;
               reflexivity|].
  all: split; [|intros e0 [= <-]; reflexivity || (intros; discriminate)].
  all: try (left; reflexivity).
  all: right; rewrite !lookup_alter_eq, ?lookup_insert_eq, ?Hc; cbn [fmap option_fmap option_map].
  all: try (exists [mkChat "user" user_message]; split; reflexivity).
  all: try (exists [mkChat "user" user_message; mkChat "assistant" text];
            rewrite <- app_assoc; split; reflexivity).
Qed.

(** ** The error reporter *)

(** X11. When a block protected by the error reporter is left by an
    [Exception] and the error type is neither "browser" nor "agent", the same
    exception leaves the reporter; before that an error event is sent if the
    socket is connected, and only then the status is set to error and the
    message recorded, so the event still shows the status the session had
    when the block failed; nothing is unregistered and no chat history
    changes. *)
Theorem error_handler_reports {A} (l : loc) (error_type : string) (body : M A)
    (w : World) (e : exn)
    (Hbody : out (body w) = Raise e)
    (Hexc : is_Exception e = true)
    (Hkind : cleans_up error_type = false) :
  let w1 := world (body w) in
  let s := heap w1 !!! l in
  let r := error_handler l error_type body w in
  out r = Raise e
  /\ trace r = (trace (body w)
                ++ (if is_connected (websocket s)
                    then [Send (handler_event s error_type e)] else [])
                ++ [SetStatus l Error])%list
  /\ ev_status (handler_event s error_type e) = status s
  /\ heap (world r) = <[l := set_error (Some (exn_msg e)) (set_status_field Error s)]> (heap w1)
  /\ active_sessions (world r) = active_sessions w1
  /\ chat_sessions (world r) = chat_sessions w1.
Proof.
  cbv zeta. unfold error_handler, try_except, except_Exception, cleans_up in *.
  destruct (body w) as [[a|e'] [h ac c] tr]; cbn [out world trace] in *; [discriminate|].
  injection Hbody as ->. rewrite Hexc, Hkind. mcore.
  destruct (client_state (websocket (h !!! l))); mcore;
    rewrite insert_insert_eq, ?app_nil_r; repeat split; reflexivity.
Qed.

Lemma error_handler_reports_witness :
  let body := (set_status 1%positive Running;; raise (Exn RuntimeError "boom")) : M unit in
  let r := error_handler 1%positive "automation" body connected_world in
  out r = Raise (Exn RuntimeError "boom")
  /\ map ev_status (events (trace r)) = [Running]
  /\ status (heap (world r) !!! 1%positive) = Error.
Proof.
  pose proof (error_handler_reports 1%positive "automation"
                ((set_status 1%positive Running;; raise (Exn RuntimeError "boom")) : M unit)
                connected_world (Exn RuntimeError "boom") eq_refl eq_refl eq_refl) as H.
  cbv zeta in *. destruct H as (H1 & H2 & H3 & H4 & _).
  split; [exact H1|]. split.
  - rewrite H2. vm_compute. reflexivity.
  - rewrite H4. vm_compute. reflexivity.
Defined.

(** ** Commands the loop does not survive *)

(** X12. A decoded frame that is no object, that has no "type", or
    that is a chat_message without a "message" or with one that is no string
    raises a TypeError, KeyError or AttributeError out of the loop: nothing
    was sent, nothing but the time of the last activity changed, and the
    loop's [JSONDecodeError] clause does not absorb it. *)
Theorem rejected_frame_leaves_loop (session_id : string) (l : loc) (t : Turn)
    (w : World) (cls : exn_class)
    (Hbad : rejected_frame (received t) = Some cls) :
  exists msg,
    loop_body session_id l t w = mkResult (Raise (Exn cls msg)) w []
    /\ is_Exception (Exn cls msg) = true
    /\ is_decode_error (Exn cls msg) = false.
Proof.
  destruct t as [[|[data|]] rp rn st]; cbn [received rejected_frame] in Hbad;
    try discriminate.
  destruct data as [| | | | |items];
    try (injection Hbad as <-; eexists; repeat split; reflexivity).
  destruct (assoc "type" items) as [ty|] eqn:Hty.
  - destruct (json_is_str ty "chat_message") eqn:Hchat; [|discriminate].
    destruct (assoc "message" items) as [[| | |s| |]|] eqn:Hm; try discriminate;
      injection Hbad as <-; eexists; (split; [|split; reflexivity]);
      run; rewrite Hty; run; rewrite Hchat, Hm; reflexivity.
  - injection Hbad as <-. eexists. split; [|split; reflexivity].
    run. rewrite Hty. reflexivity.
Qed.

Lemma rejected_frame_leaves_loop_witness :
  exists msg,
    loop_body "s1" 1%positive
      (quiet_turn (RecvText (inl (JObj [("type", JStr "chat_message")])))) connected_world
    = mkResult (Raise (Exn KeyError msg)) connected_world []
    /\ is_Exception (Exn KeyError msg) = true
    /\ is_decode_error (Exn KeyError msg) = false.
Proof.
  apply (rejected_frame_leaves_loop "s1" 1%positive
           (quiet_turn (RecvText (inl (JObj [("type", JStr "chat_message")]))))
           connected_world KeyError).
  reflexivity.
Defined.

(** X13. A stop_task command, whatever the session is doing: when
    the agent's [stop()] returns, or there is no agent, the status is set to
    stopped and a status_update event that shows it is sent, and nothing else
    of the session changes but the time of the last activity (the current
    task and the step counter stay);
    when [stop()] raises, the status is not written, no event is sent, and
    the exception leaves the loop. *)
Theorem stop_task_stops (session_id : string) (l : loc) (t : Turn) (w : World)
    (Hstop : stop_frame (received t) = true)
    (Hquiet : stop_absorbed (heap w !!! l) t = false) :
  let s := heap w !!! l in
  let r := loop_body session_id l t w in
  match stop_fails s t with
  | Some e => r = mkResult (Raise e) w [AgentStop l]
  | None =>
      out r = Ret tt
      /\ trace r = (match agent s with Some _ => [AgentStop l] | None => [] end
                    ++ [SetStatus l Stopped;
                        Send (session_event (set_status_field Stopped s) "status_update"
                                "Task stopped by user" [])])%list
      /\ heap (world r) = <[l := set_status_field Stopped s]> (heap w)
      /\ active_sessions (world r) = active_sessions w
      /\ chat_sessions (world r) = chat_sessions w
  end.
Proof.
  destruct t as [[|[[| | | | |items]|]] rp rn st]; cbn [received stop_frame] in Hstop;
    try discriminate.
  destruct (assoc "type" items) as [ty|] eqn:Hty; [|discriminate].
  apply andb_true_iff in Hstop as [H1 H2]. apply negb_true_iff in H1.
  destruct w as [h a c]. unfold stop_fails, stop_absorbed in *. cbn [stop heap] in *.
  cbv zeta. run. rewrite Hty. run. rewrite H1, H2. run.
  destruct (agent (h !!! l)) as [ag|]; run.
  - destruct st as [[[] msg]|]; cbn [is_decode_error exn_cls] in *; try discriminate;
      run; map_simpl; repeat split; reflexivity.
  - map_simpl. repeat split; reflexivity.
Qed.

Lemma stop_task_stops_witness :
  let r := loop_body "s1" 1%positive stop_turn connected_world in
  out r = Ret tt
  /\ status_writes (trace r) = [Stopped]
  /\ status (heap (world r) !!! 1%positive) = Stopped.
Proof.
  pose proof (stop_task_stops "s1" 1%positive stop_turn connected_world eq_refl eq_refl) as H.
  cbv zeta in H. change (stop_fails (heap connected_world !!! 1%positive) stop_turn)
    with (@None exn) in H. destruct H as (H1 & H2 & H3 & _).
  split; [exact H1|]. split; [rewrite H2|rewrite H3]; vm_compute; reflexivity.
Defined.

(** X14. When [accept()] raises, the endpoint ends at once: no
    session is created or registered, nothing is sent, the world is as it
    was; an [Exception] is swallowed, a cancellation passed on. *)
Theorem refused_connection_leaves_nothing (session_id : string) (e : exn)
    (init : option exn) (script : list Turn) (w : World)
    (Hfresh : active_sessions w !! session_id = None) :
  websocket_endpoint session_id (Some e) init script w
  = mkResult (if is_Exception e then Ret Returned else Raise e) w [].
Proof.
  destruct w as [h a c]. cbn [active_sessions] in Hfresh.
  destruct e as [[] msg]; go; rewrite Hfresh; reflexivity.
Qed.

Lemma refused_connection_leaves_nothing_witness :
  websocket_endpoint "s2" (Some (Exn RuntimeError "handshake")) None [filing_turn]
    connected_world
  = mkResult (Ret Returned) connected_world [].
Proof.
  apply (refused_connection_leaves_nothing "s2" (Exn RuntimeError "handshake") None
           [filing_turn] connected_world).
  vm_compute. reflexivity.
Defined.

(** ** Automation runs *)

Lemma step_callback_counts (l : loc) (c : StepCall) (w : World) :
  let r := step_callback l c w in
  same_but_steps (heap w !!! l) (heap (world r) !!! l)
  /\ step_count (heap (world r) !!! l) = (step_count (heap w !!! l) + count_starts [c])%nat
  /\ active_sessions (world r) = active_sessions w
  /\ (call_cancels c = false -> out r = Ret tt).
Proof.
  destruct w as [h a cs]. unfold same_but_steps.
  destruct c as [[|[[] ?]|cur] [|[[] ?]|[url title]]|[|[[] ?]|la] [|[[] ?]|[url title]]];
    unfold step_callback, on_step_start, on_step_end; go;
    cbn [count_starts List.filter length]; rewrite ?Nat.add_0_r;
    repeat split; try reflexivity; try discriminate.
Qed.

Lemma run_callbacks_counts (l : loc) (cs : list StepCall) (w : World) :
  let r := run_callbacks l cs w in
  existsb call_cancels cs = false ->
  out r = Ret tt
  /\ same_but_steps (heap w !!! l) (heap (world r) !!! l)
  /\ step_count (heap (world r) !!! l) = (step_count (heap w !!! l) + count_starts cs)%nat
  /\ active_sessions (world r) = active_sessions w.
Proof.
  cbv zeta. revert w. induction cs as [|c cs IH]; intros w Hq.
  - cbn. rewrite Nat.add_0_r. unfold same_but_steps. repeat split; reflexivity.
  - cbn [existsb] in Hq. apply orb_false_iff in Hq as [Hc Hq].
    cbn [run_callbacks]. unfold mbind, M_bind.
    destruct (step_callback_counts l c w) as (S1 & N1 & R1 & O1). cbv zeta in *.
    specialize (O1 Hc).
    destruct (step_callback l c w) as [o w1 tr1]. cbn [out world] in *. subst o.
    destruct (IH w1 Hq) as (O2 & S2 & N2 & R2).
    destruct (run_callbacks l cs w1) as [o w2 tr2]. cbn [after out world] in *.
    split; [exact O2|]. split; [|split; [|congruence]].
    + unfold same_but_steps in *. intuition congruence.
    + rewrite N2, N1. unfold count_starts. cbn [List.filter].
      destruct c; cbn [length]; lia.
Qed.

Lemma step_actions_no_error (tr : list Action) :
  forallb step_action tr = true -> error_events tr = [].
Proof.
  unfold error_events.
  induction tr as [|[] tr IH]; cbn; intros H; try discriminate; [reflexivity|].
  apply andb_true_iff in H as [He H]. unfold is_error_event at 1.
  apply orb_true_iff in He as [He|He]; apply String.eqb_eq in He; rewrite He;
    cbn; exact (IH H).
Qed.

Lemma error_events_cons (a : Action) (tr : list Action) :
  error_events (a :: tr)
  = match a with
    | Send e => if is_error_event e then e :: error_events tr else error_events tr
    | _ => error_events tr
    end.
Proof. destruct a; reflexivity. Qed.

Lemma error_events_app (tr1 tr2 : list Action) :
  error_events (tr1 ++ tr2) = (error_events tr1 ++ error_events tr2)%list.
Proof. unfold error_events. rewrite events_app. apply List.filter_app. Qed.

(** X15. After an automation run that returns, the step counter is
    the number of [on_step_start] callbacks the agent made, counted from zero
    for this run, also for the callbacks that could not report (no page, a
    failing probe); the status is completed, the current task is the message,
    the error is cleared, the agent holds the task built for the intent, the
    agent was run on that task, the last event is task_complete with the
    result, and no error event was sent. *)
Theorem completed_run_counts_steps (l : loc) (m : string) (i : Intent) (r : Run)
    (w : World) (text : string)
    (Hagent : is_Some (agent (heap w !!! l)))
    (Hquiet : existsb call_cancels (calls r) = false)
    (Hres : result r = inl text) :
  let res := run_automation l m i r w in
  let s := heap (world res) !!! l in
  out res = Ret tt
  /\ status s = Completed
  /\ current_task s = Some m
  /\ step_count s = count_starts (calls r)
  /\ error s = None
  /\ agent s = Some (mkAgent (agent_task i m))
  /\ (exists tr, trace res
        = (tr ++ [SetStatus l Completed;
                  Send (session_event s "task_complete" "Task completed successfully"
                          [("result", KStr text)])])%list
        /\ In (AgentRun l (agent_task i m)) tr)
  /\ error_events (trace res) = [].
Proof.
  destruct w as [h a c]. destruct r as [cs rs]. cbn [calls result heap] in *. subst rs.
  destruct Hagent as [ag Hag]. cbv zeta. unfold agent_task.
  run. map_simpl. run. rewrite Hag. run. map_simpl. run.
  match goal with |- context [run_callbacks ?l1 ?cs1 ?w1] =>
    destruct (run_callbacks_counts l1 cs1 w1 Hquiet) as (O & Sm & N & R);
    pose proof (run_callbacks_trace l1 cs1 w1) as Hcb;
    destruct (run_callbacks l1 cs1 w1) as [o [h2 a2 c2] tr1] end.
  cbn [out world trace heap active_sessions] in *. subst o. revert Sm N. map_simpl.
  unfold same_but_steps. cbn [session_id websocket agent screenshot_task status
    current_task error step_count set_agent set_status_field set_current_task set_error
    set_current_step set_step_count].
  intros (S1 & S2 & S3 & S4 & S5 & S6 & S7) N. run. map_simpl.
  cbn [status current_task step_count error agent set_status_field].
  repeat split; try assumption.
  - eexists (_ :: _ :: _ :: tr1). cbn [app]. rewrite app_nil_r. split; [reflexivity|].
    cbn. auto.
  - cbn [app]. rewrite app_nil_r.
    rewrite !error_events_cons, !error_events_app, (step_actions_no_error _ Hcb).
    reflexivity.
Qed.

Lemma completed_run_counts_steps_witness :
  let res := run_automation 1%positive "fill the application form"
               (analyze_user_intent "fill the application form") (run three_step_turn)
               connected_world in
  out res = Ret tt
  /\ step_count (heap (world res) !!! 1%positive) = 3%nat
  /\ agent (heap (world res) !!! 1%positive)
     = Some (mkAgent (PlainTask "fill the application form")).
Proof.
  destruct (completed_run_counts_steps 1%positive "fill the application form"
              (analyze_user_intent "fill the application form") (run three_step_turn)
              connected_world "done")
    as (H1 & _ & _ & H4 & _ & H6 & _);
    try (vm_compute; reflexivity); [vm_compute; eexists; reflexivity|].
  repeat split; assumption.
Defined.

(** X16. When the agent's run fails with an [Exception] (other than a
    [JSONDecodeError]) on a connected session, the failure is reported twice,
    first as "Automation step failed: ..." and then by the error reporter,
    both events still showing the status running; the status ends as error
    with the message recorded, the session stays registered, and the
    exception leaves the command loop. *)
Theorem failed_run_ends_loop (sid : string) (l : loc) (t : Turn) (m : string)
    (w : World) (e : exn)
    (Hchat : chat_text (received t) = Some m)
    (Hroute : requires_automation (analyze_user_intent m) = true)
    (Hquiet : existsb call_cancels (calls (run t)) = false)
    (Hrun : result (run t) = inr e)
    (Hexc : is_Exception e = true)
    (Hdec : is_decode_error e = false)
    (Hagent : is_Some (agent (heap w !!! l)))
    (Hconn : is_connected (websocket (heap w !!! l)) = true) :
  let r := loop_body sid l t w in
  let s := heap (world r) !!! l in
  out r = Raise e
  /\ map ev_message (error_events (trace r))
     = ["Automation step failed: " ++ exn_msg e; exn_msg e]
  /\ map ev_status (error_events (trace r)) = [Running; Running]
  /\ status_writes (trace r) = [Running; Error]
  /\ status s = Error
  /\ error s = Some (exn_msg e)
  /\ step_count s = count_starts (calls (run t))
  /\ active_sessions (world r) = active_sessions w.
Proof.
  cbv zeta. rewrite (loop_body_chat _ _ _ _ _ Hchat), Hroute, decode_guard.
  destruct t as [rc rp [cs rs] st]. cbn [run calls result] in *. subst rs.
  assert (Hrun : let res := run_automation l m (analyze_user_intent m) (mkRun cs (inr e)) w in
                 let s := heap (world res) !!! l in
                 out res = Raise e
                 /\ map ev_message (error_events (trace res))
                    = ["Automation step failed: " ++ exn_msg e; exn_msg e]
                 /\ map ev_status (error_events (trace res)) = [Running; Running]
                 /\ status_writes (trace res) = [Running; Error]
                 /\ status s = Error
                 /\ error s = Some (exn_msg e)
                 /\ step_count s = count_starts cs
                 /\ active_sessions (world res) = active_sessions w).
  { destruct w as [h a c]. cbn [heap active_sessions] in *. destruct Hagent as [ag Hag].
    unfold is_connected in Hconn. cbv zeta.
    run. map_simpl. run. rewrite Hag. run. map_simpl. run.
    match goal with |- context [run_callbacks ?l1 ?cs1 ?w1] =>
      destruct (run_callbacks_counts l1 cs1 w1 Hquiet) as (O & Sm & N & R);
      pose proof (run_callbacks_trace l1 cs1 w1) as Hcb;
      destruct (run_callbacks l1 cs1 w1) as [o [h2 a2 c2] tr1] end.
    cbn [out world trace heap active_sessions] in *. subst o. revert Sm N. map_simpl.
    unfold same_but_steps. cbn [session_id websocket agent screenshot_task status
      current_task error step_count set_agent set_status_field set_current_task set_error
      set_current_step set_step_count].
    intros (S1 & S2 & S3 & S4 & S5 & S6 & S7) N. run. rewrite Hexc. run. map_simpl. run.
    rewrite Hexc. run. map_simpl. run. rewrite S2.
    destruct (client_state (websocket (h !!! l))); try discriminate. run. map_simpl.
    cbn [status current_task step_count error agent set_status_field set_error app].
    rewrite ?app_nil_r, <- !app_assoc.
    rewrite !error_events_cons, !status_writes_cons, !error_events_app, !status_writes_app,
      (step_actions_no_error _ Hcb), (step_actions_write_no_status _ Hcb).
    unfold error_events, events, status_writes. cbn. rewrite S5.
    repeat split; try assumption; reflexivity. }
  cbv zeta in Hrun. destruct Hrun as (H1 & Hrest). rewrite H1, Hdec. split; [exact H1|].
  exact Hrest.
Qed.

Lemma failed_run_ends_loop_witness :
  let r := loop_body "s1" 1%positive failing_run_turn connected_world in
  out r = Raise (Exn RuntimeError "browser closed")
  /\ map ev_message (error_events (trace r))
     = ["Automation step failed: browser closed"; "browser closed"]
  /\ status_writes (trace r) = [Running; Error]
  /\ step_count (heap (world r) !!! 1%positive) = 1%nat.
Proof.
  destruct (failed_run_ends_loop "s1" 1%positive failing_run_turn "file my tax return"
              connected_world (Exn RuntimeError "browser closed"))
    as (H1 & H2 & _ & H4 & _ & _ & H7 & _);
    try (vm_compute; reflexivity); [vm_compute; eexists; reflexivity|].
  repeat split; assumption.
Defined.

(** ** What a session's loop may change *)

Section Within.
Variable R : World -> World -> Prop.
Variable P : Action -> bool.
Hypothesis R_refl : forall w, R w w.
Hypothesis R_trans : forall w1 w2 w3, R w1 w2 -> R w2 w3 -> R w1 w3.

Lemma within_ret {A} (a : A) : within R P (mret a).
Proof. intros w. split; [apply R_refl|reflexivity]. Qed.

Lemma within_raise {A} (e : exn) : within R P (raise e : M A).
Proof. intros w. split; [apply R_refl|reflexivity]. Qed.

Lemma within_gets {A} (f : World -> A) : within R P (gets f).
Proof. intros w. split; [apply R_refl|reflexivity]. Qed.

Lemma within_deref (l : loc) : within R P (deref l).
Proof. intros w. split; [apply R_refl|reflexivity]. Qed.

Lemma within_emit (a : Action) : P a = true -> within R P (emit a).
Proof. intros H w. split; [apply R_refl|cbn; rewrite H; reflexivity]. Qed.

Lemma within_modify (f : World -> World) : (forall w, R w (f w)) -> within R P (modify f).
Proof. intros H w. split; [apply H|reflexivity]. Qed.

Lemma within_bind {A B} (m : M A) (f : A -> M B) :
  within R P m -> (forall a, within R P (f a)) -> within R P (m ≫= f).
Proof.
  intros Hm Hf w. unfold mbind, M_bind. destruct (Hm w) as [H1 H2].
  destruct (m w) as [[a|e] w1 tr1]; cbn [world trace] in *; [|auto].
  destruct (Hf a w1) as [H3 H4]. destruct (f a w1) as [o w2 tr2].
  cbn [after world trace] in *. split; [eauto|].
  rewrite forallb_app, H2, H4. reflexivity.
Qed.

Lemma within_try {A} (body : M A) (handler : exn -> option (M A)) :
  within R P body -> (forall e h, handler e = Some h -> within R P h) ->
  within R P (try_except body handler).
Proof.
  intros Hm Hh w. unfold try_except. destruct (Hm w) as [H1 H2].
  destruct (body w) as [[a|e] w1 tr1]; cbn [world trace] in *; [auto|].
  destruct (handler e) as [h|] eqn:He; cbn [world trace]; [|auto].
  destruct (Hh e h He w1) as [H3 H4]. destruct (h w1) as [o w2 tr2].
  cbn [after world trace] in *. split; [eauto|].
  rewrite forallb_app, H2, H4. reflexivity.
Qed.

Lemma within_except {A} (handler : exn -> M A) :
  (forall e, within R P (handler e)) ->
  forall e h, except_Exception handler e = Some h -> within R P h.
Proof.
  intros H e h. unfold except_Exception. destruct (is_Exception e); [|discriminate].
  intros [= <-]. apply H.
Qed.
End Within.

Lemma Frame_refl (ws : bool) (sid : string) (l : loc) (w : World) : Frame ws sid l w w.
Proof. repeat split; auto. Qed.

Lemma Frame_trans (ws : bool) (sid : string) (l : loc) (w1 w2 w3 : World) :
  Frame ws sid l w1 w2 -> Frame ws sid l w2 w3 -> Frame ws sid l w1 w3.
Proof.
  intros (A1 & B1 & C1 & D1 & E1 & F1 & G1) (A2 & B2 & C2 & D2 & E2 & F2 & G2).
  repeat split; try congruence; intros.
  - rewrite B2, B1; auto.
  - rewrite C2, C1; auto.
  - auto.
  - rewrite G2, G1; auto.
Qed.

Section Framed.
Context (ws : bool) (sid : string) (l : loc).

Lemma framed_ret {A} (a : A) : framed ws sid l (mret a).
Proof. apply within_ret, Frame_refl. Qed.

Lemma framed_raise {A} (e : exn) : framed ws sid l (raise e : M A).
Proof. apply within_raise, Frame_refl. Qed.

Lemma framed_gets {A} (f : World -> A) : framed ws sid l (gets f).
Proof. apply within_gets, Frame_refl. Qed.

Lemma framed_deref (l' : loc) : framed ws sid l (deref l').
Proof. apply within_deref, Frame_refl. Qed.

Lemma framed_emit (a : Action) : loop_action a = true -> framed ws sid l (emit a).
Proof. apply within_emit, Frame_refl. Qed.

Lemma framed_bind {A B} (m : M A) (f : A -> M B) :
  framed ws sid l m -> (forall a, framed ws sid l (f a)) -> framed ws sid l (m ≫= f).
Proof. apply within_bind, Frame_trans. Qed.

Lemma framed_try {A} (body : M A) (handler : exn -> option (M A)) :
  framed ws sid l body -> (forall e h, handler e = Some h -> framed ws sid l h) ->
  framed ws sid l (try_except body handler).
Proof. apply within_try, Frame_trans. Qed.

Lemma framed_except {A} (handler : exn -> M A) :
  (forall e, framed ws sid l (handler e)) ->
  forall e h, except_Exception handler e = Some h -> framed ws sid l h.
Proof. apply within_except. Qed.

Lemma framed_update (f : AutomationSession -> AutomationSession) :
  keeps_fields ws f -> framed ws sid l (update l f).
Proof.
  intros Hf [h a c]. split; [|reflexivity].
  destruct (Hf (h !!! l)) as (H1 & H2 & H3 & H4).
  unfold update, Frame. cbn [world heap active_sessions chat_sessions set_heap].
  rewrite lookup_total_insert_eq. repeat split; auto.
  intros l' Hl'. apply lookup_insert_ne. congruence.
Qed.

Lemma framed_send_status (ty msg : string) (kw : list (string * kwarg)) :
  framed ws sid l (send_status l ty msg kw).
Proof.
  unfold send_status. apply framed_bind; [apply framed_deref|].
  intros s. apply framed_emit. reflexivity.
Qed.

Lemma framed_set_status (st : Status) : framed ws sid l (set_status l st).
Proof.
  unfold set_status. apply framed_bind.
  - apply framed_update. intros s. repeat split; auto.
  - intros _. apply framed_emit. reflexivity.
Qed.
End Framed.

Ltac fields :=
  intros ?; cbn; repeat split; intros; try assumption; try reflexivity;
  try discriminate; try (eexists; reflexivity).

Ltac framed_step :=
  match goal with
  | |- framed _ _ _ (mret _) => apply framed_ret
  | |- framed _ _ _ (raise _) => apply framed_raise
  | |- framed _ _ _ (gets _) => apply framed_gets
  | |- framed _ _ _ (deref _) => apply framed_deref
  | |- framed _ _ _ (send_status _ _ _ _) => apply framed_send_status
  | |- framed _ _ _ (set_status _ _) => apply framed_set_status
  | |- framed _ _ _ (emit _) => apply framed_emit; reflexivity
  | |- framed _ _ _ (update _ _) => apply framed_update; fields
  | |- framed _ _ _ (mbind _ _) => apply framed_bind; [|intros ?]
  | |- framed _ _ _ (try_except _ (except_Exception _)) =>
      apply framed_try; [|apply framed_except; intros ?]
  | |- framed _ _ _ (match ?x with _ => _ end) => destruct x
  end.

Ltac framed_auto := repeat framed_step.

Section FramedLoop.
Context (ws : bool) (sid : string) (l : loc).

(** A change of the chat table that leaves the other histories alone. *)
Lemma framed_chat (g : gmap string (list ChatMessage) -> gmap string (list ChatMessage)) :
  (forall c sid', sid' <> sid -> g c !! sid' = c !! sid') ->
  framed ws sid l (modify (fun w => set_chat_sessions (g (chat_sessions w)) w)).
Proof.
  intros Hg. apply within_modify. intros [h a c]. repeat split; auto.
  intros sid' Hs. cbn. apply Hg, Hs.
Qed.

Lemma framed_get_chat_response (m : string) (r : Reply) :
  framed ws sid l (get_chat_response m sid r).
Proof.
  assert (Happend : forall x, framed ws sid l (chat_append sid x)).
  { intros x. unfold chat_append.
    apply (framed_chat (alter (fun h => (h ++ [x])%list) sid)).
    intros c sid' Hs. apply lookup_alter_ne. congruence. }
  unfold get_chat_response. framed_auto; try apply Happend.
  apply (framed_chat (fun c => <[sid := [system_prompt]]> c)).
  intros c sid' Hs. apply lookup_insert_ne. congruence.
Qed.

Lemma framed_run_chat (m : string) (r : Reply) : framed ws sid l (run_chat sid l m r).
Proof. unfold run_chat. framed_auto. apply framed_get_chat_response. Qed.

Lemma framed_run_stop (st : option exn) : framed ws sid l (run_stop l st).
Proof. unfold run_stop. framed_auto. Qed.

Lemma framed_step_callback (c : StepCall) : framed ws sid l (step_callback l c).
Proof. unfold step_callback, on_step_start, on_step_end. framed_auto. Qed.

Lemma framed_run_callbacks (cs : list StepCall) : framed ws sid l (run_callbacks l cs).
Proof.
  induction cs as [|c cs IH]; cbn [run_callbacks]; [apply framed_ret|].
  apply framed_bind; [apply framed_step_callback|intros _; exact IH].
Qed.

Lemma framed_handle_automation_step (a : Agent) (r : Run) :
  framed ws sid l (handle_automation_step l a r).
Proof.
  unfold handle_automation_step. framed_auto. apply framed_run_callbacks.
Qed.

(** The error reporter around a block, for the error types that trigger
    no cleanup. *)
Lemma framed_error_handler {A} (error_type : string) (body : M A) :
  existsb (String.eqb error_type) ["browser"; "agent"] = false ->
  framed ws sid l body -> framed ws sid l (error_handler l error_type body).
Proof.
  intros Hty Hbody. unfold error_handler. rewrite Hty. framed_auto. exact Hbody.
Qed.

Lemma framed_run_automation (m : string) (i : Intent) (r : Run) :
  framed ws sid l (run_automation l m i r).
Proof.
  unfold run_automation. apply framed_error_handler; [reflexivity|].
  framed_auto. apply framed_handle_automation_step.
Qed.

Lemma framed_loop_body (t : Turn) :
  (ws = true -> received t <> RecvDisconnect) ->
  framed ws sid l (loop_body sid l t).
Proof.
  intros Hws. unfold loop_body. apply framed_try.
  - apply framed_bind.
    + unfold receive. destruct (received t) as [|[data|]].
      * destruct ws; [exfalso; apply Hws; reflexivity|]. framed_auto.
      * apply framed_ret.
      * apply framed_raise.
    + intros data. unfold subscript, str_receiver. framed_auto.
      * apply framed_run_automation.
      * apply framed_run_chat.
      * apply framed_run_stop.
  - intros e h. unfold invalid_message_format.
    destruct (exn_cls e); try discriminate. intros [= <-]. apply framed_send_status.
Qed.
End FramedLoop.

Lemma framed_message_loop (sid : string) (l : loc) (script : list Turn) :
  framed false sid l (message_loop sid l script).
Proof.
  induction script as [|t script IH]; cbn [message_loop]; [apply framed_ret|].
  apply framed_bind; [apply framed_loop_body; discriminate|intros _; exact IH].
Qed.

Lemma loop_body_disconnect (sid : string) (l : loc) (t : Turn) (w : World) :
  received t = RecvDisconnect ->
  out (loop_body sid l t w) = Raise (Exn WebSocketDisconnect "").
Proof. destruct t as [rc rp rn st]. cbn [received]. intros ->. reflexivity. Qed.

(** A loop that is still waiting has kept the connection. *)
Lemma message_loop_returned (sid : string) (l : loc) (script : list Turn) (w : World) :
  returned (out (message_loop sid l script w)) = true ->
  Frame true sid l w (world (message_loop sid l script w)).
Proof.
  revert w. induction script as [|t script IH]; intros w; [intros _; apply Frame_refl|].
  cbn [message_loop]. unfold mbind, M_bind.
  pose proof (loop_body_disconnect sid l t w) as Hdis.
  pose proof (framed_loop_body true sid l t) as Hfr.
  destruct (loop_body sid l t w) as [[[]|e] w1 tr1] eqn:Hlb; cbn [out] in *;
    [|discriminate].
  assert (Hne : received t <> RecvDisconnect)
    by (intros Hd; specialize (Hdis Hd); discriminate).
  destruct (Hfr (fun _ => Hne) w) as [H1 _]. rewrite Hlb in H1. cbn [world] in H1.
  specialize (IH w1). destruct (message_loop sid l script w1) as [o w2 tr2].
  cbn [after out world] in *. intros Hret.
  eapply Frame_trans; [exact H1|apply IH, Hret].
Qed.

(** [cleanup_session] on a session whose screenshot task has not failed. *)
Lemma cleanup_session_succeeds (session_id : string) (w : World) :
  screenshot_task_failed session_id w = false ->
  let r := cleanup_session session_id w in
  out r = Ret tt
  /\ trace r = release_actions session_id w
  /\ active_sessions (world r) = delete session_id (active_sessions w)
  /\ chat_sessions (world r) = chat_sessions w
  /\ (forall l', active_sessions w !! session_id <> Some l' ->
        heap (world r) !! l' = heap w !! l').
Proof.
  destruct w as [h a c]. unfold screenshot_task_failed, release_actions. exec; intros Htask;
    try discriminate; repeat split; try reflexivity.
  all: try (intros l' Hl'; apply lookup_insert_ne; congruence).
  symmetry. apply delete_id. assumption.
Qed.

Lemma endpoint_except_report (session : option loc) (e : exn) (w : World) :
  (endpoint_except session e;; mret Returned) w
  = mkResult (if is_Exception e then Ret Returned else Raise e) w
      (connection_error session e w).
Proof.
  destruct w as [h a c]. unfold connection_error.
  destruct e as [[] msg]; destruct session as [l|]; go; try reflexivity;
    destruct (client_state (websocket (h !!! l))); reflexivity.
Qed.

Lemma endpoint_exit_result (session_id : string) (session : option loc) (e : exn)
    (w : World) :
  screenshot_task_failed session_id w = false ->
  let r := endpoint_exit session_id session e w in
  out r = (if is_Exception e then Ret Returned else Raise e)
  /\ trace r = (connection_error session e w ++ release_actions session_id w)%list
  /\ active_sessions (world r) = delete session_id (active_sessions w)
  /\ chat_sessions (world r) = chat_sessions w
  /\ (forall l', active_sessions w !! session_id <> Some l' ->
        heap (world r) !! l' = heap w !! l').
Proof.
  intros Htask. cbv zeta. unfold endpoint_exit, finally.
  rewrite endpoint_except_report. unfold finally_cleanup, mbind, M_bind, gets.
  cbv beta iota.
  destruct (cleanup_session_succeeds session_id w Htask) as (H1 & H2 & H3 & H4 & H5).
  destruct (active_sessions w !! session_id) as [l|] eqn:Hl.
  - destruct (cleanup_session session_id w) as [o w1 tr1]. cbn [out trace world after] in *.
    subst o tr1. cbn [out trace world]. repeat split; assumption.
  - cbn [mret M_ret out trace world]. unfold release_actions. rewrite Hl.
    rewrite delete_id by assumption. destruct (is_Exception e); repeat split;
      rewrite ?app_nil_r; reflexivity.
Qed.

Lemma serve_opens (sid : string) (l : loc) (script : list Turn) (w : World) :
  serve sid l None script (registered sid l w)
  = after [Send (connection_event sid); TaskCreate l]
      (message_loop sid l script (opened sid l w)).
Proof.
  destruct w as [h a c]. unfold serve, error_handler, initialize_automation_agent,
    registered, opened, connection_event, with_agent. mcore.
  destruct (message_loop sid l script _) as [o w2 tr2]. reflexivity.
Qed.

(** The world after the agent failed to start: the session is marked and,
    if the failure was reported, unregistered. *)
Lemma serve_init_fails (sid : string) (l : loc) (e : exn) (script : list Turn)
    (w : World) :
  let r := serve sid l (Some e) script (registered sid l w) in
  exists e', out r = Raise e'
    /\ is_Exception e' = is_Exception e
    /\ active_sessions (world r)
       = (if is_Exception e then delete sid (active_sessions (registered sid l w))
          else active_sessions (registered sid l w))
    /\ chat_sessions (world r) = chat_sessions w
    /\ (forall l', l' <> l -> heap (world r) !! l' = heap w !! l')
    /\ screenshot_task (heap (world r) !!! l) = None.
Proof.
  destruct w as [h a c]. cbv zeta. unfold registered.
  cbn [heap active_sessions chat_sessions set_heap set_active_sessions].
  destruct (is_Exception e) eqn:He; go; rewrite He; go; rewrite ?He; go.
  all: eexists; repeat split; try reflexivity; try exact He.
  all: intros l' Hl'; rewrite !lookup_insert_ne by congruence; reflexivity.
Qed.

Lemma after_nil {A} (r : Result A) : after [] r = r.
Proof. destruct r. reflexivity. Qed.

Lemma websocket_endpoint_run (sid : string) (accept init : option exn)
    (script : list Turn) (w : World) :
  active_sessions w !! sid = None ->
  let l := fresh (dom (heap w)) in
  let r := websocket_endpoint sid accept init script w in
  (forall l', l' <> l -> heap (world r) !! l' = heap w !! l')
  /\ (forall sid', sid' <> sid -> chat_sessions (world r) !! sid' = chat_sessions w !! sid')
  /\ match out r with
     | Ret (Waiting l0) =>
         l0 = l /\ accept = None /\ init = None
         /\ active_sessions (world r) = <[sid := l]> (active_sessions w)
         /\ session_id (heap (world r) !!! l) = sid
         /\ websocket (heap (world r) !!! l) = mkWebSocket CONNECTED
         /\ is_Some (agent (heap (world r) !!! l))
         /\ screenshot_task (heap (world r) !!! l) = Some Pending
         /\ exists tr, forallb loop_action tr = true
                       /\ trace r = Send (connection_event sid) :: TaskCreate l :: tr
     | _ =>
         active_sessions (world r) = active_sessions w
         /\ (accept = None -> init = None ->
             exists tr, forallb loop_action tr = true
                        /\ trace r = (Send (connection_event sid) :: TaskCreate l :: tr
                                      ++ teardown l)%list)
     end.
Proof.
  intros Hfresh. cbv zeta. unfold websocket_endpoint. destruct accept as [e|].
  - assert (Htask : screenshot_task_failed sid w = false)
      by (unfold screenshot_task_failed; rewrite Hfresh; reflexivity).
    destruct (endpoint_exit_result sid None e w Htask) as (H1 & H2 & H3 & H4 & H5).
    cbv zeta in *. rewrite H1, H3, H4. split; [|split].
    + intros l' _. apply H5. rewrite Hfresh. discriminate.
    + reflexivity.
    + rewrite delete_id by assumption.
      destruct (is_Exception e); (split; [reflexivity|discriminate]).
  - set (l := fresh (dom (heap w))).
    change ((register_session sid ≫= (fun l0 => guarded_serve sid l0 init script)) w)
      with (after [] (guarded_serve sid l init script (registered sid l w))).
    rewrite after_nil.
    unfold guarded_serve. destruct init as [e|].
    + destruct (serve_init_fails sid l e script w) as (e' & H1 & H2 & H3 & H4 & H5 & H6).
      cbv zeta in *.
      destruct (serve sid l (Some e) script (registered sid l w)) as [o w1 tr1].
      cbn [out world] in *. subst o.
      assert (Hl1 : forall l1, active_sessions w1 !! sid = Some l1 -> l1 = l).
      { intros l1 Hl1. destruct (is_Exception e); rewrite H3 in Hl1.
        - rewrite lookup_delete_eq in Hl1. discriminate.
        - unfold registered in Hl1. cbn in Hl1. rewrite lookup_insert_eq in Hl1.
          congruence. }
      assert (Htask : screenshot_task_failed sid w1 = false).
      { unfold screenshot_task_failed. destruct (active_sessions w1 !! sid) as [l1|] eqn:Hx;
          [|reflexivity].
        rewrite (Hl1 l1 eq_refl), H6. reflexivity. }
      destruct (endpoint_exit_result sid (Some l) e' w1 Htask) as (G1 & G2 & G3 & G4 & G5).
      cbv zeta in *. destruct (endpoint_exit sid (Some l) e' w1) as [o w2 tr2].
      cbn [out world after] in *. subst o. split; [|split].
      * intros l' Hl'. rewrite <- H5 by assumption. apply G5.
        intros Hx. apply Hl1 in Hx. congruence.
      * intros sid' _. rewrite G4, H4. reflexivity.
      * assert (Hreg : active_sessions w2 = active_sessions w).
        { rewrite G3, H3. unfold registered. cbn.
          destruct (is_Exception e); rewrite ?delete_delete_eq, delete_insert_eq;
            apply delete_id, Hfresh. }
        destruct (is_Exception e'); (split; [exact Hreg|discriminate]).
    + rewrite serve_opens.
      destruct (framed_message_loop sid l script (opened sid l w)) as [Hfr Hact].
      pose proof (message_loop_returned sid l script (opened sid l w)) as Hret.
      assert (Hl : heap (opened sid l w) !!! l
                   = set_screenshot_task (Some Pending) (with_agent sid)).
      { unfold opened. cbn. apply lookup_total_insert_eq. }
      destruct (message_loop sid l script (opened sid l w)) as [[[]|e] w1 tr1].
      * cbn [after out world trace returned] in *. specialize (Hret eq_refl).
        destruct Hret as (A1 & B1 & C1 & D1 & E1 & F1 & G1).
        rewrite Hl in *. split; [|split].
        -- intros l' Hl'. rewrite B1 by assumption. unfold opened, registered. cbn.
           rewrite !lookup_insert_ne by congruence. reflexivity.
        -- intros sid' Hs. rewrite C1 by assumption. reflexivity.
        -- repeat split; try assumption.
           ++ rewrite G1 by reflexivity. reflexivity.
           ++ apply F1. eexists. reflexivity.
           ++ exists tr1. split; [exact Hact|reflexivity].
      * cbn [after out world trace returned] in *.
        destruct Hfr as (A1 & B1 & C1 & D1 & E1 & F1 & _).
        rewrite Hl in *.
        assert (Hreg : active_sessions w1 !! sid = Some l).
        { rewrite A1. unfold opened, registered. cbn. apply lookup_insert_eq. }
        assert (Htask : screenshot_task_failed sid w1 = false).
        { unfold screenshot_task_failed. rewrite Hreg, E1. reflexivity. }
        assert (Hrel : release_actions sid w1 = teardown l).
        { unfold release_actions. rewrite Hreg, E1.
          destruct (F1 (ltac:(eexists; reflexivity))) as [ag ->]. reflexivity. }
        destruct (endpoint_exit_result sid (Some l) e w1 Htask) as (G1 & G2 & G3 & G4 & G5).
        cbv zeta in *. destruct (endpoint_exit sid (Some l) e w1) as [o w2 tr2].
        cbn [out world trace after] in *. subst o. split; [|split].
        -- intros l' Hl'. rewrite G5 by (rewrite Hreg; congruence).
           rewrite B1 by assumption. unfold opened, registered. cbn.
           rewrite !lookup_insert_ne by congruence. reflexivity.
        -- intros sid' Hs. rewrite G4, C1 by assumption. reflexivity.
        -- assert (Hfin : active_sessions w2 = active_sessions w).
           { rewrite G3, A1. unfold opened, registered. cbn.
             rewrite delete_insert_eq. apply delete_id, Hfresh. }
           assert (Htr : exists tr, forallb loop_action tr = true
                           /\ (Send (connection_event sid) :: TaskCreate l :: tr1 ++ tr2
                               = Send (connection_event sid) :: TaskCreate l :: tr
                                 ++ teardown l)%list).
           { exists (tr1 ++ connection_error (Some l) e w1)%list. split.
             - rewrite forallb_app, Hact. unfold connection_error.
               destruct (exn_cls e); try reflexivity;
                 destruct (is_Exception e && is_connected (websocket (heap w1 !!! l)));
                 reflexivity.
             - rewrite G2, Hrel, <- app_assoc. reflexivity. }
           destruct (is_Exception e); (split; [exact Hfin|intros _ _; exact Htr]).
Qed.

(** X17. An endpoint touches its own session only: the registry
    entries of the other identifiers, the session objects that existed when
    it started and the chat histories of the other identifiers are, at any
    point of its run and after it, what they were. *)
Theorem websocket_endpoint_isolated (sid : string) (accept init : option exn)
    (script : list Turn) (w : World)
    (Hfresh : active_sessions w !! sid = None) :
  let r := websocket_endpoint sid accept init script w in
  (forall sid', sid' <> sid -> active_sessions (world r) !! sid' = active_sessions w !! sid')
  /\ (forall l', is_Some (heap w !! l') -> heap (world r) !! l' = heap w !! l')
  /\ (forall sid', sid' <> sid -> chat_sessions (world r) !! sid' = chat_sessions w !! sid').
Proof.
  destruct (websocket_endpoint_run sid accept init script w Hfresh) as (Hheap & Hchat & Hout).
  cbv zeta in *. split; [|split; [|exact Hchat]].
  - intros sid' Hs.
    destruct (out (websocket_endpoint sid accept init script w)) as [[l0|]|e].
    + destruct Hout as (_ & _ & _ & -> & _). apply lookup_insert_ne. congruence.
    + destruct Hout as [-> _]. reflexivity.
    + destruct Hout as [-> _]. reflexivity.
  - intros l' Hl'. apply Hheap. intros ->.
    apply elem_of_dom in Hl'. exact (is_fresh (dom (heap w)) Hl').
Qed.

Lemma websocket_endpoint_isolated_witness :
  let r := websocket_endpoint "s2" None None [filing_turn; stop_turn] connected_world in
  (forall sid', sid' <> "s2" ->
     active_sessions (world r) !! sid' = active_sessions connected_world !! sid')
  /\ (forall l', is_Some (heap connected_world !! l') ->
        heap (world r) !! l' = heap connected_world !! l')
  /\ (forall sid', sid' <> "s2" ->
        chat_sessions (world r) !! sid' = chat_sessions connected_world !! sid').
Proof.
  apply (websocket_endpoint_isolated "s2" None None [filing_turn; stop_turn] connected_world).
  vm_compute. reflexivity.
Defined.

(** X18. While an endpoint waits for the next frame its session is
    registered under its identifier, carries that identifier, is connected
    and has its agent, and the loop has left its screenshot task as it was
    scheduled when the session was opened. *)
Theorem waiting_session_is_served (sid : string) (accept init : option exn)
    (script : list Turn) (w : World)
    (Hfresh : active_sessions w !! sid = None)
    (Hwait : is_waiting (out (websocket_endpoint sid accept init script w)) = true) :
  let l := fresh (dom (heap w)) in
  let r := websocket_endpoint sid accept init script w in
  out r = Ret (Waiting l)
  /\ active_sessions (world r) !! sid = Some l
  /\ session_id (heap (world r) !!! l) = sid
  /\ websocket (heap (world r) !!! l) = mkWebSocket CONNECTED
  /\ is_Some (agent (heap (world r) !!! l))
  /\ screenshot_task (heap (world r) !!! l) = Some Pending.
Proof.
  destruct (websocket_endpoint_run sid accept init script w Hfresh) as (_ & _ & Hout).
  cbv zeta in *.
  destruct (out (websocket_endpoint sid accept init script w)) as [[l0|]|e];
    try discriminate.
  destruct Hout as (-> & _ & _ & Hreg & Hid & Hws & Hag & Htask & _).
  repeat split; try assumption. rewrite Hreg. apply lookup_insert_eq.
Qed.

Lemma waiting_session_is_served_witness :
  let l := fresh (dom (heap empty_world)) in
  let r := websocket_endpoint "s1" None None [filing_turn; help_turn; stop_turn] empty_world in
  out r = Ret (Waiting l)
  /\ active_sessions (world r) !! "s1" = Some l
  /\ session_id (heap (world r) !!! l) = "s1"
  /\ websocket (heap (world r) !!! l) = mkWebSocket CONNECTED
  /\ is_Some (agent (heap (world r) !!! l))
  /\ screenshot_task (heap (world r) !!! l) = Some Pending.
Proof.
  apply (waiting_session_is_served "s1" None None [filing_turn; help_turn; stop_turn]
           empty_world); vm_compute; reflexivity.
Defined.

(** X19. When an endpoint that opened its session is done, however
    the loop was left (the screenshot task not having ended by itself), the
    registry is what it was before the connection,
    and the run reads: the connection event, the start of the screenshot
    task, the events, status writes and agent calls of the loop with the
    endpoint's own report, and last the release, once: the screenshot task
    cancelled and awaited, the agent closed. *)
Theorem closed_session_is_released (sid : string) (script : list Turn) (w : World)
    (Hfresh : active_sessions w !! sid = None)
    (Hdone : is_waiting (out (websocket_endpoint sid None None script w)) = false) :
  let l := fresh (dom (heap w)) in
  let r := websocket_endpoint sid None None script w in
  active_sessions (world r) = active_sessions w
  /\ exists tr,
       trace r = (Send (connection_event sid) :: TaskCreate l :: tr ++ teardown l)%list
       /\ forallb loop_action tr = true.
Proof.
  destruct (websocket_endpoint_run sid None None script w Hfresh) as (_ & _ & Hout).
  cbv zeta in *.
  destruct (out (websocket_endpoint sid None None script w)) as [[l0|]|e];
    try discriminate.
  all: destruct Hout as [Hreg Htr]; split; [exact Hreg|].
  all: destruct (Htr eq_refl eq_refl) as (tr & Hact & ->); exists tr; split;
    [reflexivity|exact Hact].
Qed.

Lemma closed_session_is_released_witness :
  let l := fresh (dom (heap empty_world)) in
  let r := websocket_endpoint "s1" None None [filing_turn; disconnect_turn] empty_world in
  active_sessions (world r) = active_sessions empty_world
  /\ exists tr,
       trace r = (Send (connection_event "s1") :: TaskCreate l :: tr ++ teardown l)%list
       /\ forallb loop_action tr = true.
Proof.
  apply (closed_session_is_released "s1" [filing_turn; disconnect_turn] empty_world);
    vm_compute; reflexivity.
Defined.

(** X20. [health_check] changes nothing and reports "healthy"
    with the number of registered sessions: after any run of an endpoint
    (the screenshot task not having ended by itself) that number is the one
    before the connection, plus one exactly while the endpoint waits for a
    frame. *)
Theorem health_check_counts_waiting (sid : string) (accept init : option exn)
    (script : list Turn) (w : World)
    (Hfresh : active_sessions w !! sid = None) :
  let r := websocket_endpoint sid accept init script w in
  health_check (world r)
  = mkResult
      (Ret (mkHealth "healthy"
              (if is_waiting (out r) then S (size (active_sessions w))
               else size (active_sessions w))))
      (world r) [].
Proof.
  destruct (websocket_endpoint_run sid accept init script w Hfresh) as (_ & _ & Hout).
  cbv zeta in *. unfold health_check, mbind, M_bind, gets, mret, M_ret. cbn [after out].
  destruct (out (websocket_endpoint sid accept init script w)) as [[l0|]|e].
  - destruct Hout as (_ & _ & _ & -> & _). cbn [is_waiting].
    rewrite map_size_insert_None by assumption. reflexivity.
  - destruct Hout as [-> _]. reflexivity.
  - destruct Hout as [-> _]. reflexivity.
Qed.

Lemma health_check_counts_waiting_witness :
  out (health_check (world (websocket_endpoint "s2" None None [help_turn] connected_world)))
  = Ret (mkHealth "healthy" 2)
  /\ out (health_check
            (world (websocket_endpoint "s2" None None [disconnect_turn] connected_world)))
     = Ret (mkHealth "healthy" 1).
Proof.
  split.
  - rewrite (health_check_counts_waiting "s2" None None [help_turn] connected_world);
      vm_compute; reflexivity.
  - rewrite (health_check_counts_waiting "s2" None None [disconnect_turn] connected_world);
      vm_compute; reflexivity.
Defined.

(** ** The screenshot stream *)

(** X21. A capture that fails with an [Exception] does not end the
    stream: the pass sends one error event of type "screenshot" flagged
    recoverable if the socket is connected and nothing otherwise, changes
    nothing, and the loop goes on. *)
Theorem failed_capture_is_recoverable (l : loc) (e : exn) (w : World)
    (Hexc : is_Exception e = true)
    (Hreg : is_Some (active_sessions w !! session_id (heap w !!! l)))
    (Hagent : is_Some (agent (heap w !!! l))) :
  screenshot_pass l (Present (CaptureFails e)) w
  = mkResult (Ret true) w
      (if is_connected (websocket (heap w !!! l))
       then [Send (capture_error (heap w !!! l))] else []).
Proof.
  destruct w as [h a c]. cbn [heap active_sessions] in *.
  destruct Hreg as [l' Hreg]. destruct Hagent as [ag Hag].
  run_stream. rewrite Hreg, Hag. run_stream. rewrite Hexc. run_stream.
  destruct (client_state (websocket (h !!! l))); reflexivity.
Qed.

Lemma failed_capture_is_recoverable_witness :
  screenshot_pass 1%positive (Present (CaptureFails (Exn RuntimeError "page crashed")))
    connected_world
  = mkResult (Ret true) connected_world
      [Send (capture_error (heap connected_world !!! 1%positive))].
Proof.
  apply (failed_capture_is_recoverable 1%positive (Exn RuntimeError "page crashed")
           connected_world); vm_compute; try reflexivity; eexists; reflexivity.
Defined.

(** X22. As long as probing the agent for its browser context does
    not raise, the stream never reaches its error reporter: it changes
    nothing of the world, writes no status, sends only screenshot events and
    recoverable screenshot errors, and is left by no [Exception]. *)
Theorem screenshot_stream_only_reports (l : loc) (ticks : list (Probe Capture)) (w : World)
    (Hq : existsb probe_raises ticks = false) :
  let r := start_screenshot_stream l ticks w in
  r = screenshot_loop l ticks w
  /\ world r = w
  /\ forallb stream_action (trace r) = true
  /\ status_writes (trace r) = []
  /\ (forall e, out r = Raise e -> is_Exception e = false).
Proof.
  cbv zeta. destruct (screenshot_loop_quiet l ticks w Hq) as (H1 & H2 & H3). cbv zeta in *.
  assert (Heq : start_screenshot_stream l ticks w = screenshot_loop l ticks w).
  { unfold start_screenshot_stream, error_handler, try_except, except_Exception.
    destruct (screenshot_loop l ticks w) as [[p|e] w1 tr1]; cbn [out] in *; [reflexivity|].
    rewrite (H3 e eq_refl). reflexivity. }
  rewrite Heq. repeat split; try assumption.
  apply stream_actions_write_no_status, H2.
Qed.

Lemma screenshot_stream_only_reports_witness :
  let r := start_screenshot_stream 1%positive sample_ticks connected_world in
  world r = connected_world
  /\ map ev_type (events (trace r)) = ["screenshot"; "error"]
  /\ status_writes (trace r) = [].
Proof.
  destruct (screenshot_stream_only_reports 1%positive sample_ticks connected_world eq_refl)
    as (_ & H1 & _ & H3 & _).
  split; [exact H1|]. split; [vm_compute; reflexivity|exact H3].
Defined.

Lemma cleanup_session_keeps_id (sid : string) (l : loc) (w : World) :
  session_id (heap (world (cleanup_session sid w)) !!! l) = session_id (heap w !!! l).
Proof.
  destruct w as [h a c]. exec; try reflexivity.
  all: match goal with
       | |- context [<[?l' := _]> _ !!! _] =>
           destruct (decide (l' = l)) as [->|Hne];
           [map_simpl; reflexivity|rewrite lookup_total_insert_ne by exact Hne; reflexivity]
       end.
Qed.

(** X23. After [cleanup_session] has removed a session, a stream
    of that session that runs once more stops at its first pass, having sent
    nothing. *)
Theorem stream_stops_after_cleanup (sid : string) (l : loc) (tick : Probe Capture)
    (ticks : list (Probe Capture)) (w : World)
    (Hid : session_id (heap w !!! l) = sid)
    (Htask : screenshot_task_failed sid w = false) :
  let w' := world (cleanup_session sid w) in
  out (cleanup_session sid w) = Ret tt
  /\ start_screenshot_stream l (tick :: ticks) w' = mkResult (Ret Finished) w' [].
Proof.
  cbv zeta. destruct (cleanup_session_succeeds sid w Htask) as (H1 & _ & H3 & _).
  cbv zeta in *. split; [exact H1|].
  pose proof (cleanup_session_keeps_id sid l w) as Hk. rewrite Hid in Hk.
  unfold start_screenshot_stream, error_handler, try_except. cbn [screenshot_loop].
  unfold mbind, M_bind. rewrite screenshot_pass_unregistered; [reflexivity|].
  rewrite Hk, H3. apply lookup_delete_eq.
Qed.

Lemma stream_stops_after_cleanup_witness :
  let w' := world (cleanup_session "s1" connected_world) in
  out (cleanup_session "s1" connected_world) = Ret tt
  /\ start_screenshot_stream 1%positive sample_ticks w' = mkResult (Ret Finished) w' [].
Proof.
  apply (stream_stops_after_cleanup "s1" 1%positive Absent
           [Present (Captured "/9j/4AAQ" "https://portal" "Login");
            Present (CaptureFails (Exn RuntimeError "page crashed"))] connected_world);
    vm_compute; reflexivity.
Defined.

(** ** A screenshot task that failed *)

(** X24. When the screenshot task of a session has ended with an [Exception],
    [cleanup_session] cancels and awaits it, meets the exception, and raises
    a SessionError that carries its message: the agent is not closed and the
    session stays registered, for this call and for every later one. *)
Theorem failed_stream_blocks_cleanup (sid : string) (l : loc) (e : exn) (w : World)
    (Hreg : active_sessions w !! sid = Some l)
    (Htask : screenshot_task (heap w !!! l) = Some (Done (TRaised e)))
    (Hexc : is_Exception e = true) :
  let r := cleanup_session sid w in
  out r = Raise (Exn SessionError ("Failed to clean up session: " ++ exn_msg e))
  /\ trace r = [TaskCancel l; TaskAwait l]
  /\ active_sessions (world r) = active_sessions w
  /\ screenshot_task (heap (world r) !!! l) = Some (Done (TRaised e))
  /\ agent (heap (world r) !!! l) = agent (heap w !!! l)
  /\ out (cleanup_session sid (world r)) = out r.
Proof.
  assert (Hone : forall w0, active_sessions w0 !! sid = Some l ->
            screenshot_task (heap w0 !!! l) = Some (Done (TRaised e)) ->
            cleanup_session sid w0
            = mkResult (Raise (Exn SessionError ("Failed to clean up session: " ++ exn_msg e)))
                (set_heap (<[l := set_screenshot_task (Some (Done (TRaised e)))
                                    (heap w0 !!! l)]> (heap w0)) w0)
                [TaskCancel l; TaskAwait l]).
  { intros [h a c] Hr Ht. cbn [heap active_sessions] in *. go. rewrite Hr. go. rewrite Ht.
    destruct e as [[] msg]; try discriminate; go; reflexivity. }
  cbv zeta. rewrite (Hone w Hreg Htask). cbn [out world trace heap active_sessions set_heap].
  rewrite lookup_total_insert_eq. cbn [screenshot_task agent set_screenshot_task].
  repeat split; try reflexivity.
  rewrite Hone; [reflexivity|exact Hreg|].
  cbn [heap set_heap]. rewrite lookup_total_insert_eq. reflexivity.
Qed.

Lemma failed_stream_blocks_cleanup_witness :
  let r := cleanup_session "s1" failed_world in
  out r = Raise (Exn SessionError "Failed to clean up session: probe failed")
  /\ trace r = [TaskCancel 1%positive; TaskAwait 1%positive]
  /\ active_sessions (world r) !! "s1" = Some 1%positive.
Proof.
  destruct (failed_stream_blocks_cleanup "s1" 1%positive (Exn RuntimeError "probe failed")
              failed_world) as (H1 & H2 & H3 & _); try (vm_compute; reflexivity).
  cbv zeta. split; [exact H1|]. split; [exact H2|]. rewrite H3. vm_compute. reflexivity.
Defined.
